(** * excel-mcp: the tool wrappers and the download/process/upload orchestration

    A shallow embedding of [src/excel_mcp/server.py] and of
    [src/excel_mcp/workbook.py].  Python functions become functions in a
    state-and-exception monad over a world made of a file system and an
    event trace; the spreadsheet library, the network, the JSON decoder and
    the interpreter's own wording of built-in errors are fields of an
    environment record, and what [workbook.py] takes from [openpyxl] is a
    record of its own. *)

From Stdlib Require Import ZArith Ascii String List Bool Lia.
From stdpp Require Import base strings list gmap.
Import ListNotations.

Local Open Scope string_scope.
Local Open Scope list_scope.
Set Warnings "-register-all".

(* ===================================================================== *)
(** ** Strings *)
(* ===================================================================== *)

Definition is_slash (c : ascii) : bool := Ascii.eqb c "/"%char.

Fixpoint has_slash (s : string) : bool :=
  match s with
  | EmptyString => false
  | String c r => is_slash c || has_slash r
  end.

(** [s.startswith('/')] and [s.endswith('/')]. *)
Definition startswith_slash (s : string) : bool :=
  match s with
  | String c _ => is_slash c
  | EmptyString => false
  end.

Fixpoint endswith_slash (s : string) : bool :=
  match s with
  | EmptyString => false
  | String c EmptyString => is_slash c
  | String _ r => endswith_slash r
  end.

(** [s.split('/')]: the segments between separators, never an empty list. *)
Fixpoint split_slash (s : string) : list string :=
  match s with
  | EmptyString => [EmptyString]
  | String c r =>
      if is_slash c then EmptyString :: split_slash r
      else match split_slash r with
           | h :: t => String c h :: t
           | [] => [String c EmptyString]
           end
  end.

(** [s.rfind('/')], with [None] for Python's [-1]. *)
Fixpoint rfind_slash (s : string) : option nat :=
  match s with
  | EmptyString => None
  | String c r =>
      match rfind_slash r with
      | Some i => Some (S i)
      | None => if is_slash c then Some 0 else None
      end
  end.

(** The slices [s[n:]] and [s[:n]]. *)
Fixpoint str_drop (n : nat) (s : string) : string :=
  match n, s with
  | O, _ => s
  | S n', String _ r => str_drop n' r
  | S _, EmptyString => EmptyString
  end.

Fixpoint str_take (n : nat) (s : string) : string :=
  match n, s with
  | O, _ => EmptyString
  | S n', String c r => String c (str_take n' r)
  | S _, EmptyString => EmptyString
  end.

Fixpoint all_slashes (s : string) : bool :=
  match s with
  | EmptyString => true
  | String c r => is_slash c && all_slashes r
  end.

(** [s.rstrip('/')]. *)
Fixpoint rstrip_slash (s : string) : string :=
  match s with
  | EmptyString => EmptyString
  | String c r => if all_slashes r && is_slash c then EmptyString
                  else String c (rstrip_slash r)
  end.

(** [needle in hay] for strings, as a proposition. *)
Definition occurs_in (needle hay : string) : Prop :=
  exists pre post, hay = pre +:+ needle +:+ post.

(* ===================================================================== *)
(** ** [os.path] on a POSIX host ([posixpath]) *)
(* ===================================================================== *)

Definition os_path_isabs (s : string) : bool := startswith_slash s.

(** [posixpath.join(a, b)]: an absolute [b] replaces [a]; otherwise [b] is
    appended, with a separator unless [a] is empty or already ends in one. *)
Definition os_path_join (a b : string) : string :=
  if startswith_slash b then b
  else if (String.eqb a "" || endswith_slash a) then a +:+ b
  else a +:+ "/" +:+ b.

(** [posixpath.basename(p)]: [p[p.rfind('/') + 1:]]. *)
Definition os_path_basename (p : string) : string :=
  match rfind_slash p with
  | Some i => str_drop (S i) p
  | None => p
  end.

(** [posixpath.dirname(p)]: the head up to the last separator, with trailing
    separators stripped unless the head consists of separators only. *)
Definition os_path_dirname (p : string) : string :=
  let head := match rfind_slash p with
              | Some i => str_take (S i) p
              | None => EmptyString
              end in
  if all_slashes head then head else rstrip_slash head.

(* ===================================================================== *)
(** ** Python values *)
(* ===================================================================== *)

(** The values that travel through the tools: what [json.loads] produces,
    plus [VObj] for any other object (a float, a workbook handle), known by
    its type name, its truth value and its printed form. *)
Inductive pyval : Type :=
| VNone
| VBool (b : bool)
| VInt (n : Z)
| VStr (s : string)
| VList (items : list pyval)
| VDict (entries : list (string * pyval))
| VObj (type_name : string) (truth : bool) (text : string).

(** A [dict] with string keys, in insertion order. *)
Abbreviation dict := (list (string * pyval)).

Definition type_name_of (v : pyval) : string :=
  match v with
  | VNone => "NoneType"
  | VBool _ => "bool"
  | VInt _ => "int"
  | VStr _ => "str"
  | VList _ => "list"
  | VDict _ => "dict"
  | VObj t _ _ => t
  end.

(** Truth-value testing ([if v], [not v], [a or b]). *)
Definition truthy (v : pyval) : bool :=
  match v with
  | VNone => false
  | VBool b => b
  | VInt n => negb (Z.eqb n 0)
  | VStr s => negb (String.eqb s "")
  | VList l => match l with [] => false | _ => true end
  | VDict d => match d with [] => false | _ => true end
  | VObj _ t _ => t
  end.

Fixpoint dict_get (k : string) (d : dict) : option pyval :=
  match d with
  | [] => None
  | (k', v) :: r => if String.eqb k k' then Some v else dict_get k r
  end.

Definition dict_has (k : string) (d : dict) : bool :=
  match dict_get k d with Some _ => true | None => false end.

Definition dict_keys (d : dict) : list string := map fst d.

(* ===================================================================== *)
(** ** Exceptions *)
(* ===================================================================== *)

(** Modelled from the spec: [excel_mcp/exceptions.py] is not among the
    sources; the spec's taxonomy lists validation, workbook, sheet, data,
    formatting, calculation, pivot and chart errors, each carrying a
    human-readable message.  They are taken as unrelated sibling classes.
    The remaining constructors are the built-in and library exceptions the
    embedded code can meet; all of them derive from [Exception]. *)
Inductive exc_class : Type :=
| ValidationError | WorkbookError | SheetError | DataError
| FormattingError | CalculationError | PivotError | ChartError
| ValueError | TypeError | KeyError | AttributeError
| FileNotFoundError | SameFileError | HTTPError
| OtherError (name : string).

#[global] Instance exc_class_eq_dec : EqDecision exc_class.
Proof. solve_decision. Defined.

(** An exception object: its class, [str(e)], and the [__cause__] set by
    [raise ... from ...] (absent for a plain [raise X(...)]). *)
Inductive exn : Type :=
| Exn (cls : exc_class) (text : string) (cause : option exn).

Definition exn_class (e : exn) : exc_class := let 'Exn c _ _ := e in c.
Definition exn_str (e : exn) : string := let 'Exn _ t _ := e in t.
Definition exn_cause (e : exn) : option exn := let 'Exn _ _ c := e in c.

(** [X(msg)] as the operand of a plain [raise]. *)
Definition new_exn (c : exc_class) (msg : string) : exn := Exn c msg None.

(** [isinstance(e, (c1, ..., cn))]. *)
Definition is_instance (e : exn) (cs : list exc_class) : bool :=
  existsb (fun c => bool_decide (exn_class e = c)) cs.

(* ===================================================================== *)
(** ** The world: a file system and a trace of observable events *)
(* ===================================================================== *)

(** Entry points of the spreadsheet layer, under the names [server.py]
    imports them by. *)
Inductive lib_fn : Type :=
| validate_formula_impl | validate_range_impl | create_chart_impl
| get_workbook_info | write_data | create_pivot_table_impl
| copy_sheet | delete_sheet | rename_sheet | merge_range | unmerge_range
| apply_formula_impl | format_range_func | read_excel_range
| create_workbook_impl | create_worksheet_impl
| copy_range_operation | delete_range_operation.

Inductive level : Type := INFO | ERROR.

(** What a run does that can be observed from outside: a log record, an
    HTTP request, the call of a tool function with its path and keywords,
    a call into the spreadsheet layer with its arguments. *)
Inductive event : Type :=
| EvLog (lvl : level) (text : string)
| EvGet (url : string)
| EvPost (endpoint filename content : string)
| EvTool (name filepath : string) (kwargs : dict)
| EvLib (fn : lib_fn) (args : list pyval) (kwargs : dict).

(** Paths are file names as written: two different strings are two files. *)
Record world : Type := World {
  files : gmap string string;
  trace : list event
}.

(** What the interpreter and the libraries word themselves: the situations
    in which a built-in error is raised.  Their text comes from the
    environment. *)
Inductive builtin_error : Type :=
| NoSuchFile (path : string)
| SameFile (src dst : string)
| HttpStatus (status : Z) (url : string)
| NoAttribute (v : pyval) (attr : string)
| BadSubscript (v : pyval) (key : string)
| MissingKey (key : string)
| NotIterable (v : pyval)
| NotContainer (v : pyval)
| UnexpectedKeyword (fn key : string)
| MultipleValues (fn name : string)
| MissingArguments (fn : string) (names : list string).

Inductive http_outcome : Type :=
| NetworkFailure (e : exn)
| Response (status_code : Z) (text : string).

Inductive result (A : Type) : Type :=
| Ok (a : A)
| Raise (e : exn).
Arguments Ok {A} a.
Arguments Raise {A} e.

(** Everything the embedded code takes from outside. *)
Record Env : Type := {
  EXCEL_FILES_PATH : string;       (* os.environ.get("EXCEL_FILES_PATH", ...) *)
  gettempdir : string;             (* tempfile.gettempdir() *)
  uuid4 : string;                  (* str(uuid.uuid4()) of this request *)
  py_repr : pyval -> string;       (* repr() of a value that is not a str *)
  describe : builtin_error -> string;
  json_loads : string -> option pyval;   (* None: json.JSONDecodeError *)
  requests_get : string -> http_outcome;
  requests_post : string -> string -> string -> http_outcome;
  write_fault : string -> option exn;    (* a path that cannot be written *)
  library : lib_fn -> list pyval -> dict -> gmap string string ->
            result pyval * gmap string string
}.

(* ===================================================================== *)
(** ** The monad: state that survives an exception *)
(* ===================================================================== *)

Definition M (A : Type) : Type := world -> result A * world.

Definition ret {A} (a : A) : M A := fun w => (Ok a, w).

Definition raise {A} (e : exn) : M A := fun w => (Raise e, w).

Definition bind {A B} (m : M A) (k : A -> M B) : M B :=
  fun w => match m w with
           | (Ok a, w') => k a w'
           | (Raise e, w') => (Raise e, w')
           end.

(** [try: body except Exception as e: handler(e)]. *)
Definition try_except {A} (body : M A) (handler : exn -> M A) : M A :=
  fun w => match body w with
           | (Ok a, w') => (Ok a, w')
           | (Raise e, w') => handler e w'
           end.

Declare Scope py_scope.
Delimit Scope py_scope with py.
Notation "x <- c1 ;; c2" := (bind c1 (fun x => c2))
  (at level 100, c1 at next level, right associativity) : py_scope.
Notation "c1 ;; c2" := (bind c1 (fun _ => c2))
  (at level 100, right associativity) : py_scope.
Local Open Scope py_scope.

Definition emit (ev : event) : M unit :=
  fun w => (Ok tt, World (files w) (trace w ++ [ev])).

Definition logger_info (text : string) : M unit := emit (EvLog INFO text).
Definition logger_error (text : string) : M unit := emit (EvLog ERROR text).

(* ===================================================================== *)
(** ** The embedded program *)
(* ===================================================================== *)

Section Program.

Context (E : Env).

(** *** Primitive actions *)

Definition raise_builtin {A} (c : exc_class) (what : builtin_error) : M A :=
  raise (new_exn c (describe E what)).

(** [os.path.exists(path)]. *)
Definition os_path_exists (path : string) : M bool :=
  fun w => (Ok (bool_decide (is_Some (files w !! path))), w).

(** Reading an open file to its end. *)
Definition read_file (path : string) : M string :=
  fun w => match files w !! path with
           | Some content => (Ok content, w)
           | None => raise_builtin FileNotFoundError (NoSuchFile path) w
           end.

(** Creating or truncating a file and writing [content] to it. *)
Definition write_file (path content : string) : M unit :=
  fun w => match write_fault E path with
           | Some e => (Raise e, w)
           | None => (Ok tt, World (<[path := content]> (files w)) (trace w))
           end.

(** [os.makedirs(d, exist_ok=True)]; directories themselves are not
    tracked, only the failures: the empty name, or a place that cannot be
    written. *)
Definition os_makedirs (d : string) : M unit :=
  if String.eqb d "" then raise_builtin FileNotFoundError (NoSuchFile d)
  else match write_fault E d with
       | Some e => raise e
       | None => ret tt
       end.

(** [os.remove(path)]. *)
Definition os_remove (path : string) : M unit :=
  fun w => match files w !! path with
           | Some _ => (Ok tt, World (delete path (files w)) (trace w))
           | None => raise_builtin FileNotFoundError (NoSuchFile path) w
           end.

(** [shutil.copy2(src, dst)] between two file names. *)
Definition shutil_copy2 (src dst : string) : M unit :=
  content <- read_file src ;;
  if String.eqb src dst then raise_builtin SameFileError (SameFile src dst)
  else write_file dst content.

(** [requests.get(url, stream=True)] followed by reading the whole body,
    and [requests.post(endpoint, files={'file': (filename, file)})]. *)
Definition http_get (url : string) : M (Z * string) :=
  emit (EvGet url) ;;
  match requests_get E url with
  | NetworkFailure e => raise e
  | Response status body => ret (status, body)
  end.

Definition http_post (endpoint filename content : string) : M (Z * string) :=
  emit (EvPost endpoint filename content) ;;
  match requests_post E endpoint filename content with
  | NetworkFailure e => raise e
  | Response status body => ret (status, body)
  end.

(** [response.raise_for_status()]: client and server error codes raise. *)
Definition raise_for_status (url : string) (status : Z) : M unit :=
  if ((400 <=? status) && (status <? 600))%Z
  then raise_builtin HTTPError (HttpStatus status url)
  else ret tt.

(** A call into the spreadsheet layer: it sees and may change the files. *)
Definition call_lib (fn : lib_fn) (args : list pyval) (kwargs : dict) : M pyval :=
  fun w => let '(r, fs) := library E fn args kwargs (files w) in
           (r, World fs (trace w ++ [EvLib fn args kwargs])).

(** *** Built-in operations on values *)

(** [str(v)], also what an f-string placeholder prints. *)
Definition py_str (v : pyval) : string :=
  match v with
  | VStr s => s
  | _ => py_repr E v
  end.

(** [v[key]] with a string key. *)
Definition subscript (v : pyval) (key : string) : M pyval :=
  match v with
  | VDict d => match dict_get key d with
               | Some x => ret x
               | None => raise_builtin KeyError (MissingKey key)
               end
  | _ => raise_builtin TypeError (BadSubscript v key)
  end.

Fixpoint str_contains (needle hay : string) : bool :=
  String.prefix needle hay ||
  match hay with
  | EmptyString => false
  | String _ r => str_contains needle r
  end.

(** [key in v] with a string key. *)
Definition contains (key : string) (v : pyval) : M bool :=
  match v with
  | VDict d => ret (dict_has key d)
  | VList l => ret (existsb (fun x => match x with
                                      | VStr s => String.eqb s key
                                      | _ => false
                                      end) l)
  | VStr s => ret (str_contains key s)
  | _ => raise_builtin TypeError (NotContainer v)
  end.

Fixpoint chars (s : string) : list pyval :=
  match s with
  | EmptyString => []
  | String c r => VStr (String c EmptyString) :: chars r
  end.

(** The elements [for x in v] visits. *)
Definition iterate (v : pyval) : M (list pyval) :=
  match v with
  | VList l => ret l
  | VDict d => ret (map VStr (dict_keys d))
  | VStr s => ret (chars s)
  | _ => raise_builtin TypeError (NotIterable v)
  end.

(** [sep.join(parts)]. *)
Fixpoint str_join (sep : string) (parts : list string) : string :=
  match parts with
  | [] => EmptyString
  | [p] => p
  | p :: r => p +:+ sep +:+ str_join sep r
  end.

Definition newline : string := String (ascii_of_nat 10) EmptyString.

(** *** workbook.py: the file-transfer client *)

Definition FILE_SERVER_URL : string := "http://localhost:3001".
Definition UPLOAD_ENDPOINT : string := FILE_SERVER_URL +:+ "/upload".
Definition FILES_LIST_ENDPOINT : string := FILE_SERVER_URL +:+ "/files/list".
Definition FILE_ACCESS_BASE_URL : string := FILE_SERVER_URL +:+ "/files/".

Definition upload_file_to_server (filepath : string) : M dict :=
  try_except
    (present <- os_path_exists filepath ;;
     if negb present
     then raise (new_exn WorkbookError ("File not found: " +:+ filepath))
     else
       let filename := os_path_basename filepath in
       content <- read_file filepath ;;
       response <- http_post UPLOAD_ENDPOINT filename content ;;
       let '(status_code, text) := response in
       if negb (status_code =? 200)%Z
       then raise (new_exn WorkbookError ("Failed to upload file: " +:+ text))
       else
         let file_url := FILE_ACCESS_BASE_URL +:+ filename in
         ret [("message", VStr "File uploaded successfully");
              ("file_url", VStr file_url);
              ("filename", VStr filename)])
    (fun e =>
       logger_error ("Failed to upload file: " +:+ exn_str e) ;;
       raise (new_exn WorkbookError ("Failed to upload file: " +:+ exn_str e))).

Definition download_file_from_url (url save_path : string) : M string :=
  try_except
    (response <- http_get url ;;
     let '(status_code, body) := response in
     raise_for_status url status_code ;;
     os_makedirs (os_path_dirname save_path) ;;
     write_file save_path body ;;
     ret save_path)
    (fun e =>
       logger_error ("Failed to download file: " +:+ exn_str e) ;;
       raise (new_exn WorkbookError ("Failed to download file: " +:+ exn_str e))).

(** *** server.py: path resolution *)

Definition get_excel_path (filename : string) : string :=
  if os_path_isabs filename then filename
  else os_path_join (EXCEL_FILES_PATH E) filename.

(** *** server.py: calling a tool *)

(** A signature after the leading [filepath]: each parameter with its
    default, [None] when it is required. *)
Abbreviation signature := (list (string * option pyval)).

Definition req (name : string) : string * option pyval := (name, None).
Definition opt (name : string) (v : pyval) : string * option pyval := (name, Some v).

(** Keywords are matched in order: one naming the positional [filepath]
    is a second value for it, one naming no parameter is unexpected. *)
Fixpoint check_keywords (fn : string) (names : list string) (kwargs : dict) : M unit :=
  match kwargs with
  | [] => ret tt
  | (k, _) :: r =>
      if String.eqb k "filepath" then raise_builtin TypeError (MultipleValues fn k)
      else if existsb (String.eqb k) names then check_keywords fn names r
      else raise_builtin TypeError (UnexpectedKeyword fn k)
  end.

Definition missing_arguments (sig : signature) (kwargs : dict) : list string :=
  map fst (List.filter (fun p => match snd p with
                            | None => negb (dict_has (fst p) kwargs)
                            | Some _ => false
                            end) sig).

Definition bound_value (kwargs : dict) (p : string * option pyval) : string * pyval :=
  (fst p, match dict_get (fst p) kwargs with
          | Some v => v
          | None => match snd p with Some d => d | None => VNone end
          end).

(** Binding [fn(filepath, **kwargs)] against [fn]'s signature. *)
Definition bind_arguments (fn : string) (sig : signature) (kwargs : dict) : M dict :=
  check_keywords fn (map fst sig) kwargs ;;
  match missing_arguments sig kwargs with
  | [] => ret (map (bound_value kwargs) sig)
  | names => raise_builtin TypeError (MissingArguments fn names)
  end.

(** The value of a bound parameter. *)
Definition arg (a : dict) (name : string) : pyval :=
  match dict_get name a with Some v => v | None => VNone end.

(** Passing parameters on under their own names ([name=name]). *)
Definition same_names (a : dict) (names : list string) : dict :=
  map (fun n => (n, arg a n)) names.

(** The frame every tool shares: the call binds its arguments; the body
    runs inside [try]; the listed domain errors become an ["Error: ..."]
    return value; anything else is logged and re-raised as it is.  The
    [@mcp.tool()] decorator registers the function and hands it back
    unchanged, so a call by name from inside the module runs this. *)
Definition tool (name : string) (sig : signature) (handled : list exc_class)
    (what : string) (body : string -> dict -> M pyval)
    (filepath : string) (kwargs : dict) : M pyval :=
  emit (EvTool name filepath kwargs) ;;
  a <- bind_arguments name sig kwargs ;;
  try_except (body filepath a)
    (fun e =>
       if is_instance e handled
       then ret (VStr ("Error: " +:+ exn_str e))
       else logger_error (what +:+ exn_str e) ;; raise e).

(** *** server.py: the tools *)

Definition apply_formula : string -> dict -> M pyval :=
  tool "apply_formula" [req "sheet_name"; req "cell"; req "formula"]
    [ValidationError; CalculationError] "Error applying formula: "
    (fun filepath a =>
       let full_path := get_excel_path filepath in
       let positional :=
         [VStr full_path; arg a "sheet_name"; arg a "cell"; arg a "formula"] in
       validation <- call_lib validate_formula_impl positional [] ;;
       let apply :=
         (result <- call_lib apply_formula_impl positional [] ;;
          subscript result "message") in
       match validation with
       | VDict d =>
           if dict_has "error" d
           then err <- subscript validation "error" ;;
                ret (VStr ("Error: " +:+ py_str err))
           else apply
       | _ => apply
       end).

Definition validate_formula_syntax : string -> dict -> M pyval :=
  tool "validate_formula_syntax" [req "sheet_name"; req "cell"; req "formula"]
    [ValidationError; CalculationError] "Error validating formula: "
    (fun filepath a =>
       let full_path := get_excel_path filepath in
       result <- call_lib validate_formula_impl
                   [VStr full_path; arg a "sheet_name"; arg a "cell"; arg a "formula"] [] ;;
       subscript result "message").

Definition format_range : string -> dict -> M pyval :=
  tool "format_range"
    [req "sheet_name"; req "start_cell"; opt "end_cell" VNone;
     opt "bold" (VBool false); opt "italic" (VBool false);
     opt "underline" (VBool false); opt "font_size" VNone;
     opt "font_color" VNone; opt "bg_color" VNone; opt "border_style" VNone;
     opt "border_color" VNone; opt "number_format" VNone;
     opt "alignment" VNone; opt "wrap_text" (VBool false);
     opt "merge_cells" (VBool false); opt "protection" VNone;
     opt "conditional_format" VNone]
    [ValidationError; FormattingError] "Error formatting range: "
    (fun filepath a =>
       let full_path := get_excel_path filepath in
       _ <- call_lib format_range_func []
              (("filepath", VStr full_path) ::
               same_names a
                 ["sheet_name"; "start_cell"; "end_cell"; "bold"; "italic";
                  "underline"; "font_size"; "font_color"; "bg_color";
                  "border_style"; "border_color"; "number_format";
                  "alignment"; "wrap_text"; "merge_cells"; "protection";
                  "conditional_format"]) ;;
       ret (VStr "Range formatted successfully")).

Definition read_data_from_excel : string -> dict -> M pyval :=
  tool "read_data_from_excel"
    [req "sheet_name"; opt "start_cell" (VStr "A1"); opt "end_cell" VNone;
     opt "preview_only" (VBool false)]
    [] "Error reading data: "
    (fun filepath a =>
       let full_path := get_excel_path filepath in
       result <- call_lib read_excel_range
                   [VStr full_path; arg a "sheet_name"; arg a "start_cell";
                    arg a "end_cell"; arg a "preview_only"] [] ;;
       if negb (truthy result)
       then ret (VStr "No data found in specified range")
       else rows <- iterate result ;;
            ret (VStr (str_join newline (map py_str rows)))).

Definition write_data_to_excel : string -> dict -> M pyval :=
  tool "write_data_to_excel"
    [req "sheet_name"; req "data"; opt "start_cell" (VStr "A1");
     opt "write_headers" (VBool true)]
    [ValidationError; DataError] "Error writing data: "
    (fun filepath a =>
       let full_path := get_excel_path filepath in
       result <- call_lib write_data
                   [VStr full_path; arg a "sheet_name"; arg a "data";
                    arg a "start_cell"; arg a "write_headers"] [] ;;
       subscript result "message").

Definition create_workbook : string -> dict -> M pyval :=
  tool "create_workbook" [opt "upload" (VBool true)]
    [WorkbookError] "Error creating workbook: "
    (fun filepath a =>
       let full_path := get_excel_path filepath in
       result <- call_lib create_workbook_impl [VStr full_path]
                   [("upload", arg a "upload")] ;;
       uploaded <- (if truthy (arg a "upload") then contains "file_url" result
                    else ret false) ;;
       if uploaded
       then file_url <- subscript result "file_url" ;;
            ret (VStr ("Created workbook at " +:+ full_path +:+
                       " and uploaded to " +:+ py_str file_url))
       else ret (VStr ("Created workbook at " +:+ full_path))).

Definition create_worksheet : string -> dict -> M pyval :=
  tool "create_worksheet" [req "sheet_name"]
    [ValidationError; WorkbookError] "Error creating worksheet: "
    (fun filepath a =>
       let full_path := get_excel_path filepath in
       result <- call_lib create_worksheet_impl
                   [VStr full_path; arg a "sheet_name"] [] ;;
       subscript result "message").

Definition create_chart : string -> dict -> M pyval :=
  tool "create_chart"
    [req "sheet_name"; req "data_range"; req "chart_type"; req "target_cell";
     opt "title" (VStr ""); opt "x_axis" (VStr ""); opt "y_axis" (VStr "")]
    [ValidationError; ChartError] "Error creating chart: "
    (fun filepath a =>
       let full_path := get_excel_path filepath in
       result <- call_lib create_chart_impl []
                   (("filepath", VStr full_path) ::
                    same_names a
                      ["sheet_name"; "data_range"; "chart_type"; "target_cell";
                       "title"; "x_axis"; "y_axis"]) ;;
       subscript result "message").

Definition create_pivot_table : string -> dict -> M pyval :=
  tool "create_pivot_table"
    [req "sheet_name"; req "data_range"; req "rows"; req "values";
     opt "columns" VNone; opt "agg_func" (VStr "mean")]
    [ValidationError; PivotError] "Error creating pivot table: "
    (fun filepath a =>
       let full_path := get_excel_path filepath in
       let columns := arg a "columns" in
       result <- call_lib create_pivot_table_impl []
                   [("filepath", VStr full_path);
                    ("sheet_name", arg a "sheet_name");
                    ("data_range", arg a "data_range");
                    ("rows", arg a "rows");
                    ("values", arg a "values");
                    ("columns", if truthy columns then columns else VList []);
                    ("agg_func", arg a "agg_func")] ;;
       subscript result "message").

Definition copy_worksheet : string -> dict -> M pyval :=
  tool "copy_worksheet" [req "source_sheet"; req "target_sheet"]
    [ValidationError; SheetError] "Error copying worksheet: "
    (fun filepath a =>
       let full_path := get_excel_path filepath in
       result <- call_lib copy_sheet
                   [VStr full_path; arg a "source_sheet"; arg a "target_sheet"] [] ;;
       subscript result "message").

Definition delete_worksheet : string -> dict -> M pyval :=
  tool "delete_worksheet" [req "sheet_name"]
    [ValidationError; SheetError] "Error deleting worksheet: "
    (fun filepath a =>
       let full_path := get_excel_path filepath in
       result <- call_lib delete_sheet [VStr full_path; arg a "sheet_name"] [] ;;
       subscript result "message").

Definition rename_worksheet : string -> dict -> M pyval :=
  tool "rename_worksheet" [req "old_name"; req "new_name"]
    [ValidationError; SheetError] "Error renaming worksheet: "
    (fun filepath a =>
       let full_path := get_excel_path filepath in
       result <- call_lib rename_sheet
                   [VStr full_path; arg a "old_name"; arg a "new_name"] [] ;;
       subscript result "message").

Definition get_workbook_metadata : string -> dict -> M pyval :=
  tool "get_workbook_metadata" [opt "include_ranges" (VBool false)]
    [WorkbookError] "Error getting workbook metadata: "
    (fun filepath a =>
       let full_path := get_excel_path filepath in
       result <- call_lib get_workbook_info [VStr full_path]
                   [("include_ranges", arg a "include_ranges")] ;;
       ret (VStr (py_str result))).

Definition merge_cells : string -> dict -> M pyval :=
  tool "merge_cells" [req "sheet_name"; req "start_cell"; req "end_cell"]
    [ValidationError; SheetError] "Error merging cells: "
    (fun filepath a =>
       let full_path := get_excel_path filepath in
       result <- call_lib merge_range
                   [VStr full_path; arg a "sheet_name"; arg a "start_cell";
                    arg a "end_cell"] [] ;;
       subscript result "message").

Definition unmerge_cells : string -> dict -> M pyval :=
  tool "unmerge_cells" [req "sheet_name"; req "start_cell"; req "end_cell"]
    [ValidationError; SheetError] "Error unmerging cells: "
    (fun filepath a =>
       let full_path := get_excel_path filepath in
       result <- call_lib unmerge_range
                   [VStr full_path; arg a "sheet_name"; arg a "start_cell";
                    arg a "end_cell"] [] ;;
       subscript result "message").

Definition copy_range : string -> dict -> M pyval :=
  tool "copy_range"
    [req "sheet_name"; req "source_start"; req "source_end";
     req "target_start"; opt "target_sheet" VNone]
    [ValidationError; SheetError] "Error copying range: "
    (fun filepath a =>
       let full_path := get_excel_path filepath in
       result <- call_lib copy_range_operation
                   [VStr full_path; arg a "sheet_name"; arg a "source_start";
                    arg a "source_end"; arg a "target_start";
                    arg a "target_sheet"] [] ;;
       subscript result "message").

Definition delete_range : string -> dict -> M pyval :=
  tool "delete_range"
    [req "sheet_name"; req "start_cell"; req "end_cell";
     opt "shift_direction" (VStr "up")]
    [ValidationError; SheetError] "Error deleting range: "
    (fun filepath a =>
       let full_path := get_excel_path filepath in
       result <- call_lib delete_range_operation
                   [VStr full_path; arg a "sheet_name"; arg a "start_cell";
                    arg a "end_cell"; arg a "shift_direction"] [] ;;
       subscript result "message").

Definition validate_excel_range : string -> dict -> M pyval :=
  tool "validate_excel_range"
    [req "sheet_name"; req "start_cell"; opt "end_cell" VNone]
    [ValidationError] "Error validating range: "
    (fun filepath a =>
       let full_path := get_excel_path filepath in
       let start_cell := arg a "start_cell" in
       let end_cell := arg a "end_cell" in
       let range_str :=
         if negb (truthy end_cell) then start_cell
         else VStr (py_str start_cell +:+ ":" +:+ py_str end_cell) in
       result <- call_lib validate_range_impl
                   [VStr full_path; arg a "sheet_name"; range_str] [] ;;
       subscript result "message").

(** The tools that take a [filepath], by name. *)
Definition direct_tools : list (string * (string -> dict -> M pyval)) :=
  [("apply_formula", apply_formula);
   ("validate_formula_syntax", validate_formula_syntax);
   ("format_range", format_range);
   ("read_data_from_excel", read_data_from_excel);
   ("write_data_to_excel", write_data_to_excel);
   ("create_workbook", create_workbook);
   ("create_worksheet", create_worksheet);
   ("create_chart", create_chart);
   ("create_pivot_table", create_pivot_table);
   ("copy_worksheet", copy_worksheet);
   ("delete_worksheet", delete_worksheet);
   ("rename_worksheet", rename_worksheet);
   ("get_workbook_metadata", get_workbook_metadata);
   ("merge_cells", merge_cells);
   ("unmerge_cells", unmerge_cells);
   ("copy_range", copy_range);
   ("delete_range", delete_range);
   ("validate_excel_range", validate_excel_range)].

(** *** server.py: [process_excel_from_url] *)

(** The temporary file: [os.path.join(temp_dir, f"temp_excel_{uuid4}.xlsx")]. *)
Definition temp_filename : string := "temp_excel_" +:+ uuid4 E +:+ ".xlsx".
Definition temp_filepath : string := os_path_join (gettempdir E) temp_filename.

(** The processed file: the URL's last segment, prefixed, in the working
    directory. *)
Definition original_filename (url : string) : string :=
  os_path_basename (List.last (split_slash url) EmptyString).
Definition processed_filename (url : string) : string :=
  "processed_" +:+ original_filename url.
Definition processed_filepath (url : string) : string :=
  os_path_join (EXCEL_FILES_PATH E) (processed_filename url).

(** Lines 518-525: a [str] is decoded as JSON, anything else is kept. *)
Definition normalize_params (operation_params : pyval) : M pyval :=
  match operation_params with
  | VStr s =>
      match json_loads E s with
      | Some decoded => ret decoded
      | None =>
          logger_error ("Invalid JSON in operation_params: " +:+ s) ;;
          raise (new_exn ValueError "Invalid JSON format in operation_params")
      end
  | _ => ret operation_params
  end.

(** [operation_params.items()]. *)
Definition items (operation_params : pyval) : M dict :=
  match operation_params with
  | VDict d => ret d
  | _ => raise_builtin AttributeError (NoAttribute operation_params "items")
  end.

(** [{k: v for k, v in items if k != "filepath"}]. *)
Definition without_filepath (d : dict) : dict :=
  List.filter (fun kv => negb (String.eqb (fst kv) "filepath")) d.

(** Lines 527-546: the chain of comparisons on the operation name. *)
Definition dispatch (operation path : string) (operation_params : pyval) : M pyval :=
  let call (f : string -> dict -> M pyval) : M pyval :=
    (d <- items operation_params ;;
     let params := without_filepath d in
     f path params) in
  if String.eqb operation "format_range" then call format_range
  else if String.eqb operation "apply_formula" then call apply_formula
  else if String.eqb operation "write_data_to_excel" then call write_data_to_excel
  else if String.eqb operation "create_chart" then call create_chart
  else if String.eqb operation "create_pivot_table" then call create_pivot_table
  else raise (new_exn ValueError ("Unsupported operation: " +:+ operation)).

(** The classes in the [except (...)] clause of the tool each supported
    name selects: the errors that tool turns into a returned text. *)
Definition converted_errors (operation : string) : list exc_class :=
  if String.eqb operation "format_range" then [ValidationError; FormattingError]
  else if String.eqb operation "apply_formula" then [ValidationError; CalculationError]
  else if String.eqb operation "write_data_to_excel" then [ValidationError; DataError]
  else if String.eqb operation "create_chart" then [ValidationError; ChartError]
  else if String.eqb operation "create_pivot_table" then [ValidationError; PivotError]
  else [].

(** The text the function returns on success. *)
Definition success_text (operation file_url result_message : string) : string :=
  "Operation '" +:+ operation +:+
  "' completed successfully. Processed file available at: " +:+ file_url +:+
  newline +:+ "Operation result: " +:+ result_message.

(** The body of the [try] block, lines 494-555. *)
Definition process_body (url operation : string) (operation_params : pyval) : M string :=
  download_file_from_url url temp_filepath ;;
  logger_info ("Downloaded file from " +:+ url +:+ " to " +:+ temp_filepath) ;;
  shutil_copy2 temp_filepath (processed_filepath url) ;;
  logger_info ("operation_params: " +:+ py_str operation_params) ;;
  operation_params <- normalize_params operation_params ;;
  result_message <- dispatch operation (processed_filepath url) operation_params ;;
  upload_result <- upload_file_to_server (processed_filepath url) ;;
  os_remove temp_filepath ;;
  file_url <- subscript (VDict upload_result) "file_url" ;;
  ret (success_text operation (py_str file_url) (py_str result_message)).

(** The [except Exception as e] clause, lines 556-558. *)
Definition process_handler (e : exn) : M string :=
  logger_error ("Error processing Excel from URL: " +:+ exn_str e) ;;
  raise (new_exn WorkbookError ("Failed to process Excel from URL: " +:+ exn_str e)).

Definition process_excel_from_url (url operation : string) (operation_params : pyval)
  : M string :=
  try_except (process_body url operation operation_params) process_handler.

(** The same body cut at the dispatch step: what runs before it (download,
    staging, normalization) and what runs after it (upload, cleanup,
    response).  [process_body_stages] below shows the cut changes nothing. *)
Definition before_dispatch (url : string) (operation_params : pyval) : M pyval :=
  download_file_from_url url temp_filepath ;;
  logger_info ("Downloaded file from " +:+ url +:+ " to " +:+ temp_filepath) ;;
  shutil_copy2 temp_filepath (processed_filepath url) ;;
  logger_info ("operation_params: " +:+ py_str operation_params) ;;
  normalize_params operation_params.

Definition after_dispatch (url operation : string) (result_message : pyval) : M string :=
  upload_result <- upload_file_to_server (processed_filepath url) ;;
  os_remove temp_filepath ;;
  file_url <- subscript (VDict upload_result) "file_url" ;;
  ret (success_text operation (py_str file_url) (py_str result_message)).

End Program.

(* ===================================================================== *)
(** ** Concrete environments *)
(* ===================================================================== *)

(** A host on which the statements below are exercised: working directory
    [/srv/excel], scratch directory [/tmp], a file server that accepts
    uploads, and a spreadsheet layer that rejects formulas it cannot parse. *)

Definition dq : string := String (ascii_of_nat 34) EmptyString.

Definition demo_repr (v : pyval) : string :=
  match v with
  | VNone => "None"
  | VBool true => "True"
  | VBool false => "False"
  | VObj _ _ text => text
  | VStr s => "'" +:+ s +:+ "'"
  | VInt _ => "<int>"
  | VList _ => "[...]"
  | VDict _ => "{...}"
  end.

Definition demo_describe (what : builtin_error) : string :=
  match what with
  | NoSuchFile path => "[Errno 2] No such file or directory: '" +:+ path +:+ "'"
  | SameFile src dst => "'" +:+ src +:+ "' and '" +:+ dst +:+ "' are the same file"
  | HttpStatus _ url => "Client Error for url: " +:+ url
  | NoAttribute v attr =>
      "'" +:+ type_name_of v +:+ "' object has no attribute '" +:+ attr +:+ "'"
  | BadSubscript v _ => "'" +:+ type_name_of v +:+ "' object is not subscriptable"
  | MissingKey key => "'" +:+ key +:+ "'"
  | NotIterable v => "'" +:+ type_name_of v +:+ "' object is not iterable"
  | NotContainer v => "argument of type '" +:+ type_name_of v +:+ "' is not iterable"
  | UnexpectedKeyword fn key =>
      fn +:+ "() got an unexpected keyword argument '" +:+ key +:+ "'"
  | MultipleValues fn name =>
      fn +:+ "() got multiple values for argument '" +:+ name +:+ "'"
  | MissingArguments fn _ => fn +:+ "() missing required positional arguments"
  end.

(** The request of the spec's end-to-end example, as a mapping and as text. *)
Definition formula_params : dict :=
  [("sheet_name", VStr "Sheet1"); ("cell", VStr "B2"); ("formula", VStr "=A1+1")].

Definition formula_params_json : string :=
  "{" +:+ dq +:+ "sheet_name" +:+ dq +:+ ":" +:+ dq +:+ "Sheet1" +:+ dq +:+ "," +:+
  dq +:+ "cell" +:+ dq +:+ ":" +:+ dq +:+ "B2" +:+ dq +:+ "," +:+
  dq +:+ "formula" +:+ dq +:+ ":" +:+ dq +:+ "=A1+1" +:+ dq +:+ "}".

Definition demo_json_loads (s : string) : option pyval :=
  if String.eqb s formula_params_json then Some (VDict formula_params)
  else if String.eqb s "{}" then Some (VDict [])
  else if String.eqb s "[]" then Some (VList [])
  else if String.eqb s "null" then Some VNone
  else None.

Definition demo_get (url : string) : http_outcome :=
  if String.eqb url "http://x/test.xlsx" then Response 200 "workbook-bytes"
  else if String.eqb url "http://x/gone.xlsx" then Response 404 "no such file"
  else NetworkFailure (new_exn (OtherError "ConnectionError") "connection refused").

Definition demo_post (endpoint filename content : string) : http_outcome :=
  Response 200 "stored".

(** The spreadsheet layer of the demo host: a formula that does not start
    with [=] is a validation error; everything else reports success and
    leaves the files alone. *)
Definition demo_library (fn : lib_fn) (args : list pyval) (kwargs : dict)
    (fs : gmap string string) : result pyval * gmap string string :=
  match fn, args with
  | validate_formula_impl, [_; _; _; VStr f] =>
      if String.prefix "=" f
      then (Ok (VDict [("message", VStr "Formula is valid")]), fs)
      else (Raise (new_exn ValidationError "Invalid formula syntax"), fs)
  | apply_formula_impl, [_; _; VStr cell; VStr f] =>
      (Ok (VDict [("message", VStr ("Applied formula '" +:+ f +:+ "' to cell " +:+ cell))]), fs)
  | _, _ => (Ok (VDict [("message", VStr "done")]), fs)
  end.

Definition demo_env : Env := {|
  EXCEL_FILES_PATH := "/srv/excel";
  gettempdir := "/tmp";
  uuid4 := "0b6f2c1e-7a53-4d7e-9c55-3f1a2b4c5d6e";
  py_repr := demo_repr;
  describe := demo_describe;
  json_loads := demo_json_loads;
  requests_get := demo_get;
  requests_post := demo_post;
  write_fault := fun _ => None;
  library := demo_library
|}.

(** The same host with the default, relative working directory. *)
Definition default_dir_env : Env := {|
  EXCEL_FILES_PATH := "./excel_files";
  gettempdir := "/tmp";
  uuid4 := uuid4 demo_env;
  py_repr := demo_repr;
  describe := demo_describe;
  json_loads := demo_json_loads;
  requests_get := demo_get;
  requests_post := demo_post;
  write_fault := fun _ => None;
  library := demo_library
|}.

(** The same host with a file server that refuses the upload. *)
Definition refusing_env : Env := {|
  EXCEL_FILES_PATH := "/srv/excel";
  gettempdir := "/tmp";
  uuid4 := uuid4 demo_env;
  py_repr := demo_repr;
  describe := demo_describe;
  json_loads := demo_json_loads;
  requests_get := demo_get;
  requests_post := fun _ _ _ => Response 507 "disk full";
  write_fault := fun _ => None;
  library := demo_library
|}.

Definition empty_world : world := World ∅ [].

(** A request whose formula the demo spreadsheet layer rejects. *)
Definition bad_formula_params : dict :=
  [("sheet_name", VStr "Sheet1"); ("cell", VStr "B2"); ("formula", VStr "A1+")].

(* ===================================================================== *)
(** ** Vocabulary of the statements *)
(* ===================================================================== *)

(** The five names the chain of comparisons in [dispatch] knows. *)
Definition supported_operations : list string :=
  ["format_range"; "apply_formula"; "write_data_to_excel"; "create_chart";
   "create_pivot_table"].

(** The world after a log record or an upload request. *)
Definition logged (lvl : level) (text : string) (w : world) : world :=
  World (files w) (trace w ++ [EvLog lvl text]).

Definition posted (filename content : string) (w : world) : world :=
  World (files w) (trace w ++ [EvPost UPLOAD_ENDPOINT filename content]).

(** The path a library call was given: its first positional argument, or
    its [filepath] keyword when it is called by keywords only. *)
Definition lib_path (args : list pyval) (kwargs : dict) : option pyval :=
  match args with
  | p :: _ => Some p
  | [] => dict_get "filepath" kwargs
  end.

Definition is_tool_call (ev : event) : bool :=
  match ev with EvTool _ _ _ => true | _ => false end.

Definition is_lib_call (ev : event) : bool :=
  match ev with EvLib _ _ _ => true | _ => false end.

Definition is_post (ev : event) : bool :=
  match ev with EvPost _ _ _ => true | _ => false end.

(** Log records, and library calls on the file [full_path]. *)
Definition log_or_lib_on (full_path : string) (ev : event) : Prop :=
  match ev with
  | EvLog _ _ => True
  | EvLib _ args kwargs => lib_path args kwargs = Some (VStr full_path)
  | _ => False
  end.

(** What the stages before the dispatch add to the trace: the download
    request and log records. *)
Definition get_or_log (ev : event) : Prop :=
  match ev with EvGet _ | EvLog _ _ => True | _ => False end.

(** What the stages after the dispatch add: the upload request and log
    records. *)
Definition post_or_log (ev : event) : Prop :=
  match ev with EvPost _ _ _ | EvLog _ _ => True | _ => False end.

(** The spreadsheet layer removes no file. *)
Definition library_keeps_files (E : Env) : Prop :=
  forall fn args kwargs fs path,
    is_Some (fs !! path) ->
    is_Some ((library E fn args kwargs fs).2 !! path).

(** A relation between the world before and after, kept by every step of
    a computation whatever its outcome. *)
Definition maintains (R : world -> world -> Prop) {A} (m : M A) : Prop :=
  forall w, R w (m w).2.

(** Steps that leave the world as it is. *)
Definition pure {A} (m : M A) : Prop := forall w, (m w).2 = w.

(** Two such relations: the trace grows by events that all satisfy [P];
    a given file, once there, stays. *)
Definition grows_by (P : event -> Prop) (w w' : world) : Prop :=
  exists evs, trace w' = trace w ++ evs /\ Forall P evs.

Definition keeps_file (path : string) (w w' : world) : Prop :=
  is_Some (files w !! path) -> is_Some (files w' !! path).

(** The interface of each tool as its [def] line and [except] clauses
    give it: the parameters after [filepath] with their defaults, the
    classes turned into an "Error: ..." text, and the prefix of the log
    record written for any other exception. *)
Definition tool_table : list (string * (list (string * option pyval) * list exc_class * string)) :=
  [("apply_formula",
    ([req "sheet_name"; req "cell"; req "formula"],
     [ValidationError; CalculationError], "Error applying formula: "));
   ("validate_formula_syntax",
    ([req "sheet_name"; req "cell"; req "formula"],
     [ValidationError; CalculationError], "Error validating formula: "));
   ("format_range",
    ([req "sheet_name"; req "start_cell"; opt "end_cell" VNone;
      opt "bold" (VBool false); opt "italic" (VBool false);
      opt "underline" (VBool false); opt "font_size" VNone;
      opt "font_color" VNone; opt "bg_color" VNone; opt "border_style" VNone;
      opt "border_color" VNone; opt "number_format" VNone;
      opt "alignment" VNone; opt "wrap_text" (VBool false);
      opt "merge_cells" (VBool false); opt "protection" VNone;
      opt "conditional_format" VNone],
     [ValidationError; FormattingError], "Error formatting range: "));
   ("read_data_from_excel",
    ([req "sheet_name"; opt "start_cell" (VStr "A1"); opt "end_cell" VNone;
      opt "preview_only" (VBool false)],
     [], "Error reading data: "));
   ("write_data_to_excel",
    ([req "sheet_name"; req "data"; opt "start_cell" (VStr "A1");
      opt "write_headers" (VBool true)],
     [ValidationError; DataError], "Error writing data: "));
   ("create_workbook",
    ([opt "upload" (VBool true)], [WorkbookError], "Error creating workbook: "));
   ("create_worksheet",
    ([req "sheet_name"], [ValidationError; WorkbookError],
     "Error creating worksheet: "));
   ("create_chart",
    ([req "sheet_name"; req "data_range"; req "chart_type"; req "target_cell";
      opt "title" (VStr ""); opt "x_axis" (VStr ""); opt "y_axis" (VStr "")],
     [ValidationError; ChartError], "Error creating chart: "));
   ("create_pivot_table",
    ([req "sheet_name"; req "data_range"; req "rows"; req "values";
      opt "columns" VNone; opt "agg_func" (VStr "mean")],
     [ValidationError; PivotError], "Error creating pivot table: "));
   ("copy_worksheet",
    ([req "source_sheet"; req "target_sheet"], [ValidationError; SheetError],
     "Error copying worksheet: "));
   ("delete_worksheet",
    ([req "sheet_name"], [ValidationError; SheetError],
     "Error deleting worksheet: "));
   ("rename_worksheet",
    ([req "old_name"; req "new_name"], [ValidationError; SheetError],
     "Error renaming worksheet: "));
   ("get_workbook_metadata",
    ([opt "include_ranges" (VBool false)], [WorkbookError],
     "Error getting workbook metadata: "));
   ("merge_cells",
    ([req "sheet_name"; req "start_cell"; req "end_cell"],
     [ValidationError; SheetError], "Error merging cells: "));
   ("unmerge_cells",
    ([req "sheet_name"; req "start_cell"; req "end_cell"],
     [ValidationError; SheetError], "Error unmerging cells: "));
   ("copy_range",
    ([req "sheet_name"; req "source_start"; req "source_end";
      req "target_start"; opt "target_sheet" VNone],
     [ValidationError; SheetError], "Error copying range: "));
   ("delete_range",
    ([req "sheet_name"; req "start_cell"; req "end_cell";
      opt "shift_direction" (VStr "up")],
     [ValidationError; SheetError], "Error deleting range: "));
   ("validate_excel_range",
    ([req "sheet_name"; req "start_cell"; opt "end_cell" VNone],
     [ValidationError], "Error validating range: "))].

Fixpoint table_row (name : string)
    (rows : list (string * (list (string * option pyval) * list exc_class * string)))
  : list (string * option pyval) * list exc_class * string :=
  match rows with
  | [] => ([], [], EmptyString)
  | (n, row) :: rest => if String.eqb name n then row else table_row name rest
  end.

Definition signature_of (name : string) : list (string * option pyval) := (table_row name tool_table).1.1.
Definition except_clause (name : string) : list exc_class := (table_row name tool_table).1.2.
Definition log_prefix (name : string) : string := (table_row name tool_table).2.


Definition is_get (ev : event) : bool :=
  match ev with EvGet _ => true | _ => false end.

(** What a dispatch adds to the trace: tool calls, library calls and log
    records. *)
Definition call_or_log (ev : event) : Prop :=
  match ev with EvTool _ _ _ | EvLib _ _ _ | EvLog _ _ => True | _ => False end.

Definition is_log (ev : event) : Prop :=
  match ev with EvLog _ _ => True | _ => False end.

(* ===================================================================== *)
(** ** Further hosts and vocabulary *)
(* ===================================================================== *)

(** A host whose data layer knows three sheets: [Data] holds two rows,
    [Empty] none, and reading any other sheet is a validation error. *)
Definition reading_library (fn : lib_fn) (args : list pyval) (kwargs : dict)
    (fs : gmap string string) : result pyval * gmap string string :=
  match fn, args with
  | read_excel_range, [_; VStr sheet; _; _; _] =>
      if String.eqb sheet "Data"
      then (Ok (VList [VStr "{'name': 'a'}"; VStr "{'name': 'b'}"]), fs)
      else if String.eqb sheet "Empty" then (Ok (VList []), fs)
      else (Raise (new_exn ValidationError ("Sheet '" +:+ sheet +:+ "' not found")), fs)
  | _, _ => demo_library fn args kwargs fs
  end.

Definition reading_env : Env := {|
  EXCEL_FILES_PATH := "/srv/excel";
  gettempdir := "/tmp";
  uuid4 := uuid4 demo_env;
  py_repr := demo_repr;
  describe := demo_describe;
  json_loads := demo_json_loads;
  requests_get := demo_get;
  requests_post := demo_post;
  write_fault := fun _ => None;
  library := reading_library
|}.

(** A host with the default, relative working directory whose spreadsheet
    layer edits the file it is called on, and reports a validation error
    when there is no such file. *)
Definition editing_library (fn : lib_fn) (args : list pyval) (kwargs : dict)
    (fs : gmap string string) : result pyval * gmap string string :=
  match lib_path args kwargs with
  | Some (VStr path) =>
      match fs !! path with
      | Some content =>
          (Ok (VDict [("message", VStr "done")]), <[path := content +:+ "+edited"]> fs)
      | None => (Raise (new_exn ValidationError ("File not found: " +:+ path)), fs)
      end
  | _ => (Raise (new_exn ValidationError "no file given"), fs)
  end.

Definition relative_editing_env : Env := {|
  EXCEL_FILES_PATH := "./excel_files";
  gettempdir := "/tmp";
  uuid4 := uuid4 demo_env;
  py_repr := demo_repr;
  describe := demo_describe;
  json_loads := demo_json_loads;
  requests_get := demo_get;
  requests_post := demo_post;
  write_fault := fun _ => None;
  library := editing_library
|}.

(** The components of a path that name something: repeated separators
    and [.] steps name nothing, so [./a//b] and [a/./b] have the same
    components. *)
Definition path_components (p : string) : list string :=
  List.filter (fun c => negb (String.eqb c "" || String.eqb c ".")) (split_slash p).

(** Whether a path steps to a parent directory somewhere. *)
Definition has_parent_step (p : string) : bool :=
  existsb (String.eqb "..") (split_slash p).

(** Two spellings that cannot name the same file in a directory tree
    without links: both are relative or both absolute, neither steps to
    a parent, and their components differ.  (Two spellings with the same
    components name one file, and with a parent step nothing is said.) *)
Definition distinct_files (p q : string) : Prop :=
  has_parent_step p = false /\ has_parent_step q = false /\
  os_path_isabs p = os_path_isabs q /\
  path_components p <> path_components q.

(** The spreadsheet layer changes no file but the one it is called on:
    whatever cannot be that file is left as it is. *)
Definition library_confined (E : Env) : Prop :=
  forall fn args kwargs fs path,
    (forall p, lib_path args kwargs = Some (VStr p) -> distinct_files p path) ->
    (library E fn args kwargs fs).2 !! path = fs !! path.

(** The library function each tool calls first, as its body has it. *)
Definition first_library_call (name : string) : lib_fn :=
  if String.eqb name "apply_formula" then validate_formula_impl
  else if String.eqb name "validate_formula_syntax" then validate_formula_impl
  else if String.eqb name "format_range" then format_range_func
  else if String.eqb name "read_data_from_excel" then read_excel_range
  else if String.eqb name "write_data_to_excel" then write_data
  else if String.eqb name "create_workbook" then create_workbook_impl
  else if String.eqb name "create_worksheet" then create_worksheet_impl
  else if String.eqb name "create_chart" then create_chart_impl
  else if String.eqb name "create_pivot_table" then create_pivot_table_impl
  else if String.eqb name "copy_worksheet" then copy_sheet
  else if String.eqb name "delete_worksheet" then delete_sheet
  else if String.eqb name "rename_worksheet" then rename_sheet
  else if String.eqb name "get_workbook_metadata" then get_workbook_info
  else if String.eqb name "merge_cells" then merge_range
  else if String.eqb name "unmerge_cells" then unmerge_range
  else if String.eqb name "copy_range" then copy_range_operation
  else if String.eqb name "delete_range" then delete_range_operation
  else validate_range_impl.

(** A host whose workbooks are damaged: every call into the spreadsheet
    layer fails with an error that no tool converts. *)
Definition corrupt_env : Env := {|
  EXCEL_FILES_PATH := "/srv/excel";
  gettempdir := "/tmp";
  uuid4 := uuid4 demo_env;
  py_repr := demo_repr;
  describe := demo_describe;
  json_loads := demo_json_loads;
  requests_get := demo_get;
  requests_post := demo_post;
  write_fault := fun _ => None;
  library := fun _ _ _ fs =>
    (Raise (new_exn (OtherError "BadZipFile") "File is not a zip file"), fs)
|}.


(** The file [path] is as it was: absent, or there with the same content. *)
Definition same_content (path : string) (w w' : world) : Prop :=
  files w' !! path = files w !! path.

(* ===================================================================== *)
(** ** workbook.py: creating workbooks and sheets *)
(* ===================================================================== *)

(** What [workbook.py] takes from [openpyxl].  A workbook object is known
    by its state of type [book]; the operations that change the object in
    place return the new state, or the exception they raise. *)
Record Openpyxl : Type := {
  book : Type;
  new_workbook : book;                                   (* Workbook() *)
  sheetnames : book -> list string;                      (* wb.sheetnames *)
  set_title : book -> string -> pyval -> result book;    (* wb[name].title = value *)
  add_sheet : book -> pyval -> result book;              (* wb.create_sheet(title) *)
  serialize : book -> result string;                     (* the bytes wb.save writes *)
  (* load_workbook(path, read_only=...) on a file with this content, or on
     no file *)
  open_workbook : string -> bool -> option string -> result book;
  handle : book -> pyval;                                (* the object as a value *)
  (* wb[name].max_row and wb[name].max_column: a number, None when the
     sheet does not state its dimensions, or the exception of a sheet
     that has no such attribute *)
  max_row : book -> string -> result (option Z);
  max_column : book -> string -> result (option Z);
  get_column_letter : Z -> result string                 (* openpyxl.utils *)
}.

(** [d[key] = value]: an existing key keeps its place. *)
Fixpoint dict_set (key : string) (value : pyval) (d : dict) : dict :=
  match d with
  | [] => [(key, value)]
  | (k, v) :: r => if String.eqb k key then (k, value) :: r
                   else (k, v) :: dict_set key value r
  end.

(** [value in names] for a list of strings. *)
Definition in_names (value : pyval) (names : list string) : bool :=
  match value with
  | VStr s => existsb (String.eqb s) names
  | _ => false
  end.

(** [Path(p).name]: the last component, empty components and [.] apart. *)
Definition path_name (p : string) : string :=
  List.last
    (List.filter (fun c => negb (String.eqb c "" || String.eqb c ".")) (split_slash p))
    EmptyString.

Module workbook.

Section Functions.

Context (E : Env) (O : Openpyxl).

Local Open Scope py_scope.

Definition lift {A} (r : result A) : M A := fun w => (r, w).

(** [load_workbook(filepath, read_only=...)]: reads, changes nothing. *)
Definition load_workbook (filepath : string) (read_only : bool) : M (book O) :=
  fun w => (open_workbook O filepath read_only (files w !! filepath), w).

(** [wb.save(filepath)]. *)
Definition save (wb : book O) (filepath : string) : M unit :=
  bytes <- lift (serialize O wb) ;;
  write_file E filepath bytes.

(** [Path(filepath).parent.mkdir(parents=True, exist_ok=True)]: for a
    path that names a file the parent is its directory part; the parent
    of a bare file name is the current directory, which is there. *)
Definition mkdir_parent (filepath : string) : M unit :=
  let parent := os_path_dirname filepath in
  if String.eqb parent "" then ret tt
  else match write_fault E parent with
       | Some e => raise e
       | None => ret tt
       end.

(** Lines 80-110.  [str(Path(filepath))] names the same file as
    [filepath]; the file is kept under the name the caller gave. *)
Definition create_workbook (filepath : string) (sheet_name upload : pyval) : M dict :=
  try_except
    (let wb := new_workbook O in
     wb <- (if existsb (String.eqb "Sheet") (sheetnames O wb)
            then lift (set_title O wb "Sheet" sheet_name)
            else lift (add_sheet O wb sheet_name)) ;;
     mkdir_parent filepath ;;
     save wb filepath ;;
     let result :=
       [("message", VStr ("Created workbook: " +:+ filepath));
        ("active_sheet", sheet_name);
        ("workbook", handle O wb)] in
     if truthy upload
     then
       upload_result <- upload_file_to_server E filepath ;;
       file_url <- subscript E (VDict upload_result) "file_url" ;;
       let result := dict_set "file_url" file_url result in
       file_url <- subscript E (VDict upload_result) "file_url" ;;
       let result :=
         dict_set "message"
           (VStr ("Created and uploaded workbook: " +:+ filepath +:+ ". URL: "
                  +:+ py_str E file_url)) result in
       ret result
     else ret result)
    (fun e =>
       logger_error ("Failed to create workbook: " +:+ exn_str e) ;;
       raise (new_exn WorkbookError ("Failed to create workbook: " +:+ exn_str e))).

(** Lines 112-117, with the defaults of [create_workbook]. *)
Definition get_or_create_workbook (filepath : string) : M pyval :=
  try_except
    (wb <- load_workbook filepath false ;;
     ret (handle O wb))
    (fun e =>
       if is_instance e [FileNotFoundError]
       then created <- create_workbook filepath (VStr "Sheet1") (VBool false) ;;
            subscript E (VDict created) "workbook"
       else raise e).

(** Lines 119-138.  [wb.close()] on a workbook that was not opened
    read-only does nothing. *)
Definition create_sheet (filepath : string) (sheet_name : pyval) : M dict :=
  try_except
    (wb <- load_workbook filepath false ;;
     if in_names sheet_name (sheetnames O wb)
     then raise (new_exn WorkbookError
                   ("Sheet " +:+ py_str E sheet_name +:+ " already exists"))
     else
       wb <- lift (add_sheet O wb sheet_name) ;;
       save wb filepath ;;
       ret [("message", VStr ("Sheet " +:+ py_str E sheet_name +:+ " created successfully"))])
    (fun e =>
       if is_instance e [WorkbookError]
       then logger_error (exn_str e) ;; raise e
       else logger_error ("Failed to create sheet: " +:+ exn_str e) ;;
            raise (new_exn WorkbookError (exn_str e))).

(** [None > 0]. *)
Definition none_is_not_ordered {A} : M A :=
  raise (new_exn TypeError "'>' not supported between instances of 'NoneType' and 'int'").

(** Lines 159-162, for the sheets still to visit. *)
Fixpoint used_ranges (wb : book O) (names : list string) (ranges : dict) : M dict :=
  match names with
  | [] => ret ranges
  | sheet_name :: rest =>
      rows <- lift (max_row O wb sheet_name) ;;
      ranges <-
        match rows with
        | None => none_is_not_ordered
        | Some row =>
            if (0 <? row)%Z
            then
              columns <- lift (max_column O wb sheet_name) ;;
              match columns with
              | None => none_is_not_ordered
              | Some column =>
                  if (0 <? column)%Z
                  then
                    letter <- lift (get_column_letter O column) ;;
                    ret (dict_set sheet_name
                           (VStr ("A1:" +:+ letter +:+ py_str E (VInt row))) ranges)
                  else ret ranges
              end
            else ret ranges
        end ;;
      used_ranges wb rest ranges
  end.

(** [path.stat().st_size]: the size of a file is the length of its
    content. *)
Definition st_size (path : string) : M Z :=
  content <- read_file E path ;;
  ret (Z.of_nat (String.length content)).

(** [path.stat().st_mtime], a float: the world keeps no time. *)
Context (st_mtime : string -> pyval).

(** Lines 140-173.  [Path(filepath)] names the same file as [filepath];
    the size of a file is the length of its content. *)
Definition get_workbook_info (filepath : string) (include_ranges : pyval) : M dict :=
  try_except
    (present <- os_path_exists filepath ;;
     if negb present
     then raise (new_exn WorkbookError ("File not found: " +:+ filepath))
     else
       wb <- load_workbook filepath true ;;
       size <- st_size filepath ;;
       let info :=
         [("filename", VStr (path_name filepath));
          ("sheets", VList (map VStr (sheetnames O wb)));
          ("size", VInt size);
          ("modified", st_mtime filepath)] in
       if truthy include_ranges
       then
         ranges <- used_ranges wb (sheetnames O wb) [] ;;
         ret (dict_set "used_ranges" (VDict ranges) info)
       else ret info)
    (fun e =>
       if is_instance e [WorkbookError]
       then logger_error (exn_str e) ;; raise e
       else logger_error ("Failed to get workbook info: " +:+ exn_str e) ;;
            raise (new_exn WorkbookError (exn_str e))).

End Functions.

End workbook.

(** The first step of [create_workbook]: the default sheet of the new
    workbook is renamed, or a sheet is added when there is no default. *)
Definition first_sheet (O : Openpyxl) (sheet_name : pyval) : result (book O) :=
  if existsb (String.eqb "Sheet") (sheetnames O (new_workbook O))
  then set_title O (new_workbook O) "Sheet" sheet_name
  else add_sheet O (new_workbook O) sheet_name.


(** The spreadsheet layer with its three workbook entry points taken from
    [workbook.py] as embedded above.  A call shows in the caller's trace
    as one event; what it logs and requests itself is not repeated there. *)
Definition with_workbook_module (E : Env) (O : Openpyxl) (st_mtime : string -> pyval)
  : Env := {|
  EXCEL_FILES_PATH := EXCEL_FILES_PATH E;
  gettempdir := gettempdir E;
  uuid4 := uuid4 E;
  py_repr := py_repr E;
  describe := describe E;
  json_loads := json_loads E;
  requests_get := requests_get E;
  requests_post := requests_post E;
  write_fault := write_fault E;
  library := fun fn args kwargs fs =>
    match fn, args, kwargs with
    | create_workbook_impl, [VStr full_path], [("upload", upload)] =>
        let '(r, w) := workbook.create_workbook E O full_path (VStr "Sheet1") upload
                         (World fs []) in
        (match r with Ok d => Ok (VDict d) | Raise e => Raise e end, files w)
    | create_worksheet_impl, [VStr full_path; sheet_name], [] =>
        let '(r, w) := workbook.create_sheet E O full_path sheet_name (World fs []) in
        (match r with Ok d => Ok (VDict d) | Raise e => Raise e end, files w)
    | get_workbook_info, [VStr full_path], [("include_ranges", include_ranges)] =>
        let '(r, w) := workbook.get_workbook_info E O st_mtime full_path include_ranges
                         (World fs []) in
        (match r with Ok d => Ok (VDict d) | Raise e => Raise e end, files w)
    | _, _, _ => library E fn args kwargs fs
    end
|}.

(** A spreadsheet library for the examples: a workbook is the list of its
    sheet names, stored as one line of text. *)
Fixpoint split_comma (s : string) : list string :=
  match s with
  | EmptyString => [EmptyString]
  | String c r =>
      if Ascii.eqb c ","%char then EmptyString :: split_comma r
      else match split_comma r with
           | h :: t => String c h :: t
           | [] => [String c EmptyString]
           end
  end.

Definition demo_openpyxl : Openpyxl := {|
  book := list string;
  new_workbook := ["Sheet"];
  sheetnames := fun wb => wb;
  set_title := fun wb old title =>
    match title with
    | VStr s => Ok (map (fun n => if String.eqb n old then s else n) wb)
    | _ => Raise (new_exn TypeError "expected string or bytes-like object")
    end;
  add_sheet := fun wb title =>
    match title with
    | VStr s => Ok (wb ++ [s])
    | _ => Raise (new_exn TypeError "expected string or bytes-like object")
    end;
  serialize := fun wb => Ok (str_join "," wb);
  open_workbook := fun path _ content =>
    match content with
    | Some text => Ok (split_comma text)
    | None => Raise (new_exn FileNotFoundError
                       ("[Errno 2] No such file or directory: '" +:+ path +:+ "'"))
    end;
  handle := fun _ => VObj "Workbook" true "<openpyxl.workbook.workbook.Workbook object>";
  max_row := fun _ name =>
    if String.eqb name "Chart"
    then Raise (new_exn AttributeError "'Chartsheet' object has no attribute 'max_row'")
    else if String.eqb name "Unsized" then Ok None
    else if String.eqb name "Blank" then Ok (Some 0%Z)
    else Ok (Some 12%Z);
  max_column := fun _ _ => Ok (Some 3%Z);
  get_column_letter := fun n =>
    if (n =? 1)%Z then Ok "A"
    else if (n =? 2)%Z then Ok "B"
    else if (n =? 3)%Z then Ok "C"
    else Raise (new_exn ValueError "Invalid column index")
|}.

Definition demo_mtime (path : string) : pyval := VObj "float" true "1700000000.0".

(* ===================================================================== *)
(** ** Facts about strings and paths *)
(* ===================================================================== *)

Section StringFacts.

Lemma str_app_cons c s t : String c s +:+ t = String c (s +:+ t).
Proof. reflexivity. Qed.

Lemma str_app_nil_r s : s +:+ "" = s.
Proof. induction s as [|c s IH]; [reflexivity|]. rewrite str_app_cons. by f_equal. Qed.

Lemma str_app_assoc s t u : (s +:+ t) +:+ u = s +:+ t +:+ u.
Proof.
  induction s as [|c s IH]; [reflexivity|].
  rewrite !str_app_cons. by f_equal.
Qed.

Lemma occurs_in_refl s : occurs_in s s.
Proof. exists "", "". by rewrite str_app_nil_r. Qed.

Lemma occurs_in_app_r s p t : occurs_in s t -> occurs_in s (p +:+ t).
Proof.
  intros (pre & post & ->). exists (p +:+ pre), post.
  by rewrite str_app_assoc.
Qed.

Lemma occurs_in_app_l s t q : occurs_in s t -> occurs_in s (t +:+ q).
Proof.
  intros (pre & post & ->). exists pre, (post +:+ q).
  by rewrite !str_app_assoc.
Qed.

Lemma occurs_in_prefix s q : occurs_in s (s +:+ q).
Proof. apply occurs_in_app_l, occurs_in_refl. Qed.

Lemma occurs_in_suffix s p : occurs_in s (p +:+ s).
Proof. apply occurs_in_app_r, occurs_in_refl. Qed.

Lemma has_slash_app s t : has_slash (s +:+ t) = has_slash s || has_slash t.
Proof.
  induction s as [|c s IH]; [reflexivity|].
  rewrite str_app_cons. simpl. rewrite IH. by rewrite orb_assoc.
Qed.

Lemma rfind_slash_none s : rfind_slash s = None <-> has_slash s = false.
Proof.
  induction s as [|c s IH]; simpl; [done|].
  destruct (rfind_slash s) as [i|]; destruct (is_slash c); simpl;
    split; intros H; try done.
  - apply IH in H. done.
  - by apply IH.
Qed.

Lemma rfind_slash_some s : has_slash s = true -> exists i, rfind_slash s = Some i.
Proof.
  intros H. destruct (rfind_slash s) as [i|] eqn:Hr; [by exists i|].
  apply rfind_slash_none in Hr. congruence.
Qed.

(** [basename] peels one character at a time. *)
Lemma os_path_basename_cons c r :
  os_path_basename (String c r) =
  if has_slash r then os_path_basename r
  else if is_slash c then r else String c r.
Proof.
  unfold os_path_basename. simpl.
  destruct (has_slash r) eqn:Hs.
  - destruct (rfind_slash_some r Hs) as [i ->]. reflexivity.
  - apply rfind_slash_none in Hs. rewrite Hs. by destruct (is_slash c).
Qed.

Lemma os_path_basename_plain s : has_slash s = false -> os_path_basename s = s.
Proof.
  intros H. unfold os_path_basename.
  apply rfind_slash_none in H. by rewrite H.
Qed.

Lemma os_path_basename_after_slash a n :
  has_slash n = false -> os_path_basename (a +:+ "/" +:+ n) = n.
Proof.
  intros Hn. induction a as [|c a IH].
  - change ("" +:+ "/" +:+ n) with (String "/" n).
    rewrite os_path_basename_cons, Hn. reflexivity.
  - rewrite str_app_cons, os_path_basename_cons, has_slash_app.
    change (has_slash ("/" +:+ n)) with (true || has_slash n).
    rewrite orb_true_r. exact IH.
Qed.

Lemma endswith_slash_inv a : endswith_slash a = true -> exists a', a = a' +:+ "/".
Proof.
  induction a as [|c a IH]; simpl; [done|].
  destruct a as [|c' a].
  - intros H. exists "". unfold is_slash in H.
    apply Ascii.eqb_eq in H. by subst.
  - intros H. destruct (IH H) as [a' Ha']. exists (String c a').
    by rewrite str_app_cons, <- Ha'.
Qed.

Lemma startswith_slash_has_slash s : startswith_slash s = true -> has_slash s = true.
Proof. destruct s as [|c s]; simpl; [done|]. by intros ->. Qed.

(** A bare file name joined to any directory keeps its name. *)
Lemma os_path_basename_join d n :
  has_slash n = false -> os_path_basename (os_path_join d n) = n.
Proof.
  intros Hn. unfold os_path_join.
  destruct (startswith_slash n) eqn:Hst.
  { apply startswith_slash_has_slash in Hst. congruence. }
  destruct (String.eqb d "") eqn:Hd; simpl.
  { apply String.eqb_eq in Hd. subst d. by apply os_path_basename_plain. }
  destruct (endswith_slash d) eqn:He.
  - destruct (endswith_slash_inv d He) as [d' ->].
    rewrite str_app_assoc. by apply os_path_basename_after_slash.
  - by apply os_path_basename_after_slash.
Qed.

Lemma split_slash_plain s : has_slash s = false -> split_slash s = [s].
Proof.
  induction s as [|c s IH]; simpl; [done|].
  destruct (is_slash c); simpl; [done|]. intros H. by rewrite IH.
Qed.

Lemma split_slash_nonempty s : split_slash s <> [].
Proof.
  destruct s as [|c s]; simpl; [done|].
  destruct (is_slash c); [done|]. by destruct (split_slash s).
Qed.

Lemma split_slash_single r h : split_slash r = [h] -> has_slash r = false.
Proof.
  revert h. induction r as [|c r IH]; simpl; [done|]. intros h.
  destruct (is_slash c); simpl.
  - intros H. injection H as _ Hnil. by destruct (split_slash_nonempty r).
  - destruct (split_slash r) as [|h0 t] eqn:Hsp.
    + by destruct (split_slash_nonempty r).
    + intros H. injection H as _ ->. by eapply IH.
Qed.

(** [s.split('/')[-1]] peels like [basename] does. *)
Lemma last_split_slash_cons c r :
  List.last (split_slash (String c r)) "" =
  if has_slash r then List.last (split_slash r) ""
  else if is_slash c then r else String c r.
Proof.
  destruct (has_slash r) eqn:Hs.
  - simpl. destruct (split_slash r) as [|h t] eqn:Hsp.
    { by destruct (split_slash_nonempty r). }
    destruct (is_slash c); [reflexivity|].
    destruct t as [|h' t]; [|reflexivity].
    apply split_slash_single in Hsp. congruence.
  - simpl. rewrite (split_slash_plain r Hs). by destruct (is_slash c).
Qed.

Lemma last_split_slash_basename s :
  List.last (split_slash s) "" = os_path_basename s.
Proof.
  induction s as [|c s IH]; [reflexivity|].
  rewrite last_split_slash_cons, os_path_basename_cons, IH. reflexivity.
Qed.

Lemma os_path_basename_has_no_slash s : has_slash (os_path_basename s) = false.
Proof.
  induction s as [|c s IH]; [reflexivity|].
  rewrite os_path_basename_cons.
  destruct (has_slash s) eqn:Hs; [exact IH|].
  destruct (is_slash c) eqn:Hc; [exact Hs|]. simpl. by rewrite Hc, Hs.
Qed.

Lemma os_path_basename_idem s :
  os_path_basename (os_path_basename s) = os_path_basename s.
Proof. apply os_path_basename_plain, os_path_basename_has_no_slash. Qed.

End StringFacts.

(* ===================================================================== *)
(** ** Reasoning about computations *)
(* ===================================================================== *)

Lemma bind_ok {A B} (m : M A) (k : A -> M B) w a w' :
  m w = (Ok a, w') -> bind m k w = k a w'.
Proof. unfold bind. by intros ->. Qed.

Lemma bind_raise {A B} (m : M A) (k : A -> M B) w e w' :
  m w = (Raise e, w') -> bind m k w = (Raise e, w').
Proof. unfold bind. by intros ->. Qed.

Lemma bind_inv_ok {A B} (m : M A) (k : A -> M B) w b w' :
  bind m k w = (Ok b, w') ->
  exists a w1, m w = (Ok a, w1) /\ k a w1 = (Ok b, w').
Proof.
  unfold bind. destruct (m w) as [[a|e] w1] eqn:Hm; [|done].
  intros H. by exists a, w1.
Qed.

Lemma bind_inv_raise {A B} (m : M A) (k : A -> M B) w e w' :
  bind m k w = (Raise e, w') ->
  m w = (Raise e, w') \/ exists a w1, m w = (Ok a, w1) /\ k a w1 = (Raise e, w').
Proof.
  unfold bind. destruct (m w) as [[a|e0] w1] eqn:Hm; intros H.
  - right. by exists a, w1.
  - left. by injection H as -> ->.
Qed.

Lemma try_except_ok {A} (body : M A) handler w a w' :
  body w = (Ok a, w') -> try_except body handler w = (Ok a, w').
Proof. unfold try_except. by intros ->. Qed.

Lemma try_except_raise {A} (body : M A) handler w e w' :
  body w = (Raise e, w') -> try_except body handler w = handler e w'.
Proof. unfold try_except. by intros ->. Qed.

Section Maintains.

Context (R : world -> world -> Prop) `{!PreOrder R}.

Lemma maintains_ret {A} (a : A) : maintains R (ret a).
Proof. intros w. simpl. reflexivity. Qed.

Lemma maintains_raise {A} e : maintains R (@raise A e).
Proof. intros w. simpl. reflexivity. Qed.

Lemma maintains_bind {A B} (m : M A) (k : A -> M B) :
  maintains R m -> (forall a, maintains R (k a)) -> maintains R (bind m k).
Proof.
  intros Hm Hk w. unfold bind. specialize (Hm w).
  destruct (m w) as [[a|e] w1]; simpl in *; [|done].
  etrans; [exact Hm|apply Hk].
Qed.

Lemma maintains_try_except {A} (body : M A) handler :
  maintains R body -> (forall e, maintains R (handler e)) ->
  maintains R (try_except body handler).
Proof.
  intros Hm Hk w. unfold try_except. specialize (Hm w).
  destruct (body w) as [[a|e] w1]; simpl in *; [done|].
  etrans; [exact Hm|apply Hk].
Qed.

Lemma maintains_pure {A} (m : M A) :
  (forall w, (m w).2 = w) -> maintains R m.
Proof. intros H w. rewrite H. reflexivity. Qed.

End Maintains.

#[global] Instance grows_by_preorder P : PreOrder (grows_by P).
Proof.
  split.
  - intros w. exists []. by rewrite app_nil_r.
  - intros w1 w2 w3 (e1 & H1 & F1) (e2 & H2 & F2). exists (e1 ++ e2).
    rewrite H2, H1, app_assoc. split; [done|]. by apply Forall_app.
Qed.

#[global] Instance keeps_file_preorder path : PreOrder (keeps_file path).
Proof. split; unfold keeps_file; [intros w; tauto|intros w1 w2 w3; tauto]. Qed.

Lemma grows_by_same_trace P w w' : trace w' = trace w -> grows_by P w w'.
Proof. intros H. exists []. by rewrite app_nil_r. Qed.

Lemma grows_by_one (P : event -> Prop) w ev fs :
  P ev -> grows_by P w (World fs (trace w ++ [ev])).
Proof. intros H. exists [ev]. split; [done|]. by constructor. Qed.

Lemma grows_by_mono (P Q : event -> Prop) w w' :
  (forall ev, P ev -> Q ev) -> grows_by P w w' -> grows_by Q w w'.
Proof.
  intros HPQ (evs & H & F). exists evs. split; [done|].
  eapply Forall_impl; [exact F|exact HPQ].
Qed.

Lemma keeps_file_same_files path w w' : files w' = files w -> keeps_file path w w'.
Proof. unfold keeps_file. by intros ->. Qed.

Section StepFacts.

Context (E : Env).

Lemma pure_ret {A} (a : A) : pure (ret a).
Proof. done. Qed.

Lemma pure_raise {A} e : pure (@raise A e).
Proof. done. Qed.

Lemma pure_bind {A B} (m : M A) (k : A -> M B) :
  pure m -> (forall a, pure (k a)) -> pure (bind m k).
Proof.
  intros Hm Hk w. unfold bind. pose proof (Hm w) as H1.
  destruct (m w) as [[a|e] w1]; simpl in H1; subst w1; [apply Hk|done].
Qed.

Lemma pure_raise_builtin {A} c what : pure (@raise_builtin E A c what).
Proof. done. Qed.

Lemma pure_os_path_exists path : pure (os_path_exists path).
Proof. done. Qed.

Lemma pure_read_file path : pure (read_file E path).
Proof. intros w. unfold read_file. by destruct (files w !! path). Qed.

Lemma pure_os_makedirs d : pure (os_makedirs E d).
Proof.
  intros w. unfold os_makedirs. destruct (String.eqb d ""); [done|].
  by destruct (write_fault E d).
Qed.

Lemma pure_raise_for_status url status : pure (raise_for_status E url status).
Proof. intros w. unfold raise_for_status. by destruct (_ && _). Qed.

Lemma pure_subscript v key : pure (subscript E v key).
Proof.
  intros w. unfold subscript. destruct v; try done.
  by destruct (dict_get key entries).
Qed.

Lemma pure_contains key v : pure (contains E key v).
Proof. intros w. by destruct v. Qed.

Lemma pure_iterate v : pure (iterate E v).
Proof. intros w. by destruct v. Qed.

Lemma pure_items v : pure (items E v).
Proof. intros w. by destruct v. Qed.

Lemma pure_check_keywords fn names kwargs : pure (check_keywords E fn names kwargs).
Proof.
  induction kwargs as [|[k v] r IH]; intros w; simpl; [done|].
  destruct (String.eqb k "filepath"); [done|].
  destruct (existsb (String.eqb k) names); [apply IH|done].
Qed.

Lemma pure_bind_arguments fn sig kwargs : pure (bind_arguments E fn sig kwargs).
Proof.
  unfold bind_arguments. apply pure_bind; [apply pure_check_keywords|].
  intros _ w. by destruct (missing_arguments sig kwargs).
Qed.

Section Generic.

Context (R : world -> world -> Prop) `{!PreOrder R}.

Lemma maintains_of_pure {A} (m : M A) : pure m -> maintains R m.
Proof. intros H. by apply maintains_pure. Qed.

(** The frame of a tool keeps whatever its steps keep. *)
Lemma maintains_tool name sig handled what body filepath kwargs :
  maintains R (emit (EvTool name filepath kwargs)) ->
  (forall text, maintains R (logger_error text)) ->
  (forall a, maintains R (body filepath a)) ->
  maintains R (tool E name sig handled what body filepath kwargs).
Proof.
  intros Hcall Hlog Hbody. unfold tool.
  apply maintains_bind; [done|done|intros []].
  apply maintains_bind;
    [done|apply maintains_of_pure, pure_bind_arguments|intros a].
  apply maintains_try_except; [done|done|intros e].
  destruct (is_instance e handled); [by apply maintains_ret|].
  apply maintains_bind; [done|done|intros []]. by apply maintains_raise.
Qed.

End Generic.

End StepFacts.

(** Decomposing a goal [maintains R m] along the shape of [m]; the leaves
    are left to the caller's facts about the steps. *)
Ltac maintains_split :=
  repeat first
    [ apply maintains_of_pure;
      [ typeclasses eauto
      | first [ apply pure_raise_builtin | apply pure_os_path_exists
              | apply pure_read_file | apply pure_os_makedirs
              | apply pure_raise_for_status | apply pure_subscript
              | apply pure_contains | apply pure_iterate | apply pure_items
              | apply pure_bind_arguments | apply pure_ret | apply pure_raise ] ]
    | match goal with
      | |- maintains _ (bind _ _) =>
          apply maintains_bind; [typeclasses eauto | | intros ?]
      | |- maintains _ (try_except _ _) =>
          apply maintains_try_except; [typeclasses eauto | | intros ?]
      | |- maintains _ (if ?b then _ else _) => destruct b
      | |- maintains _ (let '(_, _) := ?x in _) => destruct x
      | |- maintains _ (match ?x with _ => _ end) => destruct x
      end
    | progress cbv beta zeta ].

(* ===================================================================== *)
(** ** What the steps add to the trace and keep on disk *)
(* ===================================================================== *)

Section TraceFacts.

Context (E : Env) (P : event -> Prop).

Lemma grows_emit ev : P ev -> maintains (grows_by P) (emit ev).
Proof. intros H w. by apply grows_by_one. Qed.

Lemma grows_write_file path content :
  maintains (grows_by P) (write_file E path content).
Proof.
  intros w. unfold write_file.
  destruct (write_fault E path); by apply grows_by_same_trace.
Qed.

Lemma grows_os_remove path : maintains (grows_by P) (os_remove E path).
Proof.
  intros w. unfold os_remove.
  destruct (files w !! path); by apply grows_by_same_trace.
Qed.

Lemma grows_call_lib fn args kwargs :
  P (EvLib fn args kwargs) -> maintains (grows_by P) (call_lib E fn args kwargs).
Proof.
  intros H w. unfold call_lib.
  destruct (library E fn args kwargs (files w)) as [r fs]. by apply grows_by_one.
Qed.

Lemma grows_shutil_copy2 src dst : maintains (grows_by P) (shutil_copy2 E src dst).
Proof. unfold shutil_copy2. maintains_split. apply grows_write_file. Qed.

Lemma grows_http_get url : P (EvGet url) -> maintains (grows_by P) (http_get E url).
Proof. intros H. unfold http_get. maintains_split. by apply grows_emit. Qed.

Lemma grows_http_post endpoint filename content :
  P (EvPost endpoint filename content) ->
  maintains (grows_by P) (http_post E endpoint filename content).
Proof. intros H. unfold http_post. maintains_split. by apply grows_emit. Qed.

Lemma grows_normalize_params v :
  (forall text, P (EvLog ERROR text)) ->
  maintains (grows_by P) (normalize_params E v).
Proof.
  intros H. unfold normalize_params, logger_error.
  maintains_split. apply grows_emit, H.
Qed.

Lemma grows_download url save_path :
  (forall text, P (EvLog ERROR text)) -> P (EvGet url) ->
  maintains (grows_by P) (download_file_from_url E url save_path).
Proof.
  intros Hlog Hget. unfold download_file_from_url, logger_error.
  maintains_split;
    first [by apply grows_http_get | apply grows_write_file | by apply grows_emit].
Qed.

Lemma grows_upload filepath :
  (forall text, P (EvLog ERROR text)) ->
  (forall content, P (EvPost UPLOAD_ENDPOINT (os_path_basename filepath) content)) ->
  maintains (grows_by P) (upload_file_to_server E filepath).
Proof.
  intros Hlog Hpost. unfold upload_file_to_server, logger_error.
  maintains_split; first [by apply grows_http_post | by apply grows_emit].
Qed.

End TraceFacts.

Section ToolFacts.

Context (E : Env).

(** Every tool is the shared frame around a body whose only steps that
    touch the world are library calls, each on the resolved path. *)
Lemma direct_tools_shape name f :
  In (name, f) (direct_tools E) ->
  exists sig handled what body,
    f = tool E name sig handled what body /\
    forall (R : world -> world -> Prop), PreOrder R ->
    forall filepath a,
      (forall fn args kwargs,
         lib_path args kwargs = Some (VStr (get_excel_path E filepath)) ->
         maintains R (call_lib E fn args kwargs)) ->
      maintains R (body filepath a).
Proof.
  unfold direct_tools. simpl.
  intros H. repeat (destruct H as [H|H]; [injection H as <- <-|]); [..|done].
  all: do 4 eexists; split; [reflexivity|].
  all: intros R HR filepath a Hlib; maintains_split; apply Hlib; reflexivity.
Qed.

(** A tool first records its call; what follows are log records and
    library calls on the resolved path. *)
Lemma direct_tools_trace name f filepath kwargs w :
  In (name, f) (direct_tools E) ->
  exists evs,
    trace (f filepath kwargs w).2 = trace w ++ EvTool name filepath kwargs :: evs /\
    Forall (log_or_lib_on (get_excel_path E filepath)) evs.
Proof.
  intros Hin.
  destruct (direct_tools_shape name f Hin) as (sig & handled & what & body & -> & Hbody).
  set (P := log_or_lib_on (get_excel_path E filepath)).
  assert (Hrest : maintains (grows_by P)
            (a <- bind_arguments E name sig kwargs ;;
             try_except (body filepath a)
               (fun e => if is_instance e handled
                         then ret (VStr ("Error: " +:+ exn_str e))
                         else logger_error (what +:+ exn_str e) ;; raise e))).
  { maintains_split.
    - apply Hbody; [typeclasses eauto|]. intros fn args kw Hp.
      by apply grows_call_lib.
    - by apply grows_emit. }
  destruct (Hrest (World (files w) (trace w ++ [EvTool name filepath kwargs])))
    as (evs & Htr & Hall).
  exists evs. split; [|done].
  unfold tool, bind at 1, emit. simpl in *. rewrite Htr.
  by rewrite <- app_assoc.
Qed.

(** A tool removes no file as long as the spreadsheet layer removes none. *)
Lemma direct_tools_keep_files name f filepath kwargs path :
  In (name, f) (direct_tools E) ->
  library_keeps_files E ->
  maintains (keeps_file path) (f filepath kwargs).
Proof.
  intros Hin Hlib.
  destruct (direct_tools_shape name f Hin) as (sig & handled & what & body & -> & Hbody).
  apply maintains_tool; [typeclasses eauto|..].
  - intros w. by apply keeps_file_same_files.
  - intros text w. by apply keeps_file_same_files.
  - intros a. apply Hbody; [typeclasses eauto|]. intros fn args kw _ w Hp.
    unfold call_lib. specialize (Hlib fn args kw (files w) path Hp).
    by destruct (library E fn args kw (files w)).
Qed.

End ToolFacts.

(* ===================================================================== *)
(** ** The file-transfer client *)
(* ===================================================================== *)

Section TransferFacts.

Context (E : Env).

Lemma os_path_exists_false path w :
  files w !! path = None -> os_path_exists path w = (Ok false, w).
Proof.
  intros H. unfold os_path_exists. rewrite H.
  rewrite bool_decide_eq_false_2; [done|]. by intros [? ?].
Qed.

Lemma os_path_exists_true path content w :
  files w !! path = Some content -> os_path_exists path w = (Ok true, w).
Proof.
  intros H. unfold os_path_exists. rewrite H.
  rewrite bool_decide_eq_true_2; [done|]. by eexists.
Qed.

Lemma read_file_present path content w :
  files w !! path = Some content -> read_file E path w = (Ok content, w).
Proof. intros H. unfold read_file. by rewrite H. Qed.

(** No file: the error is raised before any request, then wrapped. *)
Lemma upload_missing filepath w :
  files w !! filepath = None ->
  upload_file_to_server E filepath w =
  (Raise (new_exn WorkbookError
            ("Failed to upload file: " +:+ "File not found: " +:+ filepath)),
   logged ERROR ("Failed to upload file: " +:+ "File not found: " +:+ filepath) w).
Proof.
  intros H. unfold upload_file_to_server, try_except, bind.
  rewrite (os_path_exists_false _ _ H). reflexivity.
Qed.

(** A response other than 200: the body text is raised, then wrapped. *)
Lemma upload_refused filepath content status text w :
  files w !! filepath = Some content ->
  requests_post E UPLOAD_ENDPOINT (os_path_basename filepath) content
    = Response status text ->
  status <> 200%Z ->
  upload_file_to_server E filepath w =
  (Raise (new_exn WorkbookError
            ("Failed to upload file: " +:+ "Failed to upload file: " +:+ text)),
   logged ERROR ("Failed to upload file: " +:+ "Failed to upload file: " +:+ text)
     (posted (os_path_basename filepath) content w)).
Proof.
  intros Hf Hpost Hst. unfold upload_file_to_server, try_except, bind.
  rewrite (os_path_exists_true _ _ _ Hf). simpl.
  rewrite (read_file_present _ _ _ Hf).
  unfold http_post, bind, emit. rewrite Hpost. simpl.
  apply Z.eqb_neq in Hst. rewrite Hst. reflexivity.
Qed.

(** The request failed before any response. *)
Lemma upload_unreachable filepath content e w :
  files w !! filepath = Some content ->
  requests_post E UPLOAD_ENDPOINT (os_path_basename filepath) content
    = NetworkFailure e ->
  upload_file_to_server E filepath w =
  (Raise (new_exn WorkbookError ("Failed to upload file: " +:+ exn_str e)),
   logged ERROR ("Failed to upload file: " +:+ exn_str e)
     (posted (os_path_basename filepath) content w)).
Proof.
  intros Hf Hpost. unfold upload_file_to_server, try_except, bind.
  rewrite (os_path_exists_true _ _ _ Hf). simpl.
  rewrite (read_file_present _ _ _ Hf).
  unfold http_post, bind, emit. rewrite Hpost. reflexivity.
Qed.

(** Response 200: the record with the public URL and the file name. *)
Lemma upload_accepted filepath content text w :
  files w !! filepath = Some content ->
  requests_post E UPLOAD_ENDPOINT (os_path_basename filepath) content
    = Response 200 text ->
  upload_file_to_server E filepath w =
  (Ok [("message", VStr "File uploaded successfully");
       ("file_url", VStr (FILE_ACCESS_BASE_URL +:+ os_path_basename filepath));
       ("filename", VStr (os_path_basename filepath))],
   posted (os_path_basename filepath) content w).
Proof.
  intros Hf Hpost. unfold upload_file_to_server, try_except, bind.
  rewrite (os_path_exists_true _ _ _ Hf). simpl.
  rewrite (read_file_present _ _ _ Hf).
  unfold http_post, bind, emit. rewrite Hpost. reflexivity.
Qed.

(** Every way an upload can end. *)
Lemma upload_cases filepath w :
  (files w !! filepath = None) \/
  (exists content,
     files w !! filepath = Some content /\
     ((exists e, requests_post E UPLOAD_ENDPOINT (os_path_basename filepath) content
                 = NetworkFailure e) \/
      (exists status text,
         requests_post E UPLOAD_ENDPOINT (os_path_basename filepath) content
         = Response status text /\ status <> 200%Z) \/
      (exists text,
         requests_post E UPLOAD_ENDPOINT (os_path_basename filepath) content
         = Response 200 text))).
Proof.
  destruct (files w !! filepath) as [content|] eqn:Hf; [right|by left].
  exists content. split; [done|].
  destruct (requests_post E UPLOAD_ENDPOINT (os_path_basename filepath) content)
    as [e|status text] eqn:Hp.
  - left. by exists e.
  - right. destruct (decide (status = 200%Z)) as [->|Hne].
    + right. by exists text.
    + left. by exists status, text.
Qed.

(** A successful upload: the file was there, the server answered 200, and
    nothing on disk changed. *)
Lemma upload_ok_inv filepath w up w' :
  upload_file_to_server E filepath w = (Ok up, w') ->
  exists content,
    files w !! filepath = Some content /\
    files w' = files w /\
    trace w' = trace w ++ [EvPost UPLOAD_ENDPOINT (os_path_basename filepath) content] /\
    up = [("message", VStr "File uploaded successfully");
          ("file_url", VStr (FILE_ACCESS_BASE_URL +:+ os_path_basename filepath));
          ("filename", VStr (os_path_basename filepath))].
Proof.
  intros H.
  destruct (upload_cases filepath w)
    as [Hf|(content & Hf & [(e & Hp)|[(status & text & Hp & Hne)|(text & Hp)]])].
  - rewrite (upload_missing _ _ Hf) in H. done.
  - rewrite (upload_unreachable _ _ _ _ Hf Hp) in H. done.
  - rewrite (upload_refused _ _ _ _ _ Hf Hp Hne) in H. done.
  - rewrite (upload_accepted _ _ _ _ Hf Hp) in H. injection H as <- <-.
    by exists content.
Qed.

(** An upload removes no file. *)
Lemma upload_same_files filepath w :
  files (upload_file_to_server E filepath w).2 = files w.
Proof.
  destruct (upload_cases filepath w)
    as [Hf|(content & Hf & [(e & Hp)|[(status & text & Hp & Hne)|(text & Hp)]])].
  - by rewrite (upload_missing _ _ Hf).
  - by rewrite (upload_unreachable _ _ _ _ Hf Hp).
  - by rewrite (upload_refused _ _ _ _ _ Hf Hp Hne).
  - by rewrite (upload_accepted _ _ _ _ Hf Hp).
Qed.

End TransferFacts.

(* ===================================================================== *)
(** ** The orchestration, stage by stage *)
(* ===================================================================== *)

Section OrchestrationFacts.

Context (E : Env).

Lemma process_body_stages url operation operation_params w :
  process_body E url operation operation_params w =
  (p <- before_dispatch E url operation_params ;;
   result_message <- dispatch E operation (processed_filepath E url) p ;;
   after_dispatch E url operation result_message) w.
Proof.
  unfold process_body, before_dispatch, after_dispatch, bind.
  destruct (download_file_from_url E url (temp_filepath E) w) as [[x|e] w1];
    [|reflexivity].
  unfold logger_info, emit.
  destruct (shutil_copy2 E _ _ _) as [[y|e] w2]; [|reflexivity].
  destruct (normalize_params E _ _) as [[p|e] w3]; reflexivity.
Qed.

(** The top-level handler, applied. *)
Lemma process_wraps url operation operation_params w e w' :
  process_body E url operation operation_params w = (Raise e, w') ->
  process_excel_from_url E url operation operation_params w =
  (Raise (new_exn WorkbookError ("Failed to process Excel from URL: " +:+ exn_str e)),
   logged ERROR ("Error processing Excel from URL: " +:+ exn_str e) w').
Proof.
  intros H. unfold process_excel_from_url.
  rewrite (try_except_raise _ _ _ _ _ H). reflexivity.
Qed.

Lemma process_returns url operation operation_params w s w' :
  process_body E url operation operation_params w = (Ok s, w') ->
  process_excel_from_url E url operation operation_params w = (Ok s, w').
Proof. intros H. unfold process_excel_from_url. by rewrite (try_except_ok _ _ _ _ _ H). Qed.

(** Names are compared with [==]: anything but the five exact strings
    falls through to the [else] branch. *)
Lemma dispatch_unsupported operation path v w :
  ~ In operation supported_operations ->
  dispatch E operation path v w =
  (Raise (new_exn ValueError ("Unsupported operation: " +:+ operation)), w).
Proof.
  intros Hn. unfold dispatch.
  repeat match goal with
         | |- context [String.eqb operation ?s] =>
             destruct (String.eqb_spec operation s) as [->|_];
             [exfalso; apply Hn; unfold supported_operations; simpl; tauto|]
         end.
  reflexivity.
Qed.

(** Each supported name selects a tool of the same name. *)
Lemma dispatch_supported operation :
  In operation supported_operations ->
  exists f, In (operation, f) (direct_tools E) /\
            forall path d, dispatch E operation path (VDict d)
                           = f path (without_filepath d).
Proof.
  unfold supported_operations. simpl.
  intros [<-|[<-|[<-|[<-|[<-|[]]]]]]; eexists; (split; [|reflexivity]);
    unfold direct_tools; simpl; tauto.
Qed.

Lemma dispatch_not_a_mapping operation path v w :
  In operation supported_operations ->
  (forall d, v <> VDict d) ->
  dispatch E operation path v w =
  (Raise (new_exn AttributeError (describe E (NoAttribute v "items"))), w).
Proof.
  unfold supported_operations. simpl.
  intros Hop Hv.
  assert (Hit : items E v w =
                (Raise (new_exn AttributeError (describe E (NoAttribute v "items"))), w)).
  { destruct v; try reflexivity. by destruct (Hv entries). }
  destruct Hop as [<-|[<-|[<-|[<-|[<-|[]]]]]]; unfold dispatch; simpl;
    by rewrite (bind_raise _ _ _ _ _ Hit).
Qed.

Lemma before_dispatch_trace url operation_params :
  maintains (grows_by get_or_log) (before_dispatch E url operation_params).
Proof.
  unfold before_dispatch, logger_info. maintains_split.
  - by apply grows_download.
  - by apply grows_emit.
  - apply grows_shutil_copy2.
  - by apply grows_emit.
  - by apply grows_normalize_params.
Qed.

Lemma after_dispatch_trace url operation result_message :
  maintains (grows_by post_or_log) (after_dispatch E url operation result_message).
Proof.
  unfold after_dispatch. maintains_split.
  - by apply grows_upload.
  - apply grows_os_remove.
Qed.

(** The steps after the dispatch succeed exactly when the upload does and
    the temporary file is there to remove. *)
Lemma after_dispatch_ok_inv url operation result_message w s w' :
  after_dispatch E url operation result_message w = (Ok s, w') ->
  exists content up w1,
    upload_file_to_server E (processed_filepath E url) w = (Ok up, w1) /\
    dict_get "file_url" up =
      Some (VStr (FILE_ACCESS_BASE_URL +:+ os_path_basename (processed_filepath E url))) /\
    files w !! processed_filepath E url = Some content /\
    is_Some (files w !! temp_filepath E) /\
    files w' = delete (temp_filepath E) (files w) /\
    trace w' = trace w ++
      [EvPost UPLOAD_ENDPOINT (os_path_basename (processed_filepath E url)) content] /\
    s = success_text operation
          (FILE_ACCESS_BASE_URL +:+ os_path_basename (processed_filepath E url))
          (py_str E result_message).
Proof.
  unfold after_dispatch. intros H.
  apply bind_inv_ok in H as (up & w1 & Hup & H).
  pose proof Hup as Hup'.
  apply upload_ok_inv in Hup as (content & Hf & Hfs & Htr & ->).
  apply bind_inv_ok in H as ([] & w2 & Hrm & H).
  unfold os_remove in Hrm.
  destruct (files w1 !! temp_filepath E) as [c|] eqn:Htmp; [|done].
  assert (w2 = World (delete (temp_filepath E) (files w1)) (trace w1)) as ->
    by congruence.
  unfold bind, subscript in H. simpl in H.
  injection H as Hs Hw. subst w'.
  exists content. do 2 eexists. split; [exact Hup'|].
  simpl. rewrite Hfs in Htmp |- *. by repeat split.
Qed.

End OrchestrationFacts.

(* ===================================================================== *)
(** ** Upload *)
(* ===================================================================== *)

(** C10: for a path with no file, [upload_file_to_server] raises a
    [WorkbookError] whose message contains "File not found" and the path;
    the only event it adds is the log record of that error, so no request
    is sent.  On every call, a request in the added events means the file
    was found first. *)
Theorem upload_checks_the_file_first (E : Env) (filepath : string) (w : world) :
  (files w !! filepath = None ->
   exists text,
     upload_file_to_server E filepath w =
       (Raise (Exn WorkbookError text None), logged ERROR text w) /\
     text = "Failed to upload file: File not found: " +:+ filepath /\
     occurs_in "File not found" text /\
     occurs_in filepath text) /\
  (forall evs,
     trace (upload_file_to_server E filepath w).2 = trace w ++ evs ->
     Exists (fun ev => is_post ev = true) evs ->
     is_Some (files w !! filepath)).
Proof.
  split.
  - intros Hf. eexists. split; [apply (upload_missing E _ _ Hf)|].
    split; [reflexivity|]. split.
    + exists "Failed to upload file: ", (": " +:+ filepath). reflexivity.
    + apply (occurs_in_suffix filepath "Failed to upload file: File not found: ").
  - intros evs Htr Hpost.
    destruct (files w !! filepath) as [content|] eqn:Hf; [by eexists|].
    rewrite (upload_missing E _ _ Hf) in Htr. simpl in Htr.
    apply app_inv_head in Htr. subst evs.
    apply Exists_cons in Hpost as [Hp|Hp]; [done|]. by apply Exists_nil in Hp.
Qed.

Lemma upload_checks_the_file_first_witness :
  files empty_world !! "/srv/excel/absent.xlsx" = None /\
  exists text,
    upload_file_to_server demo_env "/srv/excel/absent.xlsx" empty_world =
      (Raise (Exn WorkbookError text None), logged ERROR text empty_world) /\
    text = "Failed to upload file: File not found: /srv/excel/absent.xlsx" /\
    occurs_in "File not found" text /\
    occurs_in "/srv/excel/absent.xlsx" text.
Proof.
  split; [reflexivity|].
  apply (upload_checks_the_file_first demo_env "/srv/excel/absent.xlsx" empty_world).
  reflexivity.
Defined.

(** Finding a text at the end of a chain of concatenations. *)
Ltac occurs_at_end :=
  repeat apply occurs_in_app_r; first [apply occurs_in_refl | apply occurs_in_prefix].

Lemma process_body_reaches_upload (E : Env) url operation operation_params w p w1 m w2 :
  before_dispatch E url operation_params w = (Ok p, w1) ->
  dispatch E operation (processed_filepath E url) p w1 = (Ok m, w2) ->
  process_body E url operation operation_params w =
  after_dispatch E url operation m w2.
Proof.
  intros Hb Hd. rewrite process_body_stages.
  rewrite (bind_ok _ _ _ _ _ Hb). by rewrite (bind_ok _ _ _ _ _ Hd).
Qed.

(** C8: an upload answered with a status other than 200 raises a
    [WorkbookError] whose message contains the response body, and a run of
    [process_excel_from_url] that gets that answer raises a [WorkbookError]
    whose message still contains it; an upload answered with 200 returns a
    record whose [file_url] is the file-access base URL followed by the
    file's base name, and whose [filename] is that base name. *)
Theorem upload_outcomes (E : Env) :
  (forall filepath content status text w,
     files w !! filepath = Some content ->
     requests_post E UPLOAD_ENDPOINT (os_path_basename filepath) content
       = Response status text ->
     status <> 200%Z ->
     exists msg w',
       upload_file_to_server E filepath w = (Raise (Exn WorkbookError msg None), w') /\
       msg = "Failed to upload file: Failed to upload file: " +:+ text /\
       occurs_in text msg) /\
  (forall url operation operation_params w p w1 m w2 content status text,
     before_dispatch E url operation_params w = (Ok p, w1) ->
     dispatch E operation (processed_filepath E url) p w1 = (Ok m, w2) ->
     files w2 !! processed_filepath E url = Some content ->
     requests_post E UPLOAD_ENDPOINT (os_path_basename (processed_filepath E url)) content
       = Response status text ->
     status <> 200%Z ->
     exists msg w',
       process_excel_from_url E url operation operation_params w
         = (Raise (Exn WorkbookError msg None), w') /\
       msg = "Failed to process Excel from URL: Failed to upload file: Failed to upload file: "
             +:+ text /\
       occurs_in text msg) /\
  (forall filepath content text w,
     files w !! filepath = Some content ->
     requests_post E UPLOAD_ENDPOINT (os_path_basename filepath) content
       = Response 200 text ->
     exists up w',
       upload_file_to_server E filepath w = (Ok up, w') /\
       dict_get "file_url" up =
         Some (VStr ("http://localhost:3001/files/" +:+ os_path_basename filepath)) /\
       dict_get "filename" up = Some (VStr (os_path_basename filepath))).
Proof.
  split; [|split].
  - intros filepath content status text w Hf Hp Hst.
    do 2 eexists. split; [apply (upload_refused E _ _ _ _ _ Hf Hp Hst)|].
    split; [reflexivity|]. occurs_at_end.
  - intros url operation params w p w1 m w2 content status text Hb Hd Hf Hp Hst.
    pose proof (upload_refused E _ _ _ _ _ Hf Hp Hst) as Hup.
    assert (Hbody : process_body E url operation params w =
              (Raise (new_exn WorkbookError
                        ("Failed to upload file: " +:+ "Failed to upload file: " +:+ text)),
               logged ERROR
                 ("Failed to upload file: " +:+ "Failed to upload file: " +:+ text)
                 (posted (os_path_basename (processed_filepath E url)) content w2))).
    { rewrite (process_body_reaches_upload E _ _ _ _ _ _ _ _ Hb Hd).
      unfold after_dispatch. by rewrite (bind_raise _ _ _ _ _ Hup). }
    do 2 eexists. split; [apply (process_wraps E _ _ _ _ _ _ Hbody)|].
    split; [reflexivity|]. occurs_at_end.
  - intros filepath content text w Hf Hp.
    do 2 eexists. split; [apply (upload_accepted E _ _ _ _ Hf Hp)|].
    split; reflexivity.
Qed.

Lemma upload_outcomes_witness :
  (exists msg w',
     upload_file_to_server refusing_env "/srv/excel/book.xlsx"
       (World {["/srv/excel/book.xlsx" := "bytes"]} [])
       = (Raise (Exn WorkbookError msg None), w') /\
     msg = "Failed to upload file: Failed to upload file: disk full" /\
     occurs_in "disk full" msg) /\
  (exists msg w',
     process_excel_from_url refusing_env "http://x/test.xlsx" "apply_formula"
       (VDict formula_params) empty_world
       = (Raise (Exn WorkbookError msg None), w') /\
     msg = "Failed to process Excel from URL: Failed to upload file: Failed to upload file: disk full" /\
     occurs_in "disk full" msg) /\
  (exists up w',
     upload_file_to_server demo_env "/srv/excel/book.xlsx"
       (World {["/srv/excel/book.xlsx" := "bytes"]} [])
       = (Ok up, w') /\
     dict_get "file_url" up = Some (VStr "http://localhost:3001/files/book.xlsx") /\
     dict_get "filename" up = Some (VStr "book.xlsx")).
Proof.
  split; [|split].
  - apply (proj1 (upload_outcomes refusing_env) "/srv/excel/book.xlsx" "bytes" 507%Z);
      [reflexivity|reflexivity|done].
  - set (w1 := (before_dispatch refusing_env "http://x/test.xlsx"
                  (VDict formula_params) empty_world).2).
    set (r := dispatch refusing_env "apply_formula"
                (processed_filepath refusing_env "http://x/test.xlsx")
                (VDict formula_params) w1).
    apply (proj1 (proj2 (upload_outcomes refusing_env))
             "http://x/test.xlsx" "apply_formula" (VDict formula_params) empty_world
             (VDict formula_params) w1
             (VStr "Applied formula '=A1+1' to cell B2") r.2
             "workbook-bytes" 507%Z "disk full");
      [vm_compute; reflexivity|vm_compute; reflexivity|vm_compute; reflexivity
      |reflexivity|done].
  - apply (proj2 (proj2 (upload_outcomes demo_env)) "/srv/excel/book.xlsx" "bytes" "stored");
      reflexivity.
Defined.

(* ===================================================================== *)
(** ** The top-level handler and the response *)
(* ===================================================================== *)



(** The uploaded file is known to the server by the processed name. *)
Lemma processed_file_basename (E : Env) url :
  os_path_basename (processed_filepath E url) = "processed_" +:+ os_path_basename url.
Proof.
  unfold processed_filepath. rewrite os_path_basename_join.
  - unfold processed_filename, original_filename.
    by rewrite last_split_slash_basename, os_path_basename_idem.
  - unfold processed_filename, original_filename.
    rewrite has_slash_app. apply os_path_basename_has_no_slash.
Qed.

(** C7: when [process_excel_from_url] returns, it returns exactly
    "Operation '<op>' completed successfully. Processed file available at:
    <url>", a line break, and "Operation result: <message>", where <op> is
    the requested operation, <url> the [file_url] of the upload result
    (the file-access base URL followed by "processed_" and the base name
    of the request's URL) and <message> what the dispatched tool
    returned. *)
Theorem success_response (E : Env) url operation operation_params (w : world) s w' :
  process_excel_from_url E url operation operation_params w = (Ok s, w') ->
  exists p w1 m w2 up w3 file_url,
    before_dispatch E url operation_params w = (Ok p, w1) /\
    dispatch E operation (processed_filepath E url) p w1 = (Ok m, w2) /\
    upload_file_to_server E (processed_filepath E url) w2 = (Ok up, w3) /\
    dict_get "file_url" up = Some (VStr file_url) /\
    file_url = "http://localhost:3001/files/processed_" +:+ os_path_basename url /\
    s = "Operation '" +:+ operation +:+
        "' completed successfully. Processed file available at: " +:+ file_url +:+
        newline +:+ "Operation result: " +:+ py_str E m.
Proof.
  intros H. unfold process_excel_from_url, try_except in H.
  destruct (process_body E url operation operation_params w) as [[s0|e] w0] eqn:Hb;
    [|done].
  injection H as -> ->.
  rewrite process_body_stages in Hb.
  apply bind_inv_ok in Hb as (p & w1 & Hp & Hb).
  apply bind_inv_ok in Hb as (m & w2 & Hd & Hb).
  apply after_dispatch_ok_inv in Hb
    as (content & up & w3 & Hup & Hurl & _ & _ & _ & _ & ->).
  rewrite processed_file_basename in Hurl |- *.
  exists p, w1, m, w2, up, w3. eexists. repeat split; try done.
Qed.

Lemma success_response_witness :
  exists p w1 m w2 up w3 file_url,
    before_dispatch demo_env "http://x/test.xlsx" (VDict formula_params) empty_world
      = (Ok p, w1) /\
    dispatch demo_env "apply_formula"
      (processed_filepath demo_env "http://x/test.xlsx") p w1 = (Ok m, w2) /\
    upload_file_to_server demo_env
      (processed_filepath demo_env "http://x/test.xlsx") w2 = (Ok up, w3) /\
    dict_get "file_url" up = Some (VStr file_url) /\
    file_url = "http://localhost:3001/files/processed_"
               +:+ os_path_basename "http://x/test.xlsx" /\
    success_text "apply_formula" "http://localhost:3001/files/processed_test.xlsx"
      "Applied formula '=A1+1' to cell B2" =
    "Operation '" +:+ "apply_formula" +:+
    "' completed successfully. Processed file available at: " +:+ file_url +:+
    newline +:+ "Operation result: " +:+ py_str demo_env m.
Proof.
  apply (success_response demo_env "http://x/test.xlsx" "apply_formula"
           (VDict formula_params) empty_world _
           (process_excel_from_url demo_env "http://x/test.xlsx" "apply_formula"
              (VDict formula_params) empty_world).2).
  vm_compute. reflexivity.
Defined.

(* ===================================================================== *)
(** ** Unsupported operations and parameter normalization *)
(* ===================================================================== *)

(** A run whose body stops before or at the dispatch of a name that
    selects no tool adds only the download request and log records. *)
Lemma process_trace_without_dispatch (E : Env) url operation operation_params w :
  (forall p w1,
     before_dispatch E url operation_params w = (Ok p, w1) ->
     exists e, dispatch E operation (processed_filepath E url) p w1 = (Raise e, w1)) ->
  exists e w' evs,
    process_excel_from_url E url operation operation_params w = (Raise e, w') /\
    trace w' = trace w ++ evs /\
    Forall get_or_log evs.
Proof.
  intros Hstop.
  destruct (before_dispatch_trace E url operation_params w) as (evs & Htr & Hall).
  destruct (before_dispatch E url operation_params w) as [[p|e] w1] eqn:Hb.
  - destruct (Hstop p w1 eq_refl) as [e Hd].
    assert (Hbody : process_body E url operation operation_params w = (Raise e, w1)).
    { rewrite process_body_stages, (bind_ok _ _ _ _ _ Hb).
      by rewrite (bind_raise _ _ _ _ _ Hd). }
    do 2 eexists. exists (evs ++ [EvLog ERROR ("Error processing Excel from URL: " +:+ exn_str e)]).
    split; [apply (process_wraps E _ _ _ _ _ _ Hbody)|].
    simpl in *. rewrite Htr, app_assoc. split; [done|].
    apply Forall_app. split; [done|]. by repeat constructor.
  - assert (Hbody : process_body E url operation operation_params w = (Raise e, w1)).
    { rewrite process_body_stages. by rewrite (bind_raise _ _ _ _ _ Hb). }
    do 2 eexists. exists (evs ++ [EvLog ERROR ("Error processing Excel from URL: " +:+ exn_str e)]).
    split; [apply (process_wraps E _ _ _ _ _ _ Hbody)|].
    simpl in *. rewrite Htr, app_assoc. split; [done|].
    apply Forall_app. split; [done|]. by repeat constructor.
Qed.

(** C3: for an operation name that is not one of the five strings, the
    run always fails and adds nothing to the trace but the download
    request and log records (no tool call, no upload); when the stages
    before the dispatch succeed, the error is a [WorkbookError] whose
    message contains "Unsupported operation: <name>".  The hypothesis is
    plain inequality with each of the five strings. *)
Theorem unsupported_operation_rejected (E : Env) url operation operation_params (w : world) :
  ~ In operation supported_operations ->
  (exists e w' evs,
     process_excel_from_url E url operation operation_params w = (Raise e, w') /\
     trace w' = trace w ++ evs /\
     Forall get_or_log evs /\
     Forall (fun ev => is_post ev = false /\ is_tool_call ev = false) evs) /\
  (forall p w1,
     before_dispatch E url operation_params w = (Ok p, w1) ->
     process_excel_from_url E url operation operation_params w =
     (Raise (Exn WorkbookError
               ("Failed to process Excel from URL: Unsupported operation: " +:+ operation)
               None),
      logged ERROR
        ("Error processing Excel from URL: Unsupported operation: " +:+ operation) w1) /\
     occurs_in ("Unsupported operation: " +:+ operation)
       ("Failed to process Excel from URL: Unsupported operation: " +:+ operation)).
Proof.
  intros Hn. split.
  - destruct (process_trace_without_dispatch E url operation operation_params w)
      as (e & w' & evs & Hrun & Htr & Hall).
    { intros p w1 _. eexists. by apply dispatch_unsupported. }
    exists e, w', evs. repeat split; try done.
    eapply Forall_impl; [exact Hall|]. by intros [].
  - intros p w1 Hb. split.
    + apply (process_wraps E _ _ _ _
               (new_exn ValueError ("Unsupported operation: " +:+ operation))).
      rewrite process_body_stages, (bind_ok _ _ _ _ _ Hb).
      apply bind_raise. by apply dispatch_unsupported.
    + apply (occurs_in_suffix ("Unsupported operation: " +:+ operation)
               "Failed to process Excel from URL: ").
Qed.

Lemma unsupported_operation_rejected_witness :
  ~ In "delete_everything" supported_operations /\
  process_excel_from_url demo_env "http://x/test.xlsx" "delete_everything"
    (VDict formula_params) empty_world =
  (Raise (Exn WorkbookError
            "Failed to process Excel from URL: Unsupported operation: delete_everything"
            None),
   logged ERROR "Error processing Excel from URL: Unsupported operation: delete_everything"
     (before_dispatch demo_env "http://x/test.xlsx" (VDict formula_params) empty_world).2).
Proof.
  assert (Hn : ~ In "delete_everything" supported_operations).
  { unfold supported_operations. simpl. intros H. decompose [or] H; done. }
  split; [exact Hn|].
  apply (proj2 (unsupported_operation_rejected demo_env "http://x/test.xlsx"
                  "delete_everything" (VDict formula_params) empty_world Hn)
           (VDict formula_params)).
  vm_compute. reflexivity.
Defined.

(** Names that differ from a supported one only by case, by a missing
    suffix or by surrounding blanks are not supported. *)
Example near_miss_names_are_unsupported :
  Forall (fun name => ~ In name supported_operations)
    ["Format_Range"; "APPLY_FORMULA"; "format"; "apply_formula "; " create_chart";
     "create_pivot"; ""].
Proof.
  repeat constructor; unfold supported_operations; simpl;
    intros H; decompose [or] H; done.
Qed.

Lemma normalize_params_invalid (E : Env) s w :
  json_loads E s = None ->
  normalize_params E (VStr s) w =
  (Raise (new_exn ValueError "Invalid JSON format in operation_params"),
   logged ERROR ("Invalid JSON in operation_params: " +:+ s) w).
Proof. intros H. unfold normalize_params. by rewrite H. Qed.

Lemma before_dispatch_invalid_json (E : Env) url s w p w1 :
  json_loads E s = None ->
  before_dispatch E url (VStr s) w <> (Ok p, w1).
Proof.
  intros Hj H. unfold before_dispatch in H.
  apply bind_inv_ok in H as (? & ? & _ & H).
  apply bind_inv_ok in H as (? & ? & _ & H).
  apply bind_inv_ok in H as (? & ? & _ & H).
  apply bind_inv_ok in H as (? & ? & _ & H).
  by rewrite (normalize_params_invalid E _ _ Hj) in H.
Qed.

(** C4: a string that decodes is replaced by exactly what [json.loads]
    gives (a mapping stays that mapping).  A string that does not decode
    makes the normalization raise [ValueError("Invalid JSON format in
    operation_params")], a fixed text that names the argument, after
    logging the payload itself; nothing else is tried.  The run then fails
    having called no tool, no library function and no upload, and when
    download and staging went through, what it raises is the wrapped form
    of that [ValueError]. *)
Theorem params_normalization (E : Env) :
  (forall s v w,
     json_loads E s = Some v ->
     normalize_params E (VStr s) w = (Ok v, w)) /\
  (forall s w,
     json_loads E s = None ->
     normalize_params E (VStr s) w =
     (Raise (Exn ValueError "Invalid JSON format in operation_params" None),
      logged ERROR ("Invalid JSON in operation_params: " +:+ s) w) /\
     occurs_in "operation_params" "Invalid JSON format in operation_params") /\
  (forall url operation s w,
     json_loads E s = None ->
     exists e w' evs,
       process_excel_from_url E url operation (VStr s) w = (Raise e, w') /\
       trace w' = trace w ++ evs /\
       Forall (fun ev => is_tool_call ev = false /\ is_lib_call ev = false /\
                         is_post ev = false) evs) /\
  (forall url operation s w x w1 w2,
     json_loads E s = None ->
     download_file_from_url E url (temp_filepath E) w = (Ok x, w1) ->
     shutil_copy2 E (temp_filepath E) (processed_filepath E url)
       (logged INFO ("Downloaded file from " +:+ url +:+ " to " +:+ temp_filepath E) w1)
       = (Ok tt, w2) ->
     process_excel_from_url E url operation (VStr s) w =
     (Raise (Exn WorkbookError
               "Failed to process Excel from URL: Invalid JSON format in operation_params"
               None),
      logged ERROR "Error processing Excel from URL: Invalid JSON format in operation_params"
        (logged ERROR ("Invalid JSON in operation_params: " +:+ s)
           (logged INFO ("operation_params: " +:+ s) w2)))).
Proof.
  split; [|split; [|split]].
  - intros s v w H. unfold normalize_params. by rewrite H.
  - intros s w H. split; [by apply normalize_params_invalid|].
    exists "Invalid JSON format in ", "". reflexivity.
  - intros url operation s w Hj.
    destruct (process_trace_without_dispatch E url operation (VStr s) w)
      as (e & w' & evs & Hrun & Htr & Hall).
    { intros p w1 Hb. by destruct (before_dispatch_invalid_json E _ _ _ _ _ Hj Hb). }
    exists e, w', evs. repeat split; try done.
    eapply Forall_impl; [exact Hall|]. by intros [].
  - intros url operation s w x w1 w2 Hj Hd Hc.
    apply (process_wraps E _ _ _ _
             (new_exn ValueError "Invalid JSON format in operation_params")).
    unfold process_body.
    rewrite (bind_ok _ _ _ _ _ Hd).
    unfold logger_info at 1. unfold emit at 1. unfold bind at 1.
    unfold logged in Hc. rewrite (bind_ok _ _ _ _ _ Hc).
    unfold logger_info at 1. unfold emit at 1. unfold bind at 1.
    apply bind_raise. simpl. by rewrite (normalize_params_invalid E _ _ Hj).
Qed.

Lemma params_normalization_witness :
  normalize_params demo_env (VStr formula_params_json) empty_world
    = (Ok (VDict formula_params), empty_world) /\
  normalize_params demo_env (VStr "{sheet_name: Sheet1") empty_world
    = (Raise (Exn ValueError "Invalid JSON format in operation_params" None),
       logged ERROR "Invalid JSON in operation_params: {sheet_name: Sheet1" empty_world) /\
  exists w',
    process_excel_from_url demo_env "http://x/test.xlsx" "apply_formula"
      (VStr "{sheet_name: Sheet1") empty_world =
    (Raise (Exn WorkbookError
              "Failed to process Excel from URL: Invalid JSON format in operation_params"
              None), w').
Proof.
  split; [|split].
  - apply (proj1 (params_normalization demo_env)). reflexivity.
  - apply (proj1 (proj2 (params_normalization demo_env))). reflexivity.
  - eexists.
    apply (proj2 (proj2 (proj2 (params_normalization demo_env)))
             "http://x/test.xlsx" "apply_formula" "{sheet_name: Sheet1" empty_world
             (temp_filepath demo_env)
             (download_file_from_url demo_env "http://x/test.xlsx"
                (temp_filepath demo_env) empty_world).2);
      [reflexivity|vm_compute; reflexivity|vm_compute; reflexivity].
Defined.

(* ===================================================================== *)
(** ** Path resolution *)
(* ===================================================================== *)

(** A tool whose body starts with a library call makes that call as soon
    as its arguments are bound. *)
Lemma tool_first_call (E : Env) name sig handled what body filepath kwargs w a fn args kw
    (k : pyval -> M pyval) :
  bind_arguments E name sig kwargs
    (World (files w) (trace w ++ [EvTool name filepath kwargs]))
  = (Ok a, World (files w) (trace w ++ [EvTool name filepath kwargs])) ->
  body filepath a = bind (call_lib E fn args kw) k ->
  (forall r, maintains (grows_by (fun _ => True)) (k r)) ->
  exists rest,
    trace (tool E name sig handled what body filepath kwargs w).2 =
    trace w ++ EvTool name filepath kwargs :: EvLib fn args kw :: rest.
Proof.
  intros Ha Hbody Hk. unfold tool. unfold bind at 1. unfold emit at 1.
  rewrite (bind_ok _ _ _ _ _ Ha). unfold try_except. rewrite Hbody.
  unfold bind at 1. unfold call_lib at 1. cbn [files trace].
  destruct (library E fn args kw (files w)) as [[v|e] fs].
  - set (w1 := World fs ((trace w ++ [EvTool name filepath kwargs]) ++ [EvLib fn args kw])).
    destruct (Hk v w1) as (evs & Htr & _).
    destruct (k v w1) as [[x|e] w2]; cbn [snd] in Htr.
    + exists evs. cbn [snd]. rewrite Htr. unfold w1. cbn [trace].
      by rewrite <- !app_assoc.
    + destruct (is_instance e handled).
      * exists evs. cbn [ret snd]. rewrite Htr. unfold w1. cbn [trace].
        by rewrite <- !app_assoc.
      * exists (evs ++ [EvLog ERROR (what +:+ exn_str e)]).
        unfold bind, logger_error, emit, raise. cbn [snd trace]. rewrite Htr.
        unfold w1. cbn [trace]. by rewrite <- !app_assoc.
  - destruct (is_instance e handled).
    + exists []. cbn [ret snd trace]. by rewrite <- !app_assoc.
    + exists [EvLog ERROR (what +:+ exn_str e)].
      unfold bind, logger_error, emit, raise. cbn [snd trace]. by rewrite <- !app_assoc.
Qed.

(** Each of the eighteen tools, once its arguments are bound, calls the
    library function of its body first, on the resolved path; every
    later call is on that path too. *)
Lemma direct_tools_first_call (E : Env) name f filepath kwargs w a :
  In (name, f) (direct_tools E) ->
  bind_arguments E name (signature_of name) kwargs
    (World (files w) (trace w ++ [EvTool name filepath kwargs]))
  = (Ok a, World (files w) (trace w ++ [EvTool name filepath kwargs])) ->
  exists args kw rest,
    trace (f filepath kwargs w).2 =
      trace w ++ EvTool name filepath kwargs ::
      EvLib (first_library_call name) args kw :: rest /\
    lib_path args kw = Some (VStr (get_excel_path E filepath)) /\
    Forall (log_or_lib_on (get_excel_path E filepath)) rest.
Proof.
  intros Hin Ha.
  destruct (direct_tools_trace E name f filepath kwargs w Hin) as (evs & Htr & Hall).
  assert (Hfirst : exists args kw rest,
            trace (f filepath kwargs w).2 =
              trace w ++ EvTool name filepath kwargs ::
              EvLib (first_library_call name) args kw :: rest /\
            lib_path args kw = Some (VStr (get_excel_path E filepath))).
  { clear evs Htr Hall. unfold direct_tools in Hin. cbn [In] in Hin.
    repeat (destruct Hin as [Hin|Hin]; [injection Hin as <- <-|]); [..|done].
    all: match goal with
         | |- context [trace (?t _ _ _ _).2] => unfold t
         end.
    all: match goal with
         | |- exists args kw rest, trace (tool ?E0 ?n ?s ?h ?wh ?b ?fp ?kws ?w0).2 = _ /\ _ =>
             let H := fresh "H" in
             edestruct (tool_first_call E0 n s h wh b fp kws w0) as [rest H];
             [ exact Ha
             | cbv beta zeta; reflexivity
             | intros r; maintains_split; by apply grows_call_lib
             | eexists _, _, rest; split; [exact H|reflexivity] ]
         end. }
  destruct Hfirst as (args & kw & rest & Hfirst & Hpath).
  exists args, kw, rest. split; [done|]. split; [done|].
  rewrite Hfirst in Htr. apply app_inv_head in Htr. injection Htr as <-.
  by inversion Hall.
Qed.

(** C9: [get_excel_path] returns an absolute file name unchanged,
    whatever the working directory is, and joins any other name under the
    working directory; each of the eighteen tools that take a [filepath]
    hands its library calls the path resolved by this rule and no other.
    A tool does resolve and call: whenever the call binds its arguments,
    the first thing it does after recording the call is to call its
    library function on the resolved path. *)
Theorem path_resolution_rule (E : Env) :
  (forall filename,
     os_path_isabs filename = true -> get_excel_path E filename = filename) /\
  (forall rest, get_excel_path E ("/" +:+ rest) = "/" +:+ rest) /\
  (forall filename,
     os_path_isabs filename = false ->
     get_excel_path E filename = os_path_join (EXCEL_FILES_PATH E) filename /\
     (EXCEL_FILES_PATH E <> "" -> endswith_slash (EXCEL_FILES_PATH E) = false ->
      get_excel_path E filename = EXCEL_FILES_PATH E +:+ "/" +:+ filename) /\
     (endswith_slash (EXCEL_FILES_PATH E) = true ->
      get_excel_path E filename = EXCEL_FILES_PATH E +:+ filename)) /\
  (forall name f filepath kwargs w,
     In (name, f) (direct_tools E) ->
     exists evs,
       trace (f filepath kwargs w).2 = trace w ++ EvTool name filepath kwargs :: evs /\
       Forall (log_or_lib_on (get_excel_path E filepath)) evs) /\
  map fst (direct_tools E) =
    ["apply_formula"; "validate_formula_syntax"; "format_range";
     "read_data_from_excel"; "write_data_to_excel"; "create_workbook";
     "create_worksheet"; "create_chart"; "create_pivot_table"; "copy_worksheet";
     "delete_worksheet"; "rename_worksheet"; "get_workbook_metadata";
     "merge_cells"; "unmerge_cells"; "copy_range"; "delete_range";
     "validate_excel_range"] /\
  (forall name f filepath kwargs w a,
     In (name, f) (direct_tools E) ->
     bind_arguments E name (signature_of name) kwargs
       (World (files w) (trace w ++ [EvTool name filepath kwargs]))
     = (Ok a, World (files w) (trace w ++ [EvTool name filepath kwargs])) ->
     exists args kw rest,
       trace (f filepath kwargs w).2 =
         trace w ++ EvTool name filepath kwargs ::
         EvLib (first_library_call name) args kw :: rest /\
       lib_path args kw = Some (VStr (get_excel_path E filepath)) /\
       Forall (log_or_lib_on (get_excel_path E filepath)) rest).
Proof.
  split; [|split; [|split; [|split; [|split]]]].
  - intros filename H. unfold get_excel_path. by rewrite H.
  - intros rest. reflexivity.
  - intros filename H. unfold get_excel_path, os_path_join. rewrite H.
    unfold os_path_isabs in H. rewrite H. split; [done|]. split.
    + intros Hne Hend. rewrite Hend.
      destruct (String.eqb_spec (EXCEL_FILES_PATH E) ""); [done|reflexivity].
    + intros Hend. rewrite Hend. by rewrite orb_true_r.
  - intros name f filepath kwargs w Hin. by apply direct_tools_trace.
  - reflexivity.
  - intros name f filepath kwargs w a. apply direct_tools_first_call.
Qed.

Lemma path_resolution_rule_witness :
  get_excel_path demo_env "/etc/passwd" = "/etc/passwd" /\
  get_excel_path demo_env "book.xlsx" = "/srv/excel/book.xlsx" /\
  get_excel_path default_dir_env "reports/q1.xlsx" = "./excel_files/reports/q1.xlsx" /\
  exists args kw rest,
    trace (validate_excel_range default_dir_env "reports/q1.xlsx"
             [("sheet_name", VStr "Sheet1"); ("start_cell", VStr "A1");
              ("end_cell", VStr "C3")] empty_world).2 =
      trace empty_world ++
      EvTool "validate_excel_range" "reports/q1.xlsx"
        [("sheet_name", VStr "Sheet1"); ("start_cell", VStr "A1"); ("end_cell", VStr "C3")] ::
      EvLib (first_library_call "validate_excel_range") args kw :: rest /\
    lib_path args kw = Some (VStr (get_excel_path default_dir_env "reports/q1.xlsx")) /\
    Forall (log_or_lib_on (get_excel_path default_dir_env "reports/q1.xlsx")) rest.
Proof.
  split; [|split; [|split]].
  4:{ apply (proj2 (proj2 (proj2 (proj2 (proj2 (path_resolution_rule default_dir_env)))))
               "validate_excel_range" (validate_excel_range default_dir_env)
               "reports/q1.xlsx"
               [("sheet_name", VStr "Sheet1"); ("start_cell", VStr "A1");
                ("end_cell", VStr "C3")]
               empty_world
               [("sheet_name", VStr "Sheet1"); ("start_cell", VStr "A1");
                ("end_cell", VStr "C3")]).
      - unfold direct_tools. simpl. tauto.
      - reflexivity. }
  - apply (proj1 (path_resolution_rule demo_env)). reflexivity.
  - apply (proj1 (proj2 (proj2 (path_resolution_rule demo_env))) "book.xlsx");
      [reflexivity|done|reflexivity].
  - apply (proj1 (proj2 (proj2 (path_resolution_rule default_dir_env)))
             "reports/q1.xlsx"); [reflexivity|done|reflexivity].
Defined.

Lemma startswith_slash_join a b :
  startswith_slash a = false -> startswith_slash b = false ->
  startswith_slash (os_path_join a b) = false.
Proof.
  intros Ha Hb. unfold os_path_join. rewrite Hb.
  destruct a as [|c a]; [exact Hb|].
  destruct (String.eqb (String c a) "" || endswith_slash (String c a));
    rewrite str_app_cons; exact Ha.
Qed.

(** Components of joined paths. *)
Lemma split_slash_app a b :
  split_slash (a +:+ "/" +:+ b) = split_slash a ++ split_slash b.
Proof.
  induction a as [|c a IH]; [reflexivity|].
  rewrite str_app_cons. cbn [split_slash]. rewrite IH.
  destruct (is_slash c); [reflexivity|].
  destruct (split_slash a) as [|h t] eqn:Hsp; [by destruct (split_slash_nonempty a)|].
  reflexivity.
Qed.

Lemma path_components_app a b :
  path_components (a +:+ "/" +:+ b) = path_components a ++ path_components b.
Proof. unfold path_components. by rewrite split_slash_app, List.filter_app. Qed.

Lemma has_parent_step_app a b :
  has_parent_step (a +:+ "/" +:+ b) = has_parent_step a || has_parent_step b.
Proof. unfold has_parent_step. by rewrite split_slash_app, existsb_app. Qed.

Lemma os_path_join_components a b :
  startswith_slash b = false ->
  path_components (os_path_join a b) = path_components a ++ path_components b /\
  has_parent_step (os_path_join a b) = has_parent_step a || has_parent_step b.
Proof.
  intros Hb. unfold os_path_join. rewrite Hb.
  destruct (String.eqb_spec a "") as [->|Hne]; [done|]. cbn [orb].
  destruct (endswith_slash a) eqn:He.
  - destruct (endswith_slash_inv a He) as [a' ->].
    rewrite str_app_assoc.
    change (a' +:+ "/") with (a' +:+ "/" +:+ "").
    rewrite !path_components_app, !has_parent_step_app.
    change (path_components "") with (@nil string).
    change (has_parent_step "") with false.
    by rewrite app_nil_r, orb_false_r.
  - by rewrite path_components_app, has_parent_step_app.
Qed.

Lemma processed_filename_components url :
  path_components (processed_filename url) = [processed_filename url] /\
  has_parent_step (processed_filename url) = false.
Proof.
  assert (Hno : has_slash (processed_filename url) = false).
  { unfold processed_filename, original_filename.
    by rewrite has_slash_app, os_path_basename_has_no_slash. }
  unfold path_components, has_parent_step.
  rewrite (split_slash_plain _ Hno). split; reflexivity.
Qed.

(** The processed path and the path the tool resolves it to, by their
    components. *)
Lemma processed_path_components (E : Env) url :
  os_path_isabs (EXCEL_FILES_PATH E) = false ->
  path_components (processed_filepath E url) =
    path_components (EXCEL_FILES_PATH E) ++ [processed_filename url] /\
  path_components (get_excel_path E (processed_filepath E url)) =
    path_components (EXCEL_FILES_PATH E) ++
    path_components (EXCEL_FILES_PATH E) ++ [processed_filename url] /\
  has_parent_step (processed_filepath E url) = has_parent_step (EXCEL_FILES_PATH E) /\
  has_parent_step (get_excel_path E (processed_filepath E url)) =
    has_parent_step (EXCEL_FILES_PATH E) /\
  os_path_isabs (processed_filepath E url) = false /\
  os_path_isabs (get_excel_path E (processed_filepath E url)) = false.
Proof.
  intros Habs. unfold os_path_isabs in *.
  assert (Hname : startswith_slash (processed_filename url) = false) by reflexivity.
  assert (Hrel : startswith_slash (processed_filepath E url) = false).
  { unfold processed_filepath. by apply startswith_slash_join. }
  destruct (processed_filename_components url) as [Hc Hp].
  destruct (os_path_join_components (EXCEL_FILES_PATH E) (processed_filename url) Hname)
    as [Hc1 Hp1].
  destruct (os_path_join_components (EXCEL_FILES_PATH E) (processed_filepath E url) Hrel)
    as [Hc2 Hp2].
  assert (Hres : get_excel_path E (processed_filepath E url) =
                 os_path_join (EXCEL_FILES_PATH E) (processed_filepath E url)).
  { unfold get_excel_path, os_path_isabs. by rewrite Hrel. }
  rewrite Hres, Hc2, Hp2. unfold processed_filepath at 1 2 3 4.
  rewrite Hc1, Hp1, Hc, Hp, orb_false_r, orb_diag.
  split; [done|]. split; [done|]. split; [done|]. split; [done|].
  split; [exact Hrel|]. by apply startswith_slash_join.
Qed.

(** Under a relative working directory that names a directory of its own
    and has no parent step, the tool is sent to another file. *)
Lemma processed_path_resolved_elsewhere (E : Env) url :
  os_path_isabs (EXCEL_FILES_PATH E) = false ->
  has_parent_step (EXCEL_FILES_PATH E) = false ->
  path_components (EXCEL_FILES_PATH E) <> [] ->
  distinct_files (get_excel_path E (processed_filepath E url)) (processed_filepath E url).
Proof.
  intros Habs Hpar Hne.
  destruct (processed_path_components E url Habs) as (Hc1 & Hc2 & Hp1 & Hp2 & Ha1 & Ha2).
  unfold distinct_files. rewrite Hp1, Hp2, Ha1, Ha2, Hc1, Hc2.
  split; [done|]. split; [done|]. split; [done|].
  intros Heq. apply (f_equal (@length string)) in Heq.
  rewrite !length_app in Heq. cbn [length] in Heq.
  destruct (path_components (EXCEL_FILES_PATH E)); [done|]. cbn [length] in Heq. lia.
Qed.

(** X1: the path the dispatched tool works on.  The orchestration hands the
    tool the processed path, and the tool resolves it like any other
    [filepath] before it calls the spreadsheet layer: for every supported
    operation whose parameters bind, the first library call and all later
    ones carry the resolved path.  Under an absolute working directory
    that is the processed path itself.  Under a relative one it is the
    working directory joined in front a second time: where the working
    directory names a directory of its own and has no parent step (the
    default [./excel_files]), a path that cannot name the staged file;
    where it names nothing ([.], the empty name), another spelling of the
    staged file. *)
Theorem processed_path_is_resolved_again (E : Env) (url : string) :
  (os_path_isabs (EXCEL_FILES_PATH E) = true ->
   get_excel_path E (processed_filepath E url) = processed_filepath E url) /\
  (os_path_isabs (EXCEL_FILES_PATH E) = false ->
   get_excel_path E (processed_filepath E url) =
   os_path_join (EXCEL_FILES_PATH E)
     (os_path_join (EXCEL_FILES_PATH E) (processed_filename url))) /\
  (os_path_isabs (EXCEL_FILES_PATH E) = false ->
   has_parent_step (EXCEL_FILES_PATH E) = false ->
   path_components (EXCEL_FILES_PATH E) <> [] ->
   distinct_files (get_excel_path E (processed_filepath E url)) (processed_filepath E url)) /\
  (os_path_isabs (EXCEL_FILES_PATH E) = false ->
   path_components (EXCEL_FILES_PATH E) = [] ->
   path_components (get_excel_path E (processed_filepath E url)) =
   path_components (processed_filepath E url)) /\
  (forall operation d w a,
     In operation supported_operations ->
     bind_arguments E operation (signature_of operation) (without_filepath d)
       (World (files w)
          (trace w ++ [EvTool operation (processed_filepath E url) (without_filepath d)]))
     = (Ok a,
        World (files w)
          (trace w ++ [EvTool operation (processed_filepath E url) (without_filepath d)])) ->
     exists args kw rest,
       trace (dispatch E operation (processed_filepath E url) (VDict d) w).2 =
         trace w ++ EvTool operation (processed_filepath E url) (without_filepath d) ::
         EvLib (first_library_call operation) args kw :: rest /\
       lib_path args kw = Some (VStr (get_excel_path E (processed_filepath E url))) /\
       Forall (log_or_lib_on (get_excel_path E (processed_filepath E url))) rest).
Proof.
  assert (Hname : startswith_slash (processed_filename url) = false) by reflexivity.
  split; [|split; [|split; [|split]]].
  - intros Habs. unfold get_excel_path, os_path_isabs in *.
    assert (Hp : startswith_slash (processed_filepath E url) = true).
    { unfold processed_filepath, os_path_join. rewrite Hname.
      destruct (EXCEL_FILES_PATH E) as [|c a]; [done|].
      by destruct (String.eqb (String c a) "" || endswith_slash (String c a));
        rewrite str_app_cons. }
    by rewrite Hp.
  - intros Habs. unfold get_excel_path, os_path_isabs in *.
    unfold processed_filepath at 1.
    by rewrite (startswith_slash_join _ _ Habs Hname).
  - apply processed_path_resolved_elsewhere.
  - intros Habs Hnil.
    destruct (processed_path_components E url Habs) as (Hc1 & Hc2 & _).
    by rewrite Hc1, Hc2, Hnil.
  - intros operation d w a Hop Ha.
    destruct (dispatch_supported E operation Hop) as (f & Hf & Heq).
    rewrite Heq. by apply (direct_tools_first_call E operation f _ _ w a).
Qed.

Lemma processed_path_is_resolved_again_witness :
  get_excel_path demo_env (processed_filepath demo_env "http://x/test.xlsx")
    = "/srv/excel/processed_test.xlsx" /\
  get_excel_path default_dir_env (processed_filepath default_dir_env "http://x/test.xlsx")
    = "./excel_files/./excel_files/processed_test.xlsx" /\
  distinct_files
    (get_excel_path default_dir_env (processed_filepath default_dir_env "http://x/test.xlsx"))
    (processed_filepath default_dir_env "http://x/test.xlsx") /\
  exists args kw rest,
    trace (dispatch default_dir_env "apply_formula"
             (processed_filepath default_dir_env "http://x/test.xlsx")
             (VDict formula_params) empty_world).2 =
      trace empty_world ++
      EvTool "apply_formula" (processed_filepath default_dir_env "http://x/test.xlsx")
        (without_filepath formula_params) ::
      EvLib (first_library_call "apply_formula") args kw :: rest /\
    lib_path args kw =
      Some (VStr (get_excel_path default_dir_env
                    (processed_filepath default_dir_env "http://x/test.xlsx"))) /\
    Forall (log_or_lib_on
              (get_excel_path default_dir_env
                 (processed_filepath default_dir_env "http://x/test.xlsx"))) rest.
Proof.
  split; [|split; [|split]].
  - apply (proj1 (processed_path_is_resolved_again demo_env "http://x/test.xlsx")).
    reflexivity.
  - apply (proj1 (proj2 (processed_path_is_resolved_again default_dir_env
                           "http://x/test.xlsx"))).
    reflexivity.
  - apply (proj1 (proj2 (proj2 (processed_path_is_resolved_again default_dir_env
                                  "http://x/test.xlsx")))).
    + reflexivity.
    + reflexivity.
    + vm_compute. discriminate.
  - apply (proj2 (proj2 (proj2 (proj2 (processed_path_is_resolved_again default_dir_env
                                         "http://x/test.xlsx"))))
             "apply_formula" formula_params empty_world formula_params).
    + vm_compute. tauto.
    + reflexivity.
Defined.

(* ===================================================================== *)
(** ** The dispatch step *)
(* ===================================================================== *)

Lemma dict_get_cons k k' v (r : dict) :
  dict_get k ((k', v) :: r) = if String.eqb k k' then Some v else dict_get k r.
Proof. reflexivity. Qed.

Lemma without_filepath_cons k v d :
  without_filepath ((k, v) :: d) =
  if String.eqb k "filepath" then without_filepath d
  else (k, v) :: without_filepath d.
Proof.
  unfold without_filepath. cbn [List.filter fst].
  by destruct (String.eqb k "filepath").
Qed.

Lemma without_filepath_has_no_filepath d :
  dict_get "filepath" (without_filepath d) = None.
Proof.
  induction d as [|[k v] d IH]; [reflexivity|].
  rewrite without_filepath_cons.
  destruct (String.eqb_spec k "filepath") as [->|Hk]; [exact IH|].
  rewrite dict_get_cons.
  destruct (String.eqb_spec "filepath" k) as [<-|_]; [done|exact IH].
Qed.

Lemma without_filepath_keeps_others d k :
  k <> "filepath" -> dict_get k (without_filepath d) = dict_get k d.
Proof.
  intros Hk. induction d as [|[k' v] d IH]; [reflexivity|].
  rewrite without_filepath_cons, !dict_get_cons.
  destruct (String.eqb_spec k' "filepath") as [->|Hk'].
  - destruct (String.eqb_spec k "filepath"); [done|exact IH].
  - by rewrite dict_get_cons, IH.
Qed.

Lemma filter_tool_calls_none evs :
  Forall (fun ev => is_tool_call ev = false) evs -> List.filter is_tool_call evs = [].
Proof.
  induction 1 as [|ev evs Hev _ IH]; [reflexivity|]. simpl. by rewrite Hev.
Qed.

(** After the stages before the dispatch, a run adds what the dispatch
    adds, then only uploads and log records. *)
Lemma process_trace_from_dispatch (E : Env) url operation operation_params w p w1 :
  before_dispatch E url operation_params w = (Ok p, w1) ->
  exists evs,
    trace (process_excel_from_url E url operation operation_params w).2 =
    trace (dispatch E operation (processed_filepath E url) p w1).2 ++ evs /\
    Forall post_or_log evs.
Proof.
  intros Hb.
  destruct (dispatch E operation (processed_filepath E url) p w1) as [[m|e] w2] eqn:Hd.
  - pose proof (process_body_reaches_upload E _ _ _ _ _ _ _ _ Hb Hd) as Hbody.
    destruct (after_dispatch_trace E url operation m w2) as (evs & Htr & Hall).
    destruct (after_dispatch E url operation m w2) as [[s|e] w3] eqn:Ha.
    + exists evs. by rewrite (process_returns E _ _ _ _ _ _ Hbody).
    + exists (evs ++ [EvLog ERROR ("Error processing Excel from URL: " +:+ exn_str e)]).
      rewrite (process_wraps E _ _ _ _ _ _ Hbody). simpl in *.
      rewrite Htr, app_assoc. split; [done|].
      apply Forall_app. split; [done|]. by repeat constructor.
  - assert (Hbody : process_body E url operation operation_params w = (Raise e, w2)).
    { rewrite process_body_stages, (bind_ok _ _ _ _ _ Hb).
      by rewrite (bind_raise _ _ _ _ _ Hd). }
    exists [EvLog ERROR ("Error processing Excel from URL: " +:+ exn_str e)].
    rewrite (process_wraps E _ _ _ _ _ _ Hbody). simpl.
    split; [done|]. by repeat constructor.
Qed.

(** C2: for each of the five operation names and a mapping [d], the
    dispatch is the call of the tool of that name on the given path with
    [d] minus its [filepath] entry as keywords; the trace shows that one
    tool call and no other; the keywords never contain [filepath] and keep
    every other entry.  In a run of [process_excel_from_url] that reaches
    the dispatch with the normalized mapping [d], the tool calls of the
    whole run are that single call, on the processed-file path. *)
Theorem dispatch_calls_the_matching_tool (E : Env) (path : string) (d : dict) :
  (dispatch E "format_range" path (VDict d) = format_range E path (without_filepath d) /\
   dispatch E "apply_formula" path (VDict d) = apply_formula E path (without_filepath d) /\
   dispatch E "write_data_to_excel" path (VDict d)
     = write_data_to_excel E path (without_filepath d) /\
   dispatch E "create_chart" path (VDict d) = create_chart E path (without_filepath d) /\
   dispatch E "create_pivot_table" path (VDict d)
     = create_pivot_table E path (without_filepath d)) /\
  (forall operation w,
     In operation supported_operations ->
     exists evs,
       trace (dispatch E operation path (VDict d) w).2 =
       trace w ++ EvTool operation path (without_filepath d) :: evs /\
       Forall (fun ev => is_tool_call ev = false) evs) /\
  dict_get "filepath" (without_filepath d) = None /\
  (forall k, k <> "filepath" -> dict_get k (without_filepath d) = dict_get k d) /\
  (forall url operation operation_params w w1,
     In operation supported_operations ->
     before_dispatch E url operation_params w = (Ok (VDict d), w1) ->
     exists evs,
       trace (process_excel_from_url E url operation operation_params w).2
         = trace w ++ evs /\
       List.filter is_tool_call evs =
         [EvTool operation (processed_filepath E url) (without_filepath d)]).
Proof.
  assert (Hdisp : forall path' operation w,
            In operation supported_operations ->
            exists evs,
              trace (dispatch E operation path' (VDict d) w).2 =
              trace w ++ EvTool operation path' (without_filepath d) :: evs /\
              Forall (fun ev => is_tool_call ev = false) evs).
  { intros path' operation w Hop.
    destruct (dispatch_supported E operation Hop) as (f & Hin & Heq).
    rewrite Heq.
    destruct (direct_tools_trace E operation f path' (without_filepath d) w Hin)
      as (evs & Htr & Hall).
    exists evs. split; [done|].
    eapply Forall_impl; [exact Hall|]. by intros []. }
  split; [|split; [|split; [|split]]].
  - repeat split; reflexivity.
  - intros operation w. apply Hdisp.
  - apply without_filepath_has_no_filepath.
  - intros k. apply without_filepath_keeps_others.
  - intros url operation operation_params w w1 Hop Hb.
    destruct (before_dispatch_trace E url operation_params w) as (evs0 & Htr0 & Hall0).
    rewrite Hb in Htr0. simpl in Htr0.
    destruct (Hdisp (processed_filepath E url) operation w1 Hop) as (evs1 & Htr1 & Hall1).
    destruct (process_trace_from_dispatch E url operation operation_params w _ _ Hb)
      as (evs2 & Htr2 & Hall2).
    exists (evs0 ++ EvTool operation (processed_filepath E url) (without_filepath d)
                 :: evs1 ++ evs2).
    split.
    + rewrite Htr2, Htr1, Htr0. by rewrite <- !app_assoc.
    + rewrite List.filter_app. simpl. rewrite List.filter_app.
      rewrite (filter_tool_calls_none evs0), (filter_tool_calls_none evs1),
        (filter_tool_calls_none evs2); [done|..].
      * eapply Forall_impl; [exact Hall2|]. by intros [].
      * done.
      * eapply Forall_impl; [exact Hall0|]. by intros [].
Qed.

Lemma dispatch_calls_the_matching_tool_witness :
  exists evs,
    trace (process_excel_from_url demo_env "http://x/test.xlsx" "apply_formula"
             (VDict (("filepath", VStr "/etc/passwd") :: formula_params))
             empty_world).2
      = trace empty_world ++ evs /\
    List.filter is_tool_call evs =
      [EvTool "apply_formula" "/srv/excel/processed_test.xlsx" formula_params].
Proof.
  apply (proj2 (proj2 (proj2 (proj2
           (dispatch_calls_the_matching_tool demo_env ""
              (("filepath", VStr "/etc/passwd") :: formula_params)))))
           "http://x/test.xlsx" "apply_formula"
           (VDict (("filepath", VStr "/etc/passwd") :: formula_params)) empty_world
           (before_dispatch demo_env "http://x/test.xlsx"
              (VDict (("filepath", VStr "/etc/passwd") :: formula_params))
              empty_world).2).
  - unfold supported_operations. simpl. tauto.
  - vm_compute. reflexivity.
Defined.

(* ===================================================================== *)
(** ** Failures at the dispatch step *)
(* ===================================================================== *)

Lemma check_keywords_raises_type_error (E : Env) fn names kwargs w e w' :
  check_keywords E fn names kwargs w = (Raise e, w') -> exn_class e = TypeError.
Proof.
  induction kwargs as [|[k v] r IH]; simpl; [done|].
  destruct (String.eqb k "filepath"); [by intros [= <- _]|].
  destruct (existsb (String.eqb k) names); [exact IH|by intros [= <- _]].
Qed.

Lemma bind_arguments_raises_type_error (E : Env) fn sig kwargs w e w' :
  bind_arguments E fn sig kwargs w = (Raise e, w') -> exn_class e = TypeError.
Proof.
  unfold bind_arguments. intros H.
  apply bind_inv_raise in H as [H|(? & w1 & _ & H)].
  - by apply check_keywords_raises_type_error in H.
  - destruct (missing_arguments sig kwargs); [done|]. by injection H as <- _.
Qed.

(** What the frame of a tool does with an exception of its body. *)
Lemma tool_body_raises (E : Env) name sig handled what body filepath kwargs w a w1 e w2 :
  bind_arguments E name sig kwargs
    (World (files w) (trace w ++ [EvTool name filepath kwargs])) = (Ok a, w1) ->
  body filepath a w1 = (Raise e, w2) ->
  tool E name sig handled what body filepath kwargs w =
  if is_instance e handled
  then (Ok (VStr ("Error: " +:+ exn_str e)), w2)
  else (Raise e, logged ERROR (what +:+ exn_str e) w2).
Proof.
  intros Ha Hb. unfold tool. unfold bind at 1. unfold emit at 1.
  rewrite (bind_ok _ _ _ _ _ Ha), (try_except_raise _ _ _ _ _ Hb).
  by destruct (is_instance e handled).
Qed.

(** A tool never raises an exception of a class it converts, unless the
    call itself could not bind its arguments. *)
Lemma tool_raises_unconverted (E : Env) name sig handled what body filepath kwargs w e w' :
  tool E name sig handled what body filepath kwargs w = (Raise e, w') ->
  is_instance e handled = false \/ exn_class e = TypeError.
Proof.
  unfold tool. unfold bind at 1. unfold emit at 1. intros H.
  apply bind_inv_raise in H as [H|(a & w1 & Ha & H)].
  - right. by apply bind_arguments_raises_type_error in H.
  - unfold try_except in H.
    destruct (body filepath a w1) as [[v|e1] w2]; [done|].
    destruct (is_instance e1 handled) eqn:Hi; [done|].
    unfold bind, logger_error, emit in H. injection H as <- _. by left.
Qed.

(** The stages after the dispatch step when the processed file is there,
    the temporary file is there and the server accepts the upload: the
    value the tool returned is printed into the response as it is. *)
Lemma after_dispatch_accepted (E : Env) url operation m w content kept text :
  files w !! processed_filepath E url = Some content ->
  files w !! temp_filepath E = Some kept ->
  requests_post E UPLOAD_ENDPOINT (os_path_basename (processed_filepath E url)) content
    = Response 200 text ->
  after_dispatch E url operation m w =
  (Ok (success_text operation
         (FILE_ACCESS_BASE_URL +:+ os_path_basename (processed_filepath E url))
         (py_str E m)),
   World (delete (temp_filepath E) (files w))
     (trace w ++ [EvPost UPLOAD_ENDPOINT (os_path_basename (processed_filepath E url))
                    content])).
Proof.
  intros Hf Ht Hpost. unfold after_dispatch.
  rewrite (bind_ok _ _ _ _ _ (upload_accepted E _ _ _ _ Hf Hpost)).
  unfold bind at 1. unfold os_remove, posted. cbn [files trace]. rewrite Ht.
  reflexivity.
Qed.

(** Each supported name runs the frame of a tool with the signature, the
    [except] clause and the log prefix of that name. *)
Lemma dispatch_is_a_tool (E : Env) operation :
  In operation supported_operations ->
  exists body,
    forall path d w,
      dispatch E operation path (VDict d) w =
      tool E operation (signature_of operation) (converted_errors operation)
        (log_prefix operation) body path (without_filepath d) w.
Proof.
  unfold supported_operations. simpl.
  intros [<-|[<-|[<-|[<-|[<-|[]]]]]]; eexists; intros path d w; reflexivity.
Qed.

(** C1, as the code has it: an exception raised by the dispatched tool
    leaves the dispatch step, the [try] body and the stages after it
    untouched, reaching the top-level handler with no upload in between.
    The tool itself, however, returns "Error: <message>" instead of
    raising when its body raises one of the classes in its [except]
    clause, so for each supported operation the dispatch never raises an
    error of those classes.  Whatever the dispatch returns, the stages
    after it run on: with the processed and the temporary file in place
    and the upload accepted, the run removes the temporary file and
    returns the success text with the returned value as the operation
    result.  So a body of a supported operation that raises an error of
    its [except] clause ends in an upload and in a success text whose
    operation result is "Error: <message>". *)
Theorem dispatch_failure_propagates (E : Env) :
  (forall url operation operation_params w p w1 e w2,
     before_dispatch E url operation_params w = (Ok p, w1) ->
     dispatch E operation (processed_filepath E url) p w1 = (Raise e, w2) ->
     process_body E url operation operation_params w = (Raise e, w2) /\
     process_excel_from_url E url operation operation_params w =
     (Raise (Exn WorkbookError ("Failed to process Excel from URL: " +:+ exn_str e) None),
      logged ERROR ("Error processing Excel from URL: " +:+ exn_str e) w2)) /\
  (forall name sig handled what body filepath kwargs w a w1 e w2,
     bind_arguments E name sig kwargs
       (World (files w) (trace w ++ [EvTool name filepath kwargs])) = (Ok a, w1) ->
     body filepath a w1 = (Raise e, w2) ->
     tool E name sig handled what body filepath kwargs w =
     if is_instance e handled
     then (Ok (VStr ("Error: " +:+ exn_str e)), w2)
     else (Raise e, logged ERROR (what +:+ exn_str e) w2)) /\
  (forall operation path d w e w',
     In operation supported_operations ->
     dispatch E operation path (VDict d) w = (Raise e, w') ->
     is_instance e (converted_errors operation) = false) /\
  (forall url operation operation_params w p w1 m w2,
     before_dispatch E url operation_params w = (Ok p, w1) ->
     dispatch E operation (processed_filepath E url) p w1 = (Ok m, w2) ->
     process_body E url operation operation_params w =
       after_dispatch E url operation m w2 /\
     forall content kept text,
       files w2 !! processed_filepath E url = Some content ->
       files w2 !! temp_filepath E = Some kept ->
       requests_post E UPLOAD_ENDPOINT (os_path_basename (processed_filepath E url)) content
         = Response 200 text ->
       process_excel_from_url E url operation operation_params w =
       (Ok (success_text operation
              (FILE_ACCESS_BASE_URL +:+ os_path_basename (processed_filepath E url))
              (py_str E m)),
        World (delete (temp_filepath E) (files w2))
          (trace w2 ++ [EvPost UPLOAD_ENDPOINT
                          (os_path_basename (processed_filepath E url)) content]))) /\
  (forall operation,
     In operation supported_operations ->
     exists body,
       (forall path d w,
          dispatch E operation path (VDict d) w =
          tool E operation (signature_of operation) (converted_errors operation)
            (log_prefix operation) body path (without_filepath d) w) /\
       (forall url operation_params w d w1 a wb e w2 content kept text,
          before_dispatch E url operation_params w = (Ok (VDict d), w1) ->
          bind_arguments E operation (signature_of operation) (without_filepath d)
            (World (files w1)
               (trace w1 ++ [EvTool operation (processed_filepath E url)
                               (without_filepath d)])) = (Ok a, wb) ->
          body (processed_filepath E url) a wb = (Raise e, w2) ->
          is_instance e (converted_errors operation) = true ->
          files w2 !! processed_filepath E url = Some content ->
          files w2 !! temp_filepath E = Some kept ->
          requests_post E UPLOAD_ENDPOINT (os_path_basename (processed_filepath E url))
            content = Response 200 text ->
          dispatch E operation (processed_filepath E url) (VDict d) w1 =
            (Ok (VStr ("Error: " +:+ exn_str e)), w2) /\
          process_excel_from_url E url operation operation_params w =
          (Ok (success_text operation
                 (FILE_ACCESS_BASE_URL +:+ os_path_basename (processed_filepath E url))
                 ("Error: " +:+ exn_str e)),
           World (delete (temp_filepath E) (files w2))
             (trace w2 ++ [EvPost UPLOAD_ENDPOINT
                             (os_path_basename (processed_filepath E url)) content])))).
Proof.
  assert (Hreturns : forall url operation operation_params w p w1 m w2,
     before_dispatch E url operation_params w = (Ok p, w1) ->
     dispatch E operation (processed_filepath E url) p w1 = (Ok m, w2) ->
     process_body E url operation operation_params w =
       after_dispatch E url operation m w2 /\
     forall content kept text,
       files w2 !! processed_filepath E url = Some content ->
       files w2 !! temp_filepath E = Some kept ->
       requests_post E UPLOAD_ENDPOINT (os_path_basename (processed_filepath E url)) content
         = Response 200 text ->
       process_excel_from_url E url operation operation_params w =
       (Ok (success_text operation
              (FILE_ACCESS_BASE_URL +:+ os_path_basename (processed_filepath E url))
              (py_str E m)),
        World (delete (temp_filepath E) (files w2))
          (trace w2 ++ [EvPost UPLOAD_ENDPOINT
                          (os_path_basename (processed_filepath E url)) content]))).
  { intros url operation operation_params w p w1 m w2 Hb Hd.
    pose proof (process_body_reaches_upload E _ _ _ _ _ _ _ _ Hb Hd) as Hbody.
    split; [exact Hbody|]. intros content kept text Hf Ht Hpost.
    apply process_returns. rewrite Hbody.
    by apply (after_dispatch_accepted E url operation m w2 content kept text). }
  split; [|split; [|split; [|split]]].
  4: exact Hreturns.
  4: { intros operation Hop.
       destruct (dispatch_is_a_tool E operation Hop) as [body Hbody].
       exists body. split; [exact Hbody|].
       intros url operation_params w d w1 a wb e w2 content kept text
         Hb Ha Hraise Hinst Hf Ht Hpost.
       assert (Hd : dispatch E operation (processed_filepath E url) (VDict d) w1 =
                    (Ok (VStr ("Error: " +:+ exn_str e)), w2)).
       { rewrite Hbody.
         rewrite (tool_body_raises E _ _ _ _ _ _ _ _ a wb e w2 Ha Hraise).
         by rewrite Hinst. }
       split; [exact Hd|].
       exact (proj2 (Hreturns url operation operation_params w _ _ _ _ Hb Hd)
                content kept text Hf Ht Hpost). }
  - intros url operation operation_params w p w1 e w2 Hb Hd.
    assert (Hbody : process_body E url operation operation_params w = (Raise e, w2)).
    { rewrite process_body_stages, (bind_ok _ _ _ _ _ Hb).
      by rewrite (bind_raise _ _ _ _ _ Hd). }
    split; [exact Hbody|]. apply (process_wraps E _ _ _ _ _ _ Hbody).
  - intros name sig handled what body filepath kwargs w a w1 e w2 Ha Hb.
    by apply (tool_body_raises E _ _ _ _ _ _ _ _ a w1).
  - intros operation path d w e w' Hop Hd.
    assert (Hty : exn_class e = TypeError ->
                  is_instance e (converted_errors operation) = false).
    { intros Hc. unfold is_instance. rewrite Hc.
      unfold supported_operations in Hop. simpl in Hop.
      destruct Hop as [<-|[<-|[<-|[<-|[<-|[]]]]]]; reflexivity. }
    unfold supported_operations in Hop. simpl in Hop.
    destruct Hop as [<-|[<-|[<-|[<-|[<-|[]]]]]];
      (destruct (tool_raises_unconverted E _ _ _ _ _ _ _ _ _ _ Hd) as [Hi|Hc];
       [exact Hi|by apply Hty]).
Qed.

Lemma dispatch_failure_propagates_witness :
  process_excel_from_url demo_env "http://x/test.xlsx" "apply_formula"
    (VDict [("sheet_name", VStr "Sheet1")]) empty_world =
  (Raise (Exn WorkbookError
            "Failed to process Excel from URL: apply_formula() missing required positional arguments"
            None),
   logged ERROR
     "Error processing Excel from URL: apply_formula() missing required positional arguments"
     (dispatch demo_env "apply_formula" (processed_filepath demo_env "http://x/test.xlsx")
        (VDict [("sheet_name", VStr "Sheet1")])
        (before_dispatch demo_env "http://x/test.xlsx"
           (VDict [("sheet_name", VStr "Sheet1")]) empty_world).2).2) /\
  process_excel_from_url demo_env "http://x/test.xlsx" "apply_formula"
    (VDict bad_formula_params) empty_world =
  (Ok (success_text "apply_formula"
         "http://localhost:3001/files/processed_test.xlsx"
         "Error: Invalid formula syntax"),
   World (delete (temp_filepath demo_env)
            (files (dispatch demo_env "apply_formula"
                      (processed_filepath demo_env "http://x/test.xlsx")
                      (VDict bad_formula_params)
                      (before_dispatch demo_env "http://x/test.xlsx"
                         (VDict bad_formula_params) empty_world).2).2))
     (trace (dispatch demo_env "apply_formula"
               (processed_filepath demo_env "http://x/test.xlsx")
               (VDict bad_formula_params)
               (before_dispatch demo_env "http://x/test.xlsx"
                  (VDict bad_formula_params) empty_world).2).2 ++
      [EvPost UPLOAD_ENDPOINT "processed_test.xlsx" "workbook-bytes"])).
Proof.
  split.
  - apply (proj1 (dispatch_failure_propagates demo_env)
             "http://x/test.xlsx" "apply_formula" (VDict [("sheet_name", VStr "Sheet1")])
             empty_world (VDict [("sheet_name", VStr "Sheet1")])
             (before_dispatch demo_env "http://x/test.xlsx"
                (VDict [("sheet_name", VStr "Sheet1")]) empty_world).2
             (Exn TypeError "apply_formula() missing required positional arguments" None)).
    + vm_compute. reflexivity.
    + vm_compute. reflexivity.
  - exact (proj2 (proj1 (proj2 (proj2 (proj2 (dispatch_failure_propagates demo_env))))
                    "http://x/test.xlsx" "apply_formula" (VDict bad_formula_params)
                    empty_world (VDict bad_formula_params)
                    (before_dispatch demo_env "http://x/test.xlsx"
                       (VDict bad_formula_params) empty_world).2
                    (VStr "Error: Invalid formula syntax")
                    (dispatch demo_env "apply_formula"
                       (processed_filepath demo_env "http://x/test.xlsx")
                       (VDict bad_formula_params)
                       (before_dispatch demo_env "http://x/test.xlsx"
                          (VDict bad_formula_params) empty_world).2).2
                    eq_refl eq_refl)
             "workbook-bytes" "workbook-bytes" "stored" eq_refl eq_refl eq_refl).
Defined.

(** C1 as stated fails: the spreadsheet layer raises a [ValidationError]
    for the formula "A1+", yet nothing is raised out of the dispatch step;
    the tool returns "Error: Invalid formula syntax", the file is uploaded,
    and the run reports success with that text as the operation result. *)
Lemma validation_error_is_absorbed :
  (library demo_env validate_formula_impl
     [VStr "/srv/excel/processed_test.xlsx"; VStr "Sheet1"; VStr "B2"; VStr "A1+"] []
     (files (before_dispatch demo_env "http://x/test.xlsx"
               (VDict bad_formula_params) empty_world).2)).1
    = Raise (Exn ValidationError "Invalid formula syntax" None) /\
  (dispatch demo_env "apply_formula" (processed_filepath demo_env "http://x/test.xlsx")
     (VDict bad_formula_params)
     (before_dispatch demo_env "http://x/test.xlsx"
        (VDict bad_formula_params) empty_world).2).1
    = Ok (VStr "Error: Invalid formula syntax") /\
  (process_excel_from_url demo_env "http://x/test.xlsx" "apply_formula"
     (VDict bad_formula_params) empty_world).1
    = Ok ("Operation 'apply_formula' completed successfully. Processed file available at: http://localhost:3001/files/processed_test.xlsx"
          +:+ newline +:+ "Operation result: Error: Invalid formula syntax") /\
  In (EvLib validate_formula_impl
        [VStr "/srv/excel/processed_test.xlsx"; VStr "Sheet1"; VStr "B2"; VStr "A1+"] [])
     (trace (process_excel_from_url demo_env "http://x/test.xlsx" "apply_formula"
               (VDict bad_formula_params) empty_world).2) /\
  In (EvPost UPLOAD_ENDPOINT "processed_test.xlsx" "workbook-bytes")
     (trace (process_excel_from_url demo_env "http://x/test.xlsx" "apply_formula"
               (VDict bad_formula_params) empty_world).2).
Proof.
  split; [reflexivity|]. split; [vm_compute; reflexivity|].
  split; [vm_compute; reflexivity|].
  split; vm_compute; tauto.
Qed.

(* ===================================================================== *)
(** ** The temporary and the processed file *)
(* ===================================================================== *)

Section FileFacts.

Context (E : Env).

Lemma keeps_emit path ev : maintains (keeps_file path) (emit ev).
Proof. intros w. by apply keeps_file_same_files. Qed.

Lemma keeps_write_file path target content :
  maintains (keeps_file path) (write_file E target content).
Proof.
  intros w. unfold write_file, keeps_file.
  destruct (write_fault E target); simpl; [done|].
  intros Hp. destruct (decide (target = path)) as [->|Hne].
  - rewrite lookup_insert_eq. by eexists.
  - by rewrite lookup_insert_ne.
Qed.

Lemma keeps_shutil_copy2 path src dst :
  maintains (keeps_file path) (shutil_copy2 E src dst).
Proof. unfold shutil_copy2. maintains_split. apply keeps_write_file. Qed.

Lemma keeps_normalize_params path v :
  maintains (keeps_file path) (normalize_params E v).
Proof.
  unfold normalize_params, logger_error. maintains_split. apply keeps_emit.
Qed.

Lemma keeps_dispatch path operation target v :
  library_keeps_files E ->
  maintains (keeps_file path) (dispatch E operation target v).
Proof.
  intros Hlib. unfold dispatch.
  repeat match goal with
         | |- maintains _ (if ?b then _ else _) => destruct b
         end;
    maintains_split;
    (eapply direct_tools_keep_files; [|exact Hlib]);
    unfold direct_tools; simpl;
    repeat first [left; reflexivity | right].
Qed.

End FileFacts.

Lemma download_ok_creates (E : Env) url save_path w x w1 :
  download_file_from_url E url save_path w = (Ok x, w1) ->
  is_Some (files w1 !! save_path).
Proof.
  unfold download_file_from_url, try_except. intros H.
  match type of H with
  | match ?body w with _ => _ end = _ =>
      destruct (body w) as [[y|e] w2] eqn:Hb; [|done]
  end.
  injection H as -> ->.
  apply bind_inv_ok in Hb as ([status body] & wa & _ & Hb).
  apply bind_inv_ok in Hb as (? & wb & _ & Hb).
  apply bind_inv_ok in Hb as (? & wc & _ & Hb).
  apply bind_inv_ok in Hb as (? & wd & Hw & Hb).
  injection Hb as _ <-.
  unfold write_file in Hw. destruct (write_fault E save_path); [done|].
  injection Hw as _ <-. simpl. rewrite lookup_insert_eq. by eexists.
Qed.

Lemma shutil_copy2_ok_inv (E : Env) src dst w u w' :
  shutil_copy2 E src dst w = (Ok u, w') ->
  src <> dst /\ is_Some (files w' !! dst).
Proof.
  unfold shutil_copy2. intros H.
  apply bind_inv_ok in H as (content & w1 & Hr & H).
  destruct (String.eqb_spec src dst) as [->|Hne]; [done|].
  split; [done|].
  unfold write_file in H. destruct (write_fault E dst); [done|].
  injection H as _ <-. simpl. rewrite lookup_insert_eq. by eexists.
Qed.

(** When the stages before the dispatch succeed, both files are on disk
    and they are two different files. *)
Lemma before_dispatch_ok_inv (E : Env) url operation_params w p w1 :
  before_dispatch E url operation_params w = (Ok p, w1) ->
  temp_filepath E <> processed_filepath E url /\
  is_Some (files w1 !! temp_filepath E) /\
  is_Some (files w1 !! processed_filepath E url) /\
  exists x wa, download_file_from_url E url (temp_filepath E) w = (Ok x, wa).
Proof.
  unfold before_dispatch. intros H.
  apply bind_inv_ok in H as (x & wa & Hd & H).
  apply bind_inv_ok in H as ([] & wb & Hl1 & H).
  apply bind_inv_ok in H as (u & wc & Hc & H).
  apply bind_inv_ok in H as ([] & wd & Hl2 & H).
  pose proof (download_ok_creates E _ _ _ _ _ Hd) as Htmp.
  assert (wb = logged INFO ("Downloaded file from " +:+ url +:+ " to "
                            +:+ temp_filepath E) wa) as ->
    by (unfold logger_info, emit in Hl1; unfold logged; congruence).
  assert (wd = logged INFO ("operation_params: " +:+ py_str E operation_params) wc) as ->
    by (unfold logger_info, emit in Hl2; unfold logged; congruence).
  pose proof (keeps_shutil_copy2 E (temp_filepath E) (temp_filepath E)
                (processed_filepath E url)
                (logged INFO ("Downloaded file from " +:+ url +:+ " to "
                              +:+ temp_filepath E) wa) Htmp) as K2.
  rewrite Hc in K2.
  destruct (shutil_copy2_ok_inv E _ _ _ _ _ Hc) as [Hne Hproc].
  pose proof (keeps_normalize_params E (temp_filepath E) operation_params
                (logged INFO ("operation_params: " +:+ py_str E operation_params) wc)
                K2) as K4.
  pose proof (keeps_normalize_params E (processed_filepath E url) operation_params
                (logged INFO ("operation_params: " +:+ py_str E operation_params) wc)
                Hproc) as P4.
  rewrite H in K4, P4.
  repeat split; [done|done|done|by exists x, wa].
Qed.

(** The steps after the dispatch change the files only by removing the
    temporary file, and do that only on the way to success. *)
Lemma after_dispatch_raise_same_files (E : Env) url operation m w e w' :
  is_Some (files w !! temp_filepath E) ->
  after_dispatch E url operation m w = (Raise e, w') ->
  files w' = files w.
Proof.
  intros Htmp H. unfold after_dispatch in H.
  pose proof (upload_same_files E (processed_filepath E url) w) as Hfs.
  apply bind_inv_raise in H as [H|(up & w1 & Hup & H)].
  - rewrite H in Hfs. exact Hfs.
  - rewrite Hup in Hfs. simpl in Hfs.
    apply upload_ok_inv in Hup as (content & _ & _ & _ & ->).
    exfalso. unfold bind, os_remove in H. rewrite Hfs in H.
    destruct Htmp as [c Hc]. rewrite Hc in H. simpl in H. done.
Qed.

(** C5: after a run that returns, the temporary file is gone and the
    processed file exists at the working directory joined with
    "processed_" and the URL's base name.  After a run that fails once the
    download has succeeded, at the dispatch step in particular, the
    temporary file is still there, provided the spreadsheet layer itself
    removes no file: no step of a failing run deletes it. *)
Theorem temporary_file_lifecycle (E : Env) url operation operation_params (w : world) :
  (forall s w',
     process_excel_from_url E url operation operation_params w = (Ok s, w') ->
     files w' !! temp_filepath E = None /\
     is_Some (files w' !! processed_filepath E url) /\
     processed_filepath E url =
       os_path_join (EXCEL_FILES_PATH E) ("processed_" +:+ os_path_basename url)) /\
  (library_keeps_files E ->
   forall x w1 e w',
     download_file_from_url E url (temp_filepath E) w = (Ok x, w1) ->
     process_excel_from_url E url operation operation_params w = (Raise e, w') ->
     is_Some (files w' !! temp_filepath E)) /\
  (library_keeps_files E ->
   forall p w1 e w2,
     before_dispatch E url operation_params w = (Ok p, w1) ->
     dispatch E operation (processed_filepath E url) p w1 = (Raise e, w2) ->
     exists e' w',
       process_excel_from_url E url operation operation_params w = (Raise e', w') /\
       files w' = files w2 /\
       is_Some (files w' !! temp_filepath E)).
Proof.
  assert (Hfail : library_keeps_files E ->
            forall x w1 e w',
              download_file_from_url E url (temp_filepath E) w = (Ok x, w1) ->
              process_excel_from_url E url operation operation_params w = (Raise e, w') ->
              is_Some (files w' !! temp_filepath E)).
  { intros Hlib x wa e w' Hd H.
    destruct (process_body E url operation operation_params w) as [[s|e0] w0] eqn:Hbody.
    { by rewrite (process_returns E _ _ _ _ _ _ Hbody) in H. }
    rewrite (process_wraps E _ _ _ _ _ _ Hbody) in H. injection H as _ <-. simpl.
    pose proof (download_ok_creates E _ _ _ _ _ Hd) as Htmp.
    assert (Hb : is_Some (files (before_dispatch E url operation_params w).2
                          !! temp_filepath E)).
    { unfold before_dispatch. rewrite (bind_ok _ _ _ _ _ Hd).
      assert (K : maintains (keeps_file (temp_filepath E))
                    (logger_info ("Downloaded file from " +:+ url +:+ " to "
                                  +:+ temp_filepath E) ;;
                     shutil_copy2 E (temp_filepath E) (processed_filepath E url) ;;
                     logger_info ("operation_params: " +:+ py_str E operation_params) ;;
                     normalize_params E operation_params)).
      { unfold logger_info. maintains_split;
          first [apply keeps_emit | apply keeps_shutil_copy2
                | apply keeps_normalize_params]. }
      by apply K. }
    rewrite process_body_stages in Hbody.
    apply bind_inv_raise in Hbody as [Hbody|(p & w1 & Hp & Hbody)].
    { by rewrite Hbody in Hb. }
    rewrite Hp in Hb. simpl in Hb.
    pose proof (keeps_dispatch E (temp_filepath E) operation
                  (processed_filepath E url) p Hlib w1 Hb) as Hdisp.
    apply bind_inv_raise in Hbody as [Hbody|(m & w2 & Hm & Hbody)].
    { by rewrite Hbody in Hdisp. }
    rewrite Hm in Hdisp. simpl in Hdisp.
    by rewrite (after_dispatch_raise_same_files E _ _ _ _ _ _ Hdisp Hbody). }
  split; [|split].
  - intros s w' H.
    unfold process_excel_from_url, try_except in H.
    destruct (process_body E url operation operation_params w) as [[s0|e] w0] eqn:Hbody;
      [|done].
    injection H as -> ->.
    rewrite process_body_stages in Hbody.
    apply bind_inv_ok in Hbody as (p & w1 & Hp & Hbody).
    apply bind_inv_ok in Hbody as (m & w2 & Hm & Hbody).
    destruct (before_dispatch_ok_inv E _ _ _ _ _ Hp) as (Hne & _).
    apply after_dispatch_ok_inv in Hbody
      as (content & up & w3 & _ & _ & Hproc & _ & Hfs & _ & _).
    rewrite Hfs. split; [apply lookup_delete_eq|]. split.
    + rewrite lookup_delete_ne; [by eexists|done].
    + unfold processed_filepath, processed_filename, original_filename.
      by rewrite last_split_slash_basename, os_path_basename_idem.
  - exact Hfail.
  - intros Hlib p w1 e w2 Hp Hd.
    destruct (before_dispatch_ok_inv E _ _ _ _ _ Hp) as (_ & _ & _ & x & wa & Hdl).
    assert (Hbody : process_body E url operation operation_params w = (Raise e, w2)).
    { rewrite process_body_stages, (bind_ok _ _ _ _ _ Hp).
      by rewrite (bind_raise _ _ _ _ _ Hd). }
    pose proof (process_wraps E _ _ _ _ _ _ Hbody) as Hrun.
    do 2 eexists. split; [exact Hrun|]. split; [reflexivity|].
    by apply (Hfail Hlib x wa _ _ Hdl Hrun).
Qed.

Lemma demo_library_keeps_files : library_keeps_files demo_env.
Proof.
  intros fn args kwargs fs path H.
  assert (Hsame : (demo_library fn args kwargs fs).2 = fs).
  { unfold demo_library. repeat case_match; reflexivity. }
  simpl. by rewrite Hsame.
Qed.

Lemma temporary_file_lifecycle_witness :
  (files (process_excel_from_url demo_env "http://x/test.xlsx" "apply_formula"
            (VDict formula_params) empty_world).2
     !! temp_filepath demo_env = None /\
   is_Some (files (process_excel_from_url demo_env "http://x/test.xlsx" "apply_formula"
                     (VDict formula_params) empty_world).2
              !! processed_filepath demo_env "http://x/test.xlsx") /\
   processed_filepath demo_env "http://x/test.xlsx" =
     os_path_join "/srv/excel" ("processed_" +:+ os_path_basename "http://x/test.xlsx")) /\
  is_Some (files (process_excel_from_url demo_env "http://x/test.xlsx" "delete_everything"
                    (VDict formula_params) empty_world).2
             !! temp_filepath demo_env).
Proof.
  split.
  - apply (proj1 (temporary_file_lifecycle demo_env "http://x/test.xlsx" "apply_formula"
                    (VDict formula_params) empty_world)
             (success_text "apply_formula"
                "http://localhost:3001/files/processed_test.xlsx"
                "Applied formula '=A1+1' to cell B2")).
    vm_compute. reflexivity.
  - apply (proj1 (proj2 (temporary_file_lifecycle demo_env "http://x/test.xlsx"
                           "delete_everything" (VDict formula_params) empty_world))
             demo_library_keeps_files
             (temp_filepath demo_env)
             (download_file_from_url demo_env "http://x/test.xlsx"
                (temp_filepath demo_env) empty_world).2
             (Exn WorkbookError
                "Failed to process Excel from URL: Unsupported operation: delete_everything"
                None)).
    + vm_compute. reflexivity.
    + vm_compute. reflexivity.
Defined.

(* ===================================================================== *)
(** ** The error contract of the tools *)
(* ===================================================================== *)

Lemma direct_tools_interface (E : Env) name f :
  In (name, f) (direct_tools E) ->
  exists body,
    f = tool E name (signature_of name) (except_clause name) (log_prefix name) body.
Proof.
  unfold direct_tools. simpl. intros H.
  repeat (destruct H as [H|H]; [injection H as <- <-; eexists; reflexivity|]).
  done.
Qed.

(** How a tool can end in an exception: the call did not bind, or the
    body raised a class the tool does not convert. *)
Lemma tool_raise_inv (E : Env) name sig handled what body filepath kwargs w e w' :
  tool E name sig handled what body filepath kwargs w = (Raise e, w') ->
  (exn_class e = TypeError /\
   w' = World (files w) (trace w ++ [EvTool name filepath kwargs])) \/
  (exists a w2,
     bind_arguments E name sig kwargs
       (World (files w) (trace w ++ [EvTool name filepath kwargs]))
       = (Ok a, World (files w) (trace w ++ [EvTool name filepath kwargs])) /\
     body filepath a (World (files w) (trace w ++ [EvTool name filepath kwargs]))
       = (Raise e, w2) /\
     is_instance e handled = false /\
     w' = logged ERROR (what +:+ exn_str e) w2).
Proof.
  unfold tool. unfold bind at 1. unfold emit at 1. intros H.
  set (w0 := World (files w) (trace w ++ [EvTool name filepath kwargs])) in *.
  pose proof (pure_bind_arguments E name sig kwargs w0) as Hpure.
  apply bind_inv_raise in H as [H|(a & w1 & Ha & H)].
  - left. rewrite H in Hpure. simpl in Hpure. subst w'.
    split; [|done]. by apply bind_arguments_raises_type_error in H.
  - right. rewrite Ha in Hpure. simpl in Hpure. subst w1.
    unfold try_except in H.
    destruct (body filepath a w0) as [[v|e1] w2] eqn:Hb; [done|].
    destruct (is_instance e1 handled) eqn:Hi; [done|].
    unfold bind, logger_error, emit, raise in H.
    assert (e1 = e) as -> by congruence.
    exists a, w2. repeat split; try done. unfold logged. congruence.
Qed.

(** X2: none of the eighteen tools raises an exception of a class named
    in its own [except] clause.  An exception that does leave a tool is
    either the [TypeError] of a call that could not bind its arguments,
    raised before the body with nothing logged, or an exception of the
    body, and then the last thing the tool did was to log it at ERROR
    level under the tool's prefix. *)
Theorem tools_raise_only_unconverted_errors (E : Env) name f filepath kwargs w e w' :
  In (name, f) (direct_tools E) ->
  f filepath kwargs w = (Raise e, w') ->
  is_instance e (except_clause name) = false /\
  ((exn_class e = TypeError /\
    w' = World (files w) (trace w ++ [EvTool name filepath kwargs])) \/
   (exists w2, w' = logged ERROR (log_prefix name +:+ exn_str e) w2)).
Proof.
  intros Hin Hrun.
  destruct (direct_tools_interface E name f Hin) as [body ->].
  assert (Hty : exn_class e = TypeError -> is_instance e (except_clause name) = false).
  { intros Hc. unfold is_instance. rewrite Hc. clear -Hin.
    unfold direct_tools in Hin. simpl in Hin.
    repeat (destruct Hin as [Hin|Hin]; [injection Hin as <- _; reflexivity|]).
    done. }
  apply tool_raise_inv in Hrun as [[Hc ->]|(a & w2 & _ & _ & Hi & ->)].
  - split; [by apply Hty|]. by left.
  - split; [done|]. right. by exists w2.
Qed.

Lemma tools_raise_only_unconverted_errors_witness :
  (apply_formula corrupt_env "book.xlsx" formula_params empty_world).1 =
    Raise (Exn (OtherError "BadZipFile") "File is not a zip file" None) /\
  except_clause "apply_formula" = [ValidationError; CalculationError] /\
  last (trace (apply_formula corrupt_env "book.xlsx" formula_params empty_world).2) =
    Some (EvLog ERROR "Error applying formula: File is not a zip file") /\
  is_instance (Exn (OtherError "BadZipFile") "File is not a zip file" None)
    (except_clause "apply_formula") = false /\
  ((exn_class (Exn (OtherError "BadZipFile") "File is not a zip file" None) = TypeError /\
    (apply_formula corrupt_env "book.xlsx" formula_params empty_world).2 =
      World (files empty_world)
        (trace empty_world ++ [EvTool "apply_formula" "book.xlsx" formula_params])) \/
   (exists w2,
      (apply_formula corrupt_env "book.xlsx" formula_params empty_world).2 =
      logged ERROR
        (log_prefix "apply_formula" +:+
         exn_str (Exn (OtherError "BadZipFile") "File is not a zip file" None))
        w2)).
Proof.
  split; [vm_compute; reflexivity|]. split; [reflexivity|].
  split; [vm_compute; reflexivity|].
  apply (tools_raise_only_unconverted_errors corrupt_env "apply_formula"
           (apply_formula corrupt_env) "book.xlsx" formula_params empty_world).
  - unfold direct_tools. simpl. tauto.
  - vm_compute. reflexivity.
Defined.

(* ===================================================================== *)
(** ** Calls that do not bind *)
(* ===================================================================== *)

Lemma existsb_eqb_In k (names : list string) :
  existsb (String.eqb k) names = true <-> In k names.
Proof.
  rewrite existsb_exists. split.
  - intros (x & Hx & Heq). apply String.eqb_eq in Heq. by subst.
  - intros H. exists k. split; [done|apply String.eqb_refl].
Qed.






(* ===================================================================== *)
(** ** The [filepath] entry of the parameters *)
(* ===================================================================== *)

Lemma without_filepath_idem d :
  without_filepath (without_filepath d) = without_filepath d.
Proof.
  induction d as [|[k v] d IH]; [reflexivity|].
  rewrite without_filepath_cons.
  destruct (String.eqb k "filepath") eqn:Hk; [exact IH|].
  by rewrite without_filepath_cons, Hk, IH.
Qed.

Lemma check_keywords_without_filepath (E : Env) fn names d w e w' :
  check_keywords E fn names (without_filepath d) w = (Raise e, w') ->
  exists k, In k (dict_keys d) /\ k <> "filepath" /\ ~ In k names /\
            e = new_exn TypeError (describe E (UnexpectedKeyword fn k)).
Proof.
  induction d as [|[k v] d IH]; [done|].
  rewrite without_filepath_cons.
  destruct (String.eqb_spec k "filepath") as [->|Hk].
  - intros H. destruct (IH H) as (k' & Hin & Hrest). exists k'. split; [by right|done].
  - simpl. destruct (String.eqb_spec k "filepath") as [->|_]; [done|].
    destruct (existsb (String.eqb k) names) eqn:Hex.
    + intros H. destruct (IH H) as (k' & Hin & Hrest). exists k'.
      split; [by right|done].
    + intros H. exists k. split; [by left|]. split; [done|]. split.
      * intros Hin. apply existsb_eqb_In in Hin. congruence.
      * unfold raise_builtin, raise in H. congruence.
Qed.

(** X4: a [filepath] entry in the operation parameters has no effect.
    The dispatch with a mapping and with the same mapping minus its
    [filepath] entries is the same computation, so only the processed
    path is ever used; and since the entry is dropped before the call,
    the keyword check can only fail on a key that is in the mapping, is
    not [filepath] and is no parameter of the tool (never with "multiple
    values for argument 'filepath'"). *)
Theorem filepath_entry_is_ignored (E : Env) :
  (forall operation path d w,
     dispatch E operation path (VDict d) w =
     dispatch E operation path (VDict (without_filepath d)) w) /\
  (forall operation path d v w,
     dispatch E operation path (VDict (("filepath", v) :: d)) w =
     dispatch E operation path (VDict d) w) /\
  (forall fn names d w e w',
     check_keywords E fn names (without_filepath d) w = (Raise e, w') ->
     exists k, In k (dict_keys d) /\ k <> "filepath" /\ ~ In k names /\
               e = Exn TypeError (describe E (UnexpectedKeyword fn k)) None).
Proof.
  assert (Hsame : forall operation path d d' w,
            without_filepath d = without_filepath d' ->
            dispatch E operation path (VDict d) w = dispatch E operation path (VDict d') w).
  { intros operation path d d' w Heq. unfold dispatch.
    repeat match goal with
           | |- context [String.eqb operation ?s] => destruct (String.eqb operation s)
           end;
      try reflexivity;
      match goal with
      | |- bind (items E (VDict d)) ?k w = _ =>
          change (k d w = k d' w); cbv beta; by rewrite Heq
      end. }
  split; [|split].
  - intros operation path d w. apply Hsame. by rewrite without_filepath_idem.
  - intros operation path d v w. apply Hsame. by rewrite without_filepath_cons.
  - intros fn names d w e w' H. by apply check_keywords_without_filepath in H.
Qed.

Lemma filepath_entry_is_ignored_witness :
  exists k,
    In k (dict_keys [("filepath", VStr "/etc/passwd"); ("colour", VStr "red")]) /\
    k <> "filepath" /\ ~ In k ["sheet_name"] /\
    Exn TypeError "create_worksheet() got an unexpected keyword argument 'colour'" None
      = Exn TypeError (describe demo_env (UnexpectedKeyword "create_worksheet" k)) None.
Proof.
  apply (proj2 (proj2 (filepath_entry_is_ignored demo_env))
           "create_worksheet" ["sheet_name"]
           [("filepath", VStr "/etc/passwd"); ("colour", VStr "red")]
           empty_world _ empty_world).
  reflexivity.
Defined.

(* ===================================================================== *)
(** ** Validation before application *)
(* ===================================================================== *)

Lemma call_lib_run (E : Env) fn args kwargs w :
  call_lib E fn args kwargs w =
  ((library E fn args kwargs (files w)).1,
   World (library E fn args kwargs (files w)).2 (trace w ++ [EvLib fn args kwargs])).
Proof. unfold call_lib. by destruct (library E fn args kwargs (files w)). Qed.

(** What the frame of a tool adds after its body: nothing, or one log
    record. *)
Lemma tool_trace_after_body (E : Env) name sig handled what body filepath kwargs w :
  exists logs,
    Forall is_log logs /\
    trace (tool E name sig handled what body filepath kwargs w).2 =
    match bind_arguments E name sig kwargs
            (World (files w) (trace w ++ [EvTool name filepath kwargs])) with
    | (Ok a, w0) => trace (body filepath a w0).2 ++ logs
    | (Raise _, w0) => trace w0 ++ logs
    end.
Proof.
  unfold tool. unfold bind at 1. unfold emit at 1.
  set (w0 := World (files w) (trace w ++ [EvTool name filepath kwargs])).
  unfold bind at 1.
  destruct (bind_arguments E name sig kwargs w0) as [[a|e] wa].
  - unfold try_except.
    destruct (body filepath a wa) as [[v|e] w2].
    + exists []. split; [constructor|]. by rewrite app_nil_r.
    + destruct (is_instance e handled).
      * exists []. split; [constructor|]. by rewrite app_nil_r.
      * exists [EvLog ERROR (what +:+ exn_str e)]. split; [by repeat constructor|done].
  - exists []. split; [constructor|]. by rewrite app_nil_r.
Qed.

(** X5: [apply_formula] applies a formula only after validating it.  In
    any run, a call of the applying library function is preceded by the
    call of the validating one on the same arguments, which returned
    normally something other than a mapping with an "error" key; it is the
    only library call that follows. *)
Theorem formula_is_validated_before_it_is_applied (E : Env) filepath kwargs w evs args kw :
  trace (apply_formula E filepath kwargs w).2 = trace w ++ evs ->
  In (EvLib apply_formula_impl args kw) evs ->
  kw = [] /\
  (exists logs,
     evs = EvTool "apply_formula" filepath kwargs ::
           EvLib validate_formula_impl args [] ::
           EvLib apply_formula_impl args [] :: logs /\
     Forall is_log logs) /\
  exists v fs1,
    library E validate_formula_impl args [] (files w) = (Ok v, fs1) /\
    (forall d, v = VDict d -> dict_get "error" d = None).
Proof.
  intros Htr Hin. unfold apply_formula in Htr.
  match type of Htr with
  | trace (tool E ?n ?s ?h ?wh ?b filepath kwargs w).2 = _ =>
      destruct (tool_trace_after_body E n s h wh b filepath kwargs w)
        as (logs & Hlogs & Hsplit);
      pose proof (pure_bind_arguments E n s kwargs
                    (World (files w) (trace w ++ [EvTool n filepath kwargs]))) as Hpure
  end.
  rewrite Hsplit in Htr. clear Hsplit.
  set (w0 := World (files w) (trace w ++ [EvTool "apply_formula" filepath kwargs])) in *.
  assert (Hnolog : forall l, Forall is_log l -> ~ In (EvLib apply_formula_impl args kw) l).
  { intros l Hl Hi. rewrite List.Forall_forall in Hl. by apply (Hl _ Hi). }
  destruct (bind_arguments E "apply_formula" _ kwargs w0) as [[a|e] wa];
    cbn [snd] in Hpure; subst wa.
  2:{ exfalso. unfold w0 in Htr. cbn [trace] in Htr.
      rewrite <- app_assoc in Htr. apply app_inv_head in Htr. subst evs.
      destruct Hin as [Hin|Hin]; [done|]. by apply (Hnolog logs). }
  cbv beta zeta in Htr. unfold bind at 1 in Htr. rewrite call_lib_run in Htr.
  set (full := [VStr (get_excel_path E filepath); arg a "sheet_name"; arg a "cell";
                arg a "formula"]) in *.
  change (files w0) with (files w) in Htr.
  destruct (library E validate_formula_impl full [] (files w)) as [[v|e] fs1] eqn:Hv;
    cbn [fst snd] in Htr.
  2:{ exfalso. unfold w0 in Htr. cbn [trace] in Htr.
      rewrite <- !app_assoc in Htr. apply app_inv_head in Htr. subst evs.
      destruct Hin as [Hin|[Hin|Hin]]; [done|done|]. by apply (Hnolog logs). }
  set (w1 := World fs1 (trace w0 ++ [EvLib validate_formula_impl full []])) in *.
  assert (Hrun : trace ((result <- call_lib E apply_formula_impl full [] ;;
                         subscript E result "message") w1).2
                 = trace w1 ++ [EvLib apply_formula_impl full []]).
  { unfold bind. rewrite call_lib_run.
    destruct (library E apply_formula_impl full [] (files w1)) as [[r|e] fs2];
      cbn [fst snd]; [|done].
    pose proof (pure_subscript E r "message"
                  (World fs2 (trace w1 ++ [EvLib apply_formula_impl full []]))) as Hp.
    by rewrite Hp. }
  assert (Hdone : (forall d, v = VDict d -> dict_get "error" d = None) ->
            (trace w1 ++ [EvLib apply_formula_impl full []]) ++ logs = trace w ++ evs ->
            kw = [] /\
            (exists logs0,
               evs = EvTool "apply_formula" filepath kwargs ::
                     EvLib validate_formula_impl args [] ::
                     EvLib apply_formula_impl args [] :: logs0 /\
               Forall is_log logs0) /\
            exists v0 fs0,
              library E validate_formula_impl args [] (files w) = (Ok v0, fs0) /\
              (forall d, v0 = VDict d -> dict_get "error" d = None)).
  { intros Hnoerr H. unfold w1, w0 in H. cbn [trace] in H.
    rewrite <- !app_assoc in H. apply app_inv_head in H. subst evs.
    cbn [app] in Hin.
    destruct Hin as [Hin|[Hin|[Hin|Hin]]]; [done|done| |by destruct (Hnolog logs)].
    injection Hin as <- <-. split; [done|]. split; [by exists logs|].
    by exists v, fs1. }
  destruct v as [| | | |items|d|];
    try (rewrite Hrun in Htr; apply Hdone; [by intros d [=]|exact Htr]).
  destruct (dict_has "error" d) eqn:Herr.
  - exfalso. unfold bind at 1 in Htr.
    pose proof (pure_subscript E (VDict d) "error" w1) as Hp.
    destruct (subscript E (VDict d) "error" w1) as [[x|e] w2]; cbn [snd] in Hp; subst w2.
    + cbn [ret snd] in Htr. unfold w1, w0 in Htr. cbn [trace] in Htr.
      rewrite <- !app_assoc in Htr. apply app_inv_head in Htr. subst evs.
      destruct Hin as [Hin|[Hin|Hin]]; [done|done|]. by apply (Hnolog logs).
    + cbn [snd] in Htr. unfold w1, w0 in Htr. cbn [trace] in Htr.
      rewrite <- !app_assoc in Htr. apply app_inv_head in Htr. subst evs.
      destruct Hin as [Hin|[Hin|Hin]]; [done|done|]. by apply (Hnolog logs).
  - rewrite Hrun in Htr. apply Hdone; [|exact Htr].
    intros d' [= <-]. unfold dict_has in Herr. by destruct (dict_get "error" d).
Qed.

Lemma formula_is_validated_before_it_is_applied_witness :
  exists v fs1,
    library demo_env validate_formula_impl
      [VStr "/srv/excel/book.xlsx"; VStr "Sheet1"; VStr "B2"; VStr "=A1+1"] []
      (files empty_world) = (Ok v, fs1) /\
    (forall d, v = VDict d -> dict_get "error" d = None).
Proof.
  refine (proj2 (proj2 (formula_is_validated_before_it_is_applied demo_env
            "book.xlsx" formula_params empty_world
            (trace (apply_formula demo_env "book.xlsx" formula_params empty_world).2)
            [VStr "/srv/excel/book.xlsx"; VStr "Sheet1"; VStr "B2"; VStr "=A1+1"] []
            _ _))).
  - reflexivity.
  - vm_compute. tauto.
Defined.

(* ===================================================================== *)
(** ** Reading data *)
(* ===================================================================== *)

(** What the frame of a tool does with a value its body returns. *)
Lemma tool_body_returns (E : Env) name sig handled what body filepath kwargs w a w1 v w2 :
  bind_arguments E name sig kwargs
    (World (files w) (trace w ++ [EvTool name filepath kwargs])) = (Ok a, w1) ->
  body filepath a w1 = (Ok v, w2) ->
  tool E name sig handled what body filepath kwargs w = (Ok v, w2).
Proof.
  intros Ha Hb. unfold tool. unfold bind at 1. unfold emit at 1.
  by rewrite (bind_ok _ _ _ _ _ Ha), (try_except_ok _ _ _ _ _ Hb).
Qed.

(** X6: [read_data_from_excel] has no [except] clause of its own for the
    domain errors: whatever the data layer raises, a validation error
    included, is logged and reaches the caller as it is.  A result that is
    false as a truth value (no rows, [None]) is reported as "No data found
    in specified range"; a list of rows is printed one row per line; a
    number or [True] cannot be iterated and ends in a [TypeError]. *)
Theorem read_data_reports_and_raises (E : Env) filepath kwargs w a :
  bind_arguments E "read_data_from_excel"
    [req "sheet_name"; opt "start_cell" (VStr "A1"); opt "end_cell" VNone;
     opt "preview_only" (VBool false)] kwargs
    (World (files w) (trace w ++ [EvTool "read_data_from_excel" filepath kwargs]))
  = (Ok a, World (files w) (trace w ++ [EvTool "read_data_from_excel" filepath kwargs])) ->
  forall r fs,
    library E read_excel_range
      [VStr (get_excel_path E filepath); arg a "sheet_name"; arg a "start_cell";
       arg a "end_cell"; arg a "preview_only"] [] (files w) = (r, fs) ->
    forall w1,
    w1 = World fs (trace w ++ [EvTool "read_data_from_excel" filepath kwargs;
                               EvLib read_excel_range
                                 [VStr (get_excel_path E filepath); arg a "sheet_name";
                                  arg a "start_cell"; arg a "end_cell";
                                  arg a "preview_only"] []]) ->
    (forall e, r = Raise e ->
       read_data_from_excel E filepath kwargs w =
       (Raise e, logged ERROR ("Error reading data: " +:+ exn_str e) w1)) /\
    (forall v, r = Ok v -> truthy v = false ->
       read_data_from_excel E filepath kwargs w =
       (Ok (VStr "No data found in specified range"), w1)) /\
    (forall row rows, r = Ok (VList (row :: rows)) ->
       read_data_from_excel E filepath kwargs w =
       (Ok (VStr (str_join newline (map (py_str E) (row :: rows)))), w1)) /\
    (forall v, r = Ok v -> truthy v = true ->
       (exists n, v = VInt n) \/ (exists b, v = VBool b) ->
       read_data_from_excel E filepath kwargs w =
       (Raise (Exn TypeError (describe E (NotIterable v)) None),
        logged ERROR ("Error reading data: " +:+ describe E (NotIterable v)) w1)).
Proof.
  intros Ha r fs Hlib w1 ->.
  set (w0 := World (files w) (trace w ++ [EvTool "read_data_from_excel" filepath kwargs])) in *.
  set (args := [VStr (get_excel_path E filepath); arg a "sheet_name"; arg a "start_cell";
                arg a "end_cell"; arg a "preview_only"]) in *.
  assert (Hcall : call_lib E read_excel_range args [] w0 =
                  (r, World fs (trace w0 ++ [EvLib read_excel_range args []]))).
  { unfold call_lib. change (files w0) with (files w). by rewrite Hlib. }
  assert (Hw1 : World fs (trace w ++ [EvTool "read_data_from_excel" filepath kwargs;
                                      EvLib read_excel_range args []])
                = World fs (trace w0 ++ [EvLib read_excel_range args []])).
  { unfold w0. cbn [trace]. by rewrite <- app_assoc. }
  rewrite Hw1. clear Hw1.
  set (w1 := World fs (trace w0 ++ [EvLib read_excel_range args []])) in *.
  unfold read_data_from_excel.
  split; [|split; [|split]].
  - intros e ->.
    erewrite tool_body_raises; [ | exact Ha |].
    2:{ cbv beta zeta. fold args. by rewrite (bind_raise _ _ _ _ _ Hcall). }
    reflexivity.
  - intros v -> Ht.
    erewrite tool_body_returns; [reflexivity | exact Ha |].
    cbv beta zeta. fold args. rewrite (bind_ok _ _ _ _ _ Hcall). by rewrite Ht.
  - intros row rows ->.
    erewrite tool_body_returns; [reflexivity | exact Ha |].
    cbv beta zeta. fold args. by rewrite (bind_ok _ _ _ _ _ Hcall).
  - intros v -> Ht Hv.
    erewrite tool_body_raises; [ | exact Ha |].
    2:{ cbv beta zeta. fold args. rewrite (bind_ok _ _ _ _ _ Hcall). rewrite Ht.
        by destruct Hv as [[n ->]|[b ->]]. }
    reflexivity.
Qed.

Lemma read_data_reports_and_raises_witness :
  read_data_from_excel reading_env "book.xlsx" [("sheet_name", VStr "Data")] empty_world =
    (Ok (VStr ("{'name': 'a'}" +:+ newline +:+ "{'name': 'b'}")),
     World ∅ [EvTool "read_data_from_excel" "book.xlsx" [("sheet_name", VStr "Data")];
              EvLib read_excel_range
                [VStr "/srv/excel/book.xlsx"; VStr "Data"; VStr "A1"; VNone; VBool false] []]) /\
  read_data_from_excel reading_env "book.xlsx" [("sheet_name", VStr "Empty")] empty_world =
    (Ok (VStr "No data found in specified range"),
     World ∅ [EvTool "read_data_from_excel" "book.xlsx" [("sheet_name", VStr "Empty")];
              EvLib read_excel_range
                [VStr "/srv/excel/book.xlsx"; VStr "Empty"; VStr "A1"; VNone; VBool false] []]) /\
  read_data_from_excel reading_env "book.xlsx" [("sheet_name", VStr "Gone")] empty_world =
    (Raise (Exn ValidationError "Sheet 'Gone' not found" None),
     logged ERROR "Error reading data: Sheet 'Gone' not found"
       (World ∅ [EvTool "read_data_from_excel" "book.xlsx" [("sheet_name", VStr "Gone")];
                 EvLib read_excel_range
                   [VStr "/srv/excel/book.xlsx"; VStr "Gone"; VStr "A1"; VNone; VBool false] []])).
Proof.
  split; [|split].
  - exact (proj1 (proj2 (proj2
             (read_data_reports_and_raises reading_env "book.xlsx"
                [("sheet_name", VStr "Data")] empty_world _ eq_refl _ _ eq_refl _ eq_refl)))
           _ _ eq_refl).
  - exact (proj1 (proj2
             (read_data_reports_and_raises reading_env "book.xlsx"
                [("sheet_name", VStr "Empty")] empty_world _ eq_refl _ _ eq_refl _ eq_refl))
           _ eq_refl eq_refl).
  - exact (proj1
             (read_data_reports_and_raises reading_env "book.xlsx"
                [("sheet_name", VStr "Gone")] empty_world _ eq_refl _ _ eq_refl _ eq_refl)
           _ eq_refl).
Defined.

(* ===================================================================== *)
(** ** Downloading *)
(* ===================================================================== *)

Lemma download_run (E : Env) url save_path w :
  download_file_from_url E url save_path w =
  let w0 := World (files w) (trace w ++ [EvGet url]) in
  let failed (text : string) : result string * world :=
    (Raise (new_exn WorkbookError ("Failed to download file: " +:+ text)),
     logged ERROR ("Failed to download file: " +:+ text) w0) in
  match requests_get E url with
  | NetworkFailure e => failed (exn_str e)
  | Response status body =>
      if ((400 <=? status) && (status <? 600))%Z
      then failed (describe E (HttpStatus status url))
      else if String.eqb (os_path_dirname save_path) ""
      then failed (describe E (NoSuchFile (os_path_dirname save_path)))
      else match write_fault E (os_path_dirname save_path) with
           | Some e => failed (exn_str e)
           | None =>
               match write_fault E save_path with
               | Some e => failed (exn_str e)
               | None => (Ok save_path,
                          World (<[save_path := body]> (files w)) (trace w ++ [EvGet url]))
               end
           end
  end.
Proof.
  unfold download_file_from_url, try_except, http_get.
  unfold bind at 1. unfold bind at 1. unfold emit at 1.
  destruct (requests_get E url) as [e|status body]; [reflexivity|].
  cbv beta iota zeta. unfold ret at 1. unfold bind at 1. unfold raise_for_status.
  destruct ((400 <=? status) && (status <? 600))%Z; [reflexivity|].
  unfold ret at 1. unfold bind at 1. unfold os_makedirs.
  destruct (String.eqb (os_path_dirname save_path) ""); [reflexivity|].
  destruct (write_fault E (os_path_dirname save_path)); [reflexivity|].
  unfold ret at 1. unfold bind at 1. unfold write_file.
  by destruct (write_fault E save_path).
Qed.



(* ===================================================================== *)
(** ** Uploading *)
(* ===================================================================== *)


(* ===================================================================== *)
(** ** Staging the downloaded file *)
(* ===================================================================== *)

Lemma normalize_params_ok_inv (E : Env) v w p w' :
  normalize_params E v w = (Ok p, w') -> w' = w.
Proof.
  unfold normalize_params. destruct v; try by intros [= _ <-].
  destruct (json_loads E s); [by intros [= _ <-]|].
  unfold bind, logger_error, emit. simpl. done.
Qed.

Lemma shutil_copy2_ok_files (E : Env) src dst w u w' :
  shutil_copy2 E src dst w = (Ok u, w') ->
  exists content,
    files w !! src = Some content /\
    w' = World (<[dst := content]> (files w)) (trace w).
Proof.
  unfold shutil_copy2, bind, read_file, write_file.
  destruct (files w !! src) as [content|] eqn:Hsrc; [|done].
  destruct (String.eqb src dst); [done|].
  destruct (write_fault E dst); [done|].
  intros [= _ <-]. by exists content.
Qed.


(** The files and the trace after the stages before the dispatch. *)
Lemma before_dispatch_ok_files (E : Env) url operation_params w p w1 :
  before_dispatch E url operation_params w = (Ok p, w1) ->
  exists status body,
    requests_get E url = Response status body /\
    temp_filepath E <> processed_filepath E url /\
    files w1 =
      <[processed_filepath E url := body]> (<[temp_filepath E := body]> (files w)) /\
    trace w1 = trace w ++
      [EvGet url;
       EvLog INFO ("Downloaded file from " +:+ url +:+ " to " +:+ temp_filepath E);
       EvLog INFO ("operation_params: " +:+ py_str E operation_params)].
Proof.
  intros H.
  destruct (before_dispatch_ok_inv E _ _ _ _ _ H) as (Hne & _ & _ & _).
  unfold before_dispatch in H.
  apply bind_inv_ok in H as (x & wa & Hd & H).
  apply bind_inv_ok in H as ([] & wb & Hl1 & H).
  apply bind_inv_ok in H as (u & wc & Hc & H).
  apply bind_inv_ok in H as ([] & wd & Hl2 & H).
  apply normalize_params_ok_inv in H as ->.
  assert (wb = logged INFO ("Downloaded file from " +:+ url +:+ " to "
                            +:+ temp_filepath E) wa) as ->
    by (unfold logger_info, emit in Hl1; unfold logged; congruence).
  assert (wd = logged INFO ("operation_params: " +:+ py_str E operation_params) wc) as ->
    by (unfold logger_info, emit in Hl2; unfold logged; congruence).
  clear Hl1 Hl2.
  rewrite download_run in Hd. cbv zeta in Hd.
  destruct (requests_get E url) as [e|status body]; [done|].
  exists status, body. split; [done|]. split; [done|].
  destruct ((400 <=? status) && (status <? 600))%Z; [done|].
  destruct (String.eqb (os_path_dirname (temp_filepath E)) ""); [done|].
  destruct (write_fault E (os_path_dirname (temp_filepath E))); [done|].
  destruct (write_fault E (temp_filepath E)); [done|].
  injection Hd as _ <-.
  apply shutil_copy2_ok_files in Hc as (content & Hsrc & ->).
  unfold logged in *. cbn [files trace] in *.
  rewrite lookup_insert_eq in Hsrc. injection Hsrc as <-.
  split; [done|]. by rewrite <- !app_assoc.
Qed.



(* ===================================================================== *)
(** ** Parameters that are not a mapping *)
(* ===================================================================== *)

(** X10: the parameters are looked at only through [.items()], and only
    once a supported operation was selected.  When what is left after the
    normalization is not a mapping (a JSON text that decodes to a list, a
    number or null; a value passed as such), a supported operation ends in
    the [AttributeError] of that method call, wrapped by the top-level
    handler; no tool is called and nothing is uploaded, and the staged
    files stay. *)
Theorem parameters_must_be_a_mapping (E : Env) url operation operation_params w p w1 :
  before_dispatch E url operation_params w = (Ok p, w1) ->
  (forall d, p <> VDict d) ->
  In operation supported_operations ->
  process_excel_from_url E url operation operation_params w =
    (Raise (Exn WorkbookError
              ("Failed to process Excel from URL: " +:+ describe E (NoAttribute p "items"))
              None),
     logged ERROR
       ("Error processing Excel from URL: " +:+ describe E (NoAttribute p "items")) w1) /\
  (exists evs, trace w1 = trace w ++ evs /\ Forall get_or_log evs) /\
  is_Some (files w1 !! temp_filepath E) /\
  is_Some (files w1 !! processed_filepath E url).
Proof.
  intros Hb Hp Hop.
  pose proof (dispatch_not_a_mapping E operation (processed_filepath E url) p w1 Hop Hp) as Hd.
  assert (Hbody : process_body E url operation operation_params w =
                  (Raise (new_exn AttributeError (describe E (NoAttribute p "items"))), w1)).
  { rewrite process_body_stages, (bind_ok _ _ _ _ _ Hb).
    by rewrite (bind_raise _ _ _ _ _ Hd). }
  split; [by rewrite (process_wraps E _ _ _ _ _ _ Hbody)|].
  split.
  - pose proof (before_dispatch_trace E url operation_params w) as Ht.
    by rewrite Hb in Ht.
  - by destruct (before_dispatch_ok_inv E _ _ _ _ _ Hb) as (_ & ? & ? & _).
Qed.

Lemma parameters_must_be_a_mapping_witness :
  process_excel_from_url demo_env "http://x/test.xlsx" "apply_formula" (VStr "[]") empty_world =
  (Raise (Exn WorkbookError
            "Failed to process Excel from URL: 'list' object has no attribute 'items'" None),
   logged ERROR "Error processing Excel from URL: 'list' object has no attribute 'items'"
     (before_dispatch demo_env "http://x/test.xlsx" (VStr "[]") empty_world).2).
Proof.
  refine (proj1 (parameters_must_be_a_mapping demo_env "http://x/test.xlsx" "apply_formula"
                   (VStr "[]") empty_world (VList [])
                   (before_dispatch demo_env "http://x/test.xlsx" (VStr "[]") empty_world).2
                   eq_refl _ _)).
  - by intros d.
  - vm_compute. tauto.
Defined.

(* ===================================================================== *)
(** ** The order of the requests *)
(* ===================================================================== *)

Lemma filter_is_post_logs evs : Forall is_log evs -> List.filter is_post evs = [].
Proof.
  induction 1 as [|ev evs Hev _ IH]; [done|]. by destruct ev.
Qed.

Lemma filter_is_tool_call_lib full_path evs :
  Forall (log_or_lib_on full_path) evs -> List.filter is_tool_call evs = [].
Proof.
  induction 1 as [|ev evs Hev _ IH]; [done|]. by destruct ev.
Qed.

(** The stages before the dispatch send the download request first, and
    add only log records after it. *)
Lemma before_dispatch_request_first (E : Env) url operation_params w :
  exists logs,
    trace (before_dispatch E url operation_params w).2 = trace w ++ EvGet url :: logs /\
    Forall is_log logs.
Proof.
  unfold before_dispatch. unfold bind at 1.
  rewrite download_run. cbv zeta.
  assert (Hrest : forall x w0,
            grows_by is_log w0
              ((logger_info ("Downloaded file from " +:+ url +:+ " to " +:+ temp_filepath E) ;;
                shutil_copy2 E (temp_filepath E) (processed_filepath E url) ;;
                logger_info ("operation_params: " +:+ py_str E operation_params) ;;
                normalize_params E operation_params) w0).2 /\ x = tt).
  { intros [] w0. split; [|done]. revert w0.
    change (maintains (grows_by is_log)
              (logger_info ("Downloaded file from " +:+ url +:+ " to " +:+ temp_filepath E) ;;
               shutil_copy2 E (temp_filepath E) (processed_filepath E url) ;;
               logger_info ("operation_params: " +:+ py_str E operation_params) ;;
               normalize_params E operation_params)).
    unfold logger_info. maintains_split.
    - by apply grows_emit.
    - apply grows_shutil_copy2.
    - by apply grows_emit.
    - by apply grows_normalize_params. }
  assert (Hfail : forall text : string,
            exists logs,
              trace (logged ERROR text (World (files w) (trace w ++ [EvGet url])))
                = trace w ++ EvGet url :: logs /\ Forall is_log logs).
  { intros text. exists [EvLog ERROR text]. unfold logged. cbn [trace].
    rewrite <- app_assoc. split; [done|]. by repeat constructor. }
  destruct (requests_get E url) as [e|status body]; [apply Hfail|].
  destruct ((400 <=? status) && (status <? 600))%Z; [apply Hfail|].
  destruct (String.eqb (os_path_dirname (temp_filepath E)) ""); [apply Hfail|].
  destruct (write_fault E (os_path_dirname (temp_filepath E))); [apply Hfail|].
  destruct (write_fault E (temp_filepath E)); [apply Hfail|].
  destruct (Hrest tt (World (<[temp_filepath E := body]> (files w)) (trace w ++ [EvGet url])))
    as [(logs & Htr & Hlogs) _].
  exists logs. cbn [trace] in Htr. rewrite Htr, <- app_assoc. by split.
Qed.

(** A dispatch calls at most one tool. *)
Lemma dispatch_trace_shape (E : Env) operation path p w :
  exists evs,
    trace (dispatch E operation path p w).2 = trace w ++ evs /\
    Forall call_or_log evs /\
    length (List.filter is_tool_call evs) <= 1.
Proof.
  destruct (decide (In operation supported_operations)) as [Hop|Hop].
  - destruct p as [| | | | |d|].
    6:{ destruct (dispatch_supported E operation Hop) as (f & Hf & Heq).
        rewrite Heq.
        destruct (direct_tools_trace E operation f path (without_filepath d) w Hf)
          as (evs & Htr & Hall).
        exists (EvTool operation path (without_filepath d) :: evs).
        split; [done|]. split.
        - constructor; [done|]. eapply Forall_impl; [exact Hall|]. by intros [].
        - cbn [List.filter is_tool_call]. by rewrite (filter_is_tool_call_lib _ _ Hall). }
    all: rewrite (dispatch_not_a_mapping E operation path _ w Hop); [|done];
      exists []; cbn [snd]; rewrite app_nil_r; split_and!; [done|constructor|cbn; lia].
  - rewrite (dispatch_unsupported E operation path p w Hop).
    exists []. cbn [snd]. rewrite app_nil_r. split_and!; [done|constructor|cbn; lia].
Qed.

(** An upload sends at most one request. *)
Lemma upload_trace_shape (E : Env) filepath w :
  exists evs,
    trace (upload_file_to_server E filepath w).2 = trace w ++ evs /\
    Forall post_or_log evs /\
    length (List.filter is_post evs) <= 1.
Proof.
  destruct (upload_cases E filepath w)
    as [Hnone|(content & Hsome & [(e0 & Hp)|[(status & text & Hp & Hs)|(text & Hp)]])].
  - rewrite (upload_missing E _ _ Hnone). eexists [_]. unfold logged. cbn [snd trace].
    split; [done|]. split; [by repeat constructor|cbn; lia].
  - rewrite (upload_unreachable E _ _ _ _ Hsome Hp). eexists [_; _].
    unfold logged, posted. cbn [snd trace]. rewrite <- app_assoc.
    split; [done|]. split; [by repeat constructor|cbn; lia].
  - rewrite (upload_refused E _ _ _ _ _ Hsome Hp Hs). eexists [_; _].
    unfold logged, posted. cbn [snd trace]. rewrite <- app_assoc.
    split; [done|]. split; [by repeat constructor|cbn; lia].
  - rewrite (upload_accepted E _ _ _ _ Hsome Hp). eexists [_].
    unfold posted. cbn [snd trace].
    split; [done|]. split; [by repeat constructor|cbn; lia].
Qed.

Lemma after_dispatch_trace_shape (E : Env) url operation m w :
  exists evs,
    trace (after_dispatch E url operation m w).2 = trace w ++ evs /\
    Forall post_or_log evs /\
    length (List.filter is_post evs) <= 1.
Proof.
  unfold after_dispatch. unfold bind at 1.
  destruct (upload_trace_shape E (processed_filepath E url) w) as (evs & Htr & Hall & Hone).
  destruct (upload_file_to_server E (processed_filepath E url) w) as [[up|e] w1];
    cbn [snd] in Htr; [|by exists evs].
  assert (Hrest : maintains (grows_by is_log)
            (os_remove E (temp_filepath E) ;;
             file_url <- subscript E (VDict up) "file_url" ;;
             ret (success_text operation (py_str E file_url) (py_str E m)))).
  { maintains_split. apply grows_os_remove. }
  destruct (Hrest w1) as (logs & Htr' & Hlogs).
  exists (evs ++ logs). rewrite Htr', Htr, <- app_assoc. split; [done|]. split.
  - apply Forall_app. split; [done|]. eapply Forall_impl; [exact Hlogs|]. by intros [].
  - by rewrite List.filter_app, (filter_is_post_logs _ Hlogs), app_nil_r.
Qed.

(** X11: the order of what a run of [process_excel_from_url] does, in
    every case.  The download request is the first event and the only
    download; then come log records; then the dispatch with at most one
    tool call; then at most one upload request.  Nothing but log records
    follows the upload, and there is no second attempt at any step. *)
Theorem one_download_then_one_tool_then_one_upload
    (E : Env) url operation operation_params w :
  exists before during after,
    trace (process_excel_from_url E url operation operation_params w).2 =
      trace w ++ EvGet url :: before ++ during ++ after /\
    Forall is_log before /\
    Forall call_or_log during /\
    length (List.filter is_tool_call during) <= 1 /\
    Forall post_or_log after /\
    length (List.filter is_post after) <= 1.
Proof.
  destruct (before_dispatch_request_first E url operation_params w) as (logs & Htr & Hlogs).
  destruct (before_dispatch E url operation_params w) as [[p|e] w1] eqn:Hb; cbn [snd] in Htr.
  - destruct (dispatch_trace_shape E operation (processed_filepath E url) p w1)
      as (evsD & HtrD & HallD & HoneD).
    destruct (dispatch E operation (processed_filepath E url) p w1) as [[m|e] w2] eqn:Hd;
      cbn [snd] in HtrD.
    + pose proof (process_body_reaches_upload E _ _ _ _ _ _ _ _ Hb Hd) as Hbody.
      destruct (after_dispatch_trace_shape E url operation m w2)
        as (evsA & HtrA & HallA & HoneA).
      destruct (after_dispatch E url operation m w2) as [[s|e] w3] eqn:Ha; cbn [snd] in HtrA.
      * exists logs, evsD, evsA.
        rewrite (process_returns E _ _ _ _ _ _ Hbody). cbn [snd].
        rewrite HtrA, HtrD, Htr, <- !app_assoc. by split_and!.
      * exists logs, evsD,
          (evsA ++ [EvLog ERROR ("Error processing Excel from URL: " +:+ exn_str e)]).
        rewrite (process_wraps E _ _ _ _ _ _ Hbody). unfold logged. cbn [snd trace].
        rewrite HtrA, HtrD, Htr, <- !app_assoc. cbn [app].
        split_and!; try done.
        -- apply Forall_app. split; [done|]. by repeat constructor.
        -- rewrite List.filter_app. cbn [List.filter is_post]. by rewrite app_nil_r.
    + assert (Hbody : process_body E url operation operation_params w = (Raise e, w2)).
      { rewrite process_body_stages, (bind_ok _ _ _ _ _ Hb).
        by rewrite (bind_raise _ _ _ _ _ Hd). }
      exists logs, evsD, [EvLog ERROR ("Error processing Excel from URL: " +:+ exn_str e)].
      rewrite (process_wraps E _ _ _ _ _ _ Hbody). unfold logged. cbn [snd trace].
      rewrite HtrD, Htr, <- !app_assoc. cbn [app].
      split_and!; try done; try (cbn; lia); by repeat constructor.
  - assert (Hbody : process_body E url operation operation_params w = (Raise e, w1)).
    { rewrite process_body_stages. by rewrite (bind_raise _ _ _ _ _ Hb). }
    exists logs, [], [EvLog ERROR ("Error processing Excel from URL: " +:+ exn_str e)].
    rewrite (process_wraps E _ _ _ _ _ _ Hbody). unfold logged. cbn [snd trace].
    rewrite Htr, <- !app_assoc. cbn [app].
    split_and!; try done; try (cbn; lia); by repeat constructor.
Qed.

(* ===================================================================== *)
(** ** The file that is uploaded *)
(* ===================================================================== *)

#[global] Instance same_content_preorder path : PreOrder (same_content path).
Proof.
  split; unfold same_content; [done|].
  intros w1 w2 w3 H1 H2. by rewrite H2.
Qed.

Lemma same_content_same_files path w w' : files w' = files w -> same_content path w w'.
Proof. unfold same_content. by intros ->. Qed.

Lemma direct_tools_same_content (E : Env) name f filepath kwargs path :
  In (name, f) (direct_tools E) ->
  library_confined E ->
  distinct_files (get_excel_path E filepath) path ->
  maintains (same_content path) (f filepath kwargs).
Proof.
  intros Hin Hlib Hne.
  destruct (direct_tools_shape E name f Hin) as (sig & handled & what & body & -> & Hbody).
  apply maintains_tool; [typeclasses eauto|..].
  - intros w. by apply same_content_same_files.
  - intros text w. by apply same_content_same_files.
  - intros a. apply Hbody; [typeclasses eauto|]. intros fn args kw Hp w.
    unfold call_lib, same_content.
    assert (Hq : forall p, lib_path args kw = Some (VStr p) -> distinct_files p path).
    { intros p Hp'. rewrite Hp in Hp'. by injection Hp' as <-. }
    specialize (Hlib fn args kw (files w) path Hq).
    by destruct (library E fn args kw (files w)).
Qed.

Lemma dispatch_same_content (E : Env) path operation target v :
  library_confined E ->
  distinct_files (get_excel_path E target) path ->
  maintains (same_content path) (dispatch E operation target v).
Proof.
  intros Hlib Hne. unfold dispatch.
  repeat match goal with
         | |- maintains _ (if ?b then _ else _) => destruct b
         end;
    maintains_split;
    (eapply direct_tools_same_content; [|exact Hlib|exact Hne]);
    unfold direct_tools; simpl;
    repeat first [left; reflexivity | right].
Qed.

Lemma process_ok_inv (E : Env) url operation operation_params w s w' :
  process_excel_from_url E url operation operation_params w = (Ok s, w') ->
  exists p w1 m w2,
    before_dispatch E url operation_params w = (Ok p, w1) /\
    dispatch E operation (processed_filepath E url) p w1 = (Ok m, w2) /\
    after_dispatch E url operation m w2 = (Ok s, w').
Proof.
  unfold process_excel_from_url, try_except. rewrite process_body_stages.
  unfold bind at 1.
  destruct (before_dispatch E url operation_params w) as [[p|e] w1] eqn:Hb;
    [|by unfold process_handler, bind, logger_error, emit, raise].
  unfold bind at 1.
  destruct (dispatch E operation (processed_filepath E url) p w1) as [[m|e] w2] eqn:Hd;
    [|by unfold process_handler, bind, logger_error, emit, raise].
  destruct (after_dispatch E url operation m w2) as [[s'|e] w3] eqn:Ha;
    [|by unfold process_handler, bind, logger_error, emit, raise].
  intros [= <- <-]. by exists p, w1, m, w2.
Qed.

(** X12: with a relative working directory that names a directory of its
    own and has no parent step (the default [./excel_files] is one; [.]
    and the empty name are not) a successful run uploads the file exactly
    as it was downloaded.  The tool is handed the processed path and
    resolves it a second time, so the spreadsheet layer is called on a
    path with the directory's components twice, which cannot name the
    staged file; if that layer changes no file but the one it is called
    on, the staged file is still the downloaded one when it is uploaded
    and when the run ends. *)
Theorem relative_directory_uploads_the_download
    (E : Env) url operation operation_params w s w' :
  library_confined E ->
  os_path_isabs (EXCEL_FILES_PATH E) = false ->
  has_parent_step (EXCEL_FILES_PATH E) = false ->
  path_components (EXCEL_FILES_PATH E) <> [] ->
  process_excel_from_url E url operation operation_params w = (Ok s, w') ->
  exists status body evs,
    requests_get E url = Response status body /\
    trace w' = trace w ++ EvGet url :: evs ++
               [EvPost UPLOAD_ENDPOINT ("processed_" +:+ os_path_basename url) body] /\
    files w' !! processed_filepath E url = Some body.
Proof.
  intros Hlib Habs Hpar Hne H.
  apply process_ok_inv in H as (p & w1 & m & w2 & Hb & Hd & Ha).
  destruct (before_dispatch_ok_files E _ _ _ _ _ Hb)
    as (status & body & Hg & Htp & Hf1 & Ht1).
  pose proof (dispatch_same_content E (processed_filepath E url) operation
                (processed_filepath E url) p Hlib
                (processed_path_resolved_elsewhere E url Habs Hpar Hne) w1) as Hsame.
  rewrite Hd in Hsame. unfold same_content in Hsame. cbn [snd] in Hsame.
  rewrite Hf1, lookup_insert_eq in Hsame.
  destruct (dispatch_trace_shape E operation (processed_filepath E url) p w1)
    as (evsD & HtD & _). rewrite Hd in HtD. cbn [snd] in HtD.
  apply after_dispatch_ok_inv in Ha
    as (content & up & w3 & _ & _ & Hc & _ & Hf3 & Ht3 & _).
  rewrite Hsame in Hc. injection Hc as <-.
  exists status, body.
  exists ([EvLog INFO ("Downloaded file from " +:+ url +:+ " to " +:+ temp_filepath E);
           EvLog INFO ("operation_params: " +:+ py_str E operation_params)] ++ evsD).
  split; [done|]. split.
  - rewrite Ht3, HtD, Ht1, processed_file_basename, <- !app_assoc. reflexivity.
  - rewrite Hf3, lookup_delete_ne; [done|]. done.
Qed.

Lemma editing_library_confined : library_confined relative_editing_env.
Proof.
  intros fn args kwargs fs path Hne. cbn [library relative_editing_env].
  unfold editing_library.
  destruct (lib_path args kwargs) as [[| | |p| | |]|]; try done.
  destruct (fs !! p); [|done]. cbn [snd].
  rewrite lookup_insert_ne; [done|]. intros ->.
  by destruct (Hne path eq_refl) as (_ & _ & _ & Hc).
Qed.

Lemma relative_directory_uploads_the_download_witness :
  exists status body evs,
    requests_get relative_editing_env "http://x/test.xlsx" = Response status body /\
    trace (process_excel_from_url relative_editing_env "http://x/test.xlsx" "apply_formula"
             (VDict formula_params) empty_world).2 =
      trace empty_world ++ EvGet "http://x/test.xlsx" :: evs ++
      [EvPost UPLOAD_ENDPOINT ("processed_" +:+ os_path_basename "http://x/test.xlsx") body] /\
    files (process_excel_from_url relative_editing_env "http://x/test.xlsx" "apply_formula"
             (VDict formula_params) empty_world).2
      !! processed_filepath relative_editing_env "http://x/test.xlsx" = Some body.
Proof.
  apply (relative_directory_uploads_the_download relative_editing_env
           "http://x/test.xlsx" "apply_formula" (VDict formula_params) empty_world
           ("Operation 'apply_formula' completed successfully. Processed file available at: http://localhost:3001/files/processed_test.xlsx"
            +:+ newline +:+
            "Operation result: Error: File not found: ./excel_files/./excel_files/processed_test.xlsx")).
  - exact editing_library_confined.
  - reflexivity.
  - reflexivity.
  - vm_compute. discriminate.
  - vm_compute. reflexivity.
Defined.

(* ===================================================================== *)
(** ** workbook.py: creating a workbook *)
(* ===================================================================== *)

Section WorkbookSteps.

Context (E : Env) (O : Openpyxl).

Lemma pure_lift {A} (r : result A) : pure (workbook.lift r).
Proof. by intros w. Qed.

Lemma pure_load_workbook filepath read_only :
  pure (workbook.load_workbook O filepath read_only).
Proof. by intros w. Qed.

Lemma pure_mkdir_parent filepath : pure (workbook.mkdir_parent E filepath).
Proof.
  intros w. unfold workbook.mkdir_parent.
  destruct (String.eqb (os_path_dirname filepath) ""); [done|].
  by destruct (write_fault E (os_path_dirname filepath)).
Qed.

Lemma lift_ok_inv {A} (r : result A) w a w' :
  workbook.lift r w = (Ok a, w') -> r = Ok a /\ w' = w.
Proof. unfold workbook.lift. by intros [= -> ->]. Qed.

Lemma save_ok_inv wb filepath w u w' :
  workbook.save E O wb filepath w = (Ok u, w') ->
  exists bytes,
    serialize O wb = Ok bytes /\
    w' = World (<[filepath := bytes]> (files w)) (trace w).
Proof.
  unfold workbook.save. intros H.
  apply bind_inv_ok in H as (bytes & w1 & Hs & H).
  apply lift_ok_inv in Hs as [Hs ->].
  unfold write_file in H. destruct (write_fault E filepath); [done|].
  injection H as _ <-. by exists bytes.
Qed.

Lemma grows_save P wb filepath : maintains (grows_by P) (workbook.save E O wb filepath).
Proof.
  unfold workbook.save. apply maintains_bind; [typeclasses eauto| |intros bytes].
  - apply maintains_of_pure; [typeclasses eauto|apply pure_lift].
  - apply grows_write_file.
Qed.

(** [create_workbook], stage by stage. *)
Lemma create_workbook_run filepath sheet_name upload w :
  workbook.create_workbook E O filepath sheet_name upload w =
  let failed (e : exn) (w0 : world) : result dict * world :=
    (Raise (new_exn WorkbookError ("Failed to create workbook: " +:+ exn_str e)),
     logged ERROR ("Failed to create workbook: " +:+ exn_str e) w0) in
  match first_sheet O sheet_name with
  | Raise e => failed e w
  | Ok wb =>
      match workbook.mkdir_parent E filepath w with
      | (Raise e, _) => failed e w
      | (Ok _, _) =>
          match serialize O wb with
          | Raise e => failed e w
          | Ok bytes =>
              match write_fault E filepath with
              | Some e => failed e w
              | None =>
                  let w1 := World (<[filepath := bytes]> (files w)) (trace w) in
                  if truthy upload
                  then
                    match upload_file_to_server E filepath w1 with
                    | (Raise e, w2) => failed e w2
                    | (Ok _, w2) =>
                        (Ok [("message",
                              VStr ("Created and uploaded workbook: " +:+ filepath +:+
                                    ". URL: " +:+ FILE_ACCESS_BASE_URL +:+
                                    os_path_basename filepath));
                             ("active_sheet", sheet_name);
                             ("workbook", handle O wb);
                             ("file_url",
                              VStr (FILE_ACCESS_BASE_URL +:+ os_path_basename filepath))],
                         w2)
                    end
                  else
                    (Ok [("message", VStr ("Created workbook: " +:+ filepath));
                         ("active_sheet", sheet_name);
                         ("workbook", handle O wb)], w1)
              end
          end
      end
  end.
Proof.
  cbv zeta. unfold workbook.create_workbook, try_except. cbv zeta.
  unfold bind at 1.
  assert (Hfirst : (if existsb (String.eqb "Sheet") (sheetnames O (new_workbook O))
                    then workbook.lift (set_title O (new_workbook O) "Sheet" sheet_name)
                    else workbook.lift (add_sheet O (new_workbook O) sheet_name)) w
                   = (first_sheet O sheet_name, w)).
  { unfold first_sheet.
    by destruct (existsb (String.eqb "Sheet") (sheetnames O (new_workbook O))). }
  rewrite Hfirst. clear Hfirst.
  destruct (first_sheet O sheet_name) as [wb|e]; [|reflexivity].
  unfold bind at 1.
  pose proof (pure_mkdir_parent filepath w) as Hp.
  destruct (workbook.mkdir_parent E filepath w) as [[[]|e] w0]; cbn [snd] in Hp; subst w0;
    [|reflexivity].
  unfold bind at 1. unfold workbook.save. unfold bind at 1. unfold workbook.lift at 1.
  destruct (serialize O wb) as [bytes|e]; [|reflexivity].
  unfold write_file at 1.
  destruct (write_fault E filepath) as [e|]; [reflexivity|].
  destruct (truthy upload); [|reflexivity].
  unfold bind at 1.
  destruct (upload_file_to_server E filepath
              (World (<[filepath := bytes]> (files w)) (trace w))) as [[up|e] w2] eqn:Hu;
    [|reflexivity].
  apply upload_ok_inv in Hu as (content & _ & _ & _ & ->).
  unfold bind, subscript. rewrite !dict_get_cons. reflexivity.
Qed.

End WorkbookSteps.

Lemma create_workbook_raise_inv (E : Env) (O : Openpyxl) filepath sheet_name upload w e w' :
  workbook.create_workbook E O filepath sheet_name upload w = (Raise e, w') ->
  exn_class e = WorkbookError /\ exn_cause e = None /\
  exists inner evs,
    exn_str e = "Failed to create workbook: " +:+ inner /\
    trace w' = trace w ++ evs ++
               [EvLog ERROR ("Failed to create workbook: " +:+ inner)] /\
    Forall post_or_log evs.
Proof.
  rewrite create_workbook_run. cbv zeta.
  assert (Hfailed : forall e0 w0,
            (exists evs, trace w0 = trace w ++ evs /\ Forall post_or_log evs) ->
            (Raise (new_exn WorkbookError ("Failed to create workbook: " +:+ exn_str e0)),
             logged ERROR ("Failed to create workbook: " +:+ exn_str e0) w0)
            = (@Raise dict e, w') ->
            exn_class e = WorkbookError /\ exn_cause e = None /\
            exists inner evs,
              exn_str e = "Failed to create workbook: " +:+ inner /\
              trace w' = trace w ++ evs ++
                         [EvLog ERROR ("Failed to create workbook: " +:+ inner)] /\
              Forall post_or_log evs).
  { intros e0 w0 (evs & Ht & Hall) [= <- <-]. split; [done|]. split; [done|].
    exists (exn_str e0), evs. split; [done|]. split; [|done].
    unfold logged. cbn [trace]. by rewrite Ht, <- app_assoc. }
  assert (Hnil : exists evs, trace w = trace w ++ evs /\ Forall post_or_log evs).
  { exists []. by rewrite app_nil_r. }
  destruct (first_sheet O sheet_name) as [wb|e0]; [|by apply Hfailed].
  destruct (workbook.mkdir_parent E filepath w) as [[[]|e0] w0]; [|by apply Hfailed].
  destruct (serialize O wb) as [bytes|e0]; [|by apply Hfailed].
  destruct (write_fault E filepath) as [e0|]; [by apply Hfailed|].
  destruct (truthy upload); [|done].
  destruct (upload_trace_shape E filepath
              (World (<[filepath := bytes]> (files w)) (trace w)))
    as (evs & Ht & Hall & _).
  destruct (upload_file_to_server E filepath
              (World (<[filepath := bytes]> (files w)) (trace w)))
    as [[up|e0] w2]; cbn [snd trace] in Ht; [done|].
  apply Hfailed. by exists evs.
Qed.

Lemma create_workbook_ok_inv (E : Env) (O : Openpyxl) filepath sheet_name upload w d w' :
  workbook.create_workbook E O filepath sheet_name upload w = (Ok d, w') ->
  exists wb bytes,
    first_sheet O sheet_name = Ok wb /\
    serialize O wb = Ok bytes /\
    files w' = <[filepath := bytes]> (files w) /\
    if truthy upload
    then
      d = [("message",
            VStr ("Created and uploaded workbook: " +:+ filepath +:+ ". URL: " +:+
                  FILE_ACCESS_BASE_URL +:+ os_path_basename filepath));
           ("active_sheet", sheet_name);
           ("workbook", handle O wb);
           ("file_url", VStr (FILE_ACCESS_BASE_URL +:+ os_path_basename filepath))] /\
      trace w' = trace w ++ [EvPost UPLOAD_ENDPOINT (os_path_basename filepath) bytes]
    else
      d = [("message", VStr ("Created workbook: " +:+ filepath));
           ("active_sheet", sheet_name);
           ("workbook", handle O wb)] /\
      trace w' = trace w.
Proof.
  rewrite create_workbook_run. cbv zeta.
  destruct (first_sheet O sheet_name) as [wb|e0] eqn:Hfirst; [|done].
  destruct (workbook.mkdir_parent E filepath w) as [[[]|e0] w0]; [|done].
  destruct (serialize O wb) as [bytes|e0] eqn:Hser; [|done].
  destruct (write_fault E filepath) as [e0|]; [done|].
  destruct (truthy upload).
  - destruct (upload_file_to_server E filepath
                (World (<[filepath := bytes]> (files w)) (trace w)))
      as [[up|e0] w2] eqn:Hu; [|done].
    intros [= <- <-].
    apply upload_ok_inv in Hu as (content & Hc & Hf & Ht' & _).
    cbn [files trace] in Hc, Hf, Ht'. rewrite lookup_insert_eq in Hc.
    injection Hc as <-.
    by exists wb, bytes.
  - intros [= <- <-]. by exists wb, bytes.
Qed.

(** X13: the outcomes of [workbook.create_workbook].  A result means the
    file now holds the new workbook, in place of whatever was stored under
    that name: the function does not look whether the file exists.  The
    result names the sheet and carries the workbook; with a false [upload]
    nothing is requested and there is no [file_url]; with a true one the
    bytes just written are posted and the result gives the URL.  Every
    failure is a [WorkbookError] whose text starts with "Failed to create
    workbook: ", logged last under the same text. *)
Theorem create_workbook_outcomes (E : Env) (O : Openpyxl) filepath sheet_name upload w :
  (forall d w',
     workbook.create_workbook E O filepath sheet_name upload w = (Ok d, w') ->
     exists wb bytes,
       first_sheet O sheet_name = Ok wb /\
       serialize O wb = Ok bytes /\
       files w' = <[filepath := bytes]> (files w) /\
       dict_get "active_sheet" d = Some sheet_name /\
       dict_get "workbook" d = Some (handle O wb) /\
       (truthy upload = false ->
        trace w' = trace w /\
        dict_get "file_url" d = None /\
        dict_get "message" d = Some (VStr ("Created workbook: " +:+ filepath))) /\
       (truthy upload = true ->
        trace w' = trace w ++
                   [EvPost "http://localhost:3001/upload" (os_path_basename filepath) bytes] /\
        dict_get "file_url" d =
          Some (VStr ("http://localhost:3001/files/" +:+ os_path_basename filepath)) /\
        dict_get "message" d =
          Some (VStr ("Created and uploaded workbook: " +:+ filepath +:+ ". URL: " +:+
                      "http://localhost:3001/files/" +:+ os_path_basename filepath)))) /\
  (forall e w',
     workbook.create_workbook E O filepath sheet_name upload w = (Raise e, w') ->
     exn_class e = WorkbookError /\ exn_cause e = None /\
     exists inner evs,
       exn_str e = "Failed to create workbook: " +:+ inner /\
       trace w' = trace w ++ evs ++
                  [EvLog ERROR ("Failed to create workbook: " +:+ inner)] /\
       Forall post_or_log evs).
Proof.
  split; [|intros e w'; apply create_workbook_raise_inv].
  intros d w' H.
  apply create_workbook_ok_inv in H as (wb & bytes & Hfirst & Hser & Hf & H).
  exists wb, bytes. split; [done|]. split; [done|]. split; [done|].
  destruct (truthy upload); destruct H as [-> Ht].
  - split; [done|]. split; [done|]. split; [done|]. by intros _.
  - split; [done|]. split; [done|]. split; [by intros _|done].
Qed.

Lemma create_workbook_outcomes_witness :
  exists wb bytes,
    first_sheet demo_openpyxl (VStr "Sales") = Ok wb /\
    serialize demo_openpyxl wb = Ok bytes /\
    files (workbook.create_workbook demo_env demo_openpyxl "/srv/excel/new.xlsx"
             (VStr "Sales") (VBool true)
             (World {["/srv/excel/new.xlsx" := "Old1,Old2"]} [])).2
      = <["/srv/excel/new.xlsx" := bytes]>
          (files (World {["/srv/excel/new.xlsx" := "Old1,Old2"]} [])) /\
    dict_get "active_sheet"
      [("message",
        VStr "Created and uploaded workbook: /srv/excel/new.xlsx. URL: http://localhost:3001/files/new.xlsx");
       ("active_sheet", VStr "Sales");
       ("workbook", handle demo_openpyxl ["Sales"]);
       ("file_url", VStr "http://localhost:3001/files/new.xlsx")] = Some (VStr "Sales") /\
    dict_get "workbook"
      [("message",
        VStr "Created and uploaded workbook: /srv/excel/new.xlsx. URL: http://localhost:3001/files/new.xlsx");
       ("active_sheet", VStr "Sales");
       ("workbook", handle demo_openpyxl ["Sales"]);
       ("file_url", VStr "http://localhost:3001/files/new.xlsx")]
      = Some (handle demo_openpyxl wb) /\
    (truthy (VBool true) = false ->
     trace (workbook.create_workbook demo_env demo_openpyxl "/srv/excel/new.xlsx"
              (VStr "Sales") (VBool true)
              (World {["/srv/excel/new.xlsx" := "Old1,Old2"]} [])).2
       = trace (World {["/srv/excel/new.xlsx" := "Old1,Old2"]} []) /\
     dict_get "file_url"
       [("message",
         VStr "Created and uploaded workbook: /srv/excel/new.xlsx. URL: http://localhost:3001/files/new.xlsx");
        ("active_sheet", VStr "Sales");
        ("workbook", handle demo_openpyxl ["Sales"]);
        ("file_url", VStr "http://localhost:3001/files/new.xlsx")] = None /\
     dict_get "message"
       [("message",
         VStr "Created and uploaded workbook: /srv/excel/new.xlsx. URL: http://localhost:3001/files/new.xlsx");
        ("active_sheet", VStr "Sales");
        ("workbook", handle demo_openpyxl ["Sales"]);
        ("file_url", VStr "http://localhost:3001/files/new.xlsx")]
       = Some (VStr ("Created workbook: " +:+ "/srv/excel/new.xlsx"))) /\
    (truthy (VBool true) = true ->
     trace (workbook.create_workbook demo_env demo_openpyxl "/srv/excel/new.xlsx"
              (VStr "Sales") (VBool true)
              (World {["/srv/excel/new.xlsx" := "Old1,Old2"]} [])).2
       = trace (World {["/srv/excel/new.xlsx" := "Old1,Old2"]} []) ++
         [EvPost "http://localhost:3001/upload" (os_path_basename "/srv/excel/new.xlsx") bytes] /\
     dict_get "file_url"
       [("message",
         VStr "Created and uploaded workbook: /srv/excel/new.xlsx. URL: http://localhost:3001/files/new.xlsx");
        ("active_sheet", VStr "Sales");
        ("workbook", handle demo_openpyxl ["Sales"]);
        ("file_url", VStr "http://localhost:3001/files/new.xlsx")]
       = Some (VStr ("http://localhost:3001/files/" +:+ os_path_basename "/srv/excel/new.xlsx")) /\
     dict_get "message"
       [("message",
         VStr "Created and uploaded workbook: /srv/excel/new.xlsx. URL: http://localhost:3001/files/new.xlsx");
        ("active_sheet", VStr "Sales");
        ("workbook", handle demo_openpyxl ["Sales"]);
        ("file_url", VStr "http://localhost:3001/files/new.xlsx")]
       = Some (VStr ("Created and uploaded workbook: " +:+ "/srv/excel/new.xlsx" +:+ ". URL: " +:+
                     "http://localhost:3001/files/" +:+ os_path_basename "/srv/excel/new.xlsx"))).
Proof.
  exact (proj1 (create_workbook_outcomes demo_env demo_openpyxl "/srv/excel/new.xlsx"
                  (VStr "Sales") (VBool true)
                  (World {["/srv/excel/new.xlsx" := "Old1,Old2"]} []))
           [("message",
             VStr "Created and uploaded workbook: /srv/excel/new.xlsx. URL: http://localhost:3001/files/new.xlsx");
            ("active_sheet", VStr "Sales");
            ("workbook", handle demo_openpyxl ["Sales"]);
            ("file_url", VStr "http://localhost:3001/files/new.xlsx")]
           (workbook.create_workbook demo_env demo_openpyxl "/srv/excel/new.xlsx"
              (VStr "Sales") (VBool true)
              (World {["/srv/excel/new.xlsx" := "Old1,Old2"]} [])).2
           eq_refl).
Defined.

(** X14: a failed upload leaves the new workbook behind.  When a call of
    [workbook.create_workbook] fails after it sent the upload request, the
    workbook had been saved: the file holds exactly the content that was
    posted, under the base name that was posted, although the call reports
    that the creation failed; the error is the upload's, wrapped. *)
Theorem failed_upload_leaves_the_workbook
    (E : Env) (O : Openpyxl) filepath sheet_name upload w e w' evs name content :
  workbook.create_workbook E O filepath sheet_name upload w = (Raise e, w') ->
  trace w' = trace w ++ evs ->
  In (EvPost UPLOAD_ENDPOINT name content) evs ->
  files w' = <[filepath := content]> (files w) /\
  name = os_path_basename filepath /\
  truthy upload = true /\
  (exists wb, first_sheet O sheet_name = Ok wb /\ serialize O wb = Ok content) /\
  exists inner,
    exn_str e = "Failed to create workbook: Failed to upload file: " +:+ inner.
Proof.
  rewrite create_workbook_run. cbv zeta. intros H Ht Hin.
  assert (Hearly : forall e0,
            (Raise (new_exn WorkbookError ("Failed to create workbook: " +:+ exn_str e0)),
             logged ERROR ("Failed to create workbook: " +:+ exn_str e0) w)
            = (@Raise dict e, w') -> False).
  { intros e0 [= _ <-]. unfold logged in Ht. cbn [trace] in Ht.
    apply app_inv_head in Ht. subst evs. by destruct Hin as [|[]]. }
  destruct (first_sheet O sheet_name) as [wb|e0] eqn:Hfirst; [|by destruct (Hearly e0)].
  destruct (workbook.mkdir_parent E filepath w) as [[[]|e0] w0]; [|by destruct (Hearly e0)].
  destruct (serialize O wb) as [bytes|e0] eqn:Hser; [|by destruct (Hearly e0)].
  destruct (write_fault E filepath) as [e0|]; [by destruct (Hearly e0)|].
  destruct (truthy upload); [|done].
  set (w1 := World (<[filepath := bytes]> (files w)) (trace w)) in *.
  assert (Hthere : files w1 !! filepath = Some bytes) by apply lookup_insert_eq.
  assert (Hdone : forall inner,
            (Raise (new_exn WorkbookError
                      ("Failed to create workbook: " +:+
                       exn_str (new_exn WorkbookError ("Failed to upload file: " +:+ inner)))),
             logged ERROR
               ("Failed to create workbook: " +:+
                exn_str (new_exn WorkbookError ("Failed to upload file: " +:+ inner)))
               (logged ERROR ("Failed to upload file: " +:+ inner)
                  (posted (os_path_basename filepath) bytes w1)))
            = (@Raise dict e, w') ->
            files w' = <[filepath := content]> (files w) /\
            name = os_path_basename filepath /\
            true = true /\
            (exists wb0, Ok wb = Ok wb0 /\ serialize O wb0 = Ok content) /\
            exists inner0,
              exn_str e = "Failed to create workbook: Failed to upload file: " +:+ inner0).
  { intros inner [= <- <-]. unfold logged, posted in Ht. cbn [trace files] in Ht.
    rewrite <- !app_assoc in Ht. apply app_inv_head in Ht. subst evs.
    destruct Hin as [Hin|[Hin|[Hin|[]]]]; [|done|done].
    injection Hin as <- <-. split; [done|]. split; [done|]. split; [done|].
    split; [by exists wb|]. by exists inner. }
  destruct (upload_cases E filepath w1)
    as [Hnone|(c & Hsome & [(e0 & Hp)|[(status & text & Hp & Hs)|(text & Hp)]])].
  - by rewrite Hthere in Hnone.
  - rewrite Hthere in Hsome. injection Hsome as <-.
    rewrite (upload_unreachable E _ _ _ _ Hthere Hp) in H. by apply (Hdone _ H).
  - rewrite Hthere in Hsome. injection Hsome as <-.
    rewrite (upload_refused E _ _ _ _ _ Hthere Hp Hs) in H. by apply (Hdone _ H).
  - rewrite Hthere in Hsome. injection Hsome as <-.
    by rewrite (upload_accepted E _ _ _ _ Hthere Hp) in H.
Qed.

Lemma failed_upload_leaves_the_workbook_witness :
  files (workbook.create_workbook refusing_env demo_openpyxl "/srv/excel/new.xlsx"
           (VStr "Sheet1") (VBool true) empty_world).2
    = <["/srv/excel/new.xlsx" := "Sheet1"]> (files empty_world) /\
  "new.xlsx" = os_path_basename "/srv/excel/new.xlsx" /\
  truthy (VBool true) = true /\
  (exists wb, first_sheet demo_openpyxl (VStr "Sheet1") = Ok wb /\
              serialize demo_openpyxl wb = Ok "Sheet1") /\
  exists inner,
    exn_str (Exn WorkbookError
               "Failed to create workbook: Failed to upload file: Failed to upload file: disk full"
               None)
    = "Failed to create workbook: Failed to upload file: " +:+ inner.
Proof.
  apply (failed_upload_leaves_the_workbook refusing_env demo_openpyxl "/srv/excel/new.xlsx"
           (VStr "Sheet1") (VBool true) empty_world
           (Exn WorkbookError
              "Failed to create workbook: Failed to upload file: Failed to upload file: disk full"
              None)
           (workbook.create_workbook refusing_env demo_openpyxl "/srv/excel/new.xlsx"
              (VStr "Sheet1") (VBool true) empty_world).2
           (trace (workbook.create_workbook refusing_env demo_openpyxl "/srv/excel/new.xlsx"
                     (VStr "Sheet1") (VBool true) empty_world).2)
           "new.xlsx" "Sheet1").
  - reflexivity.
  - reflexivity.
  - vm_compute. tauto.
Defined.

(* ===================================================================== *)
(** ** workbook.py: adding a sheet *)
(* ===================================================================== *)

(** [create_sheet], stage by stage. *)
Lemma create_sheet_run (E : Env) (O : Openpyxl) filepath sheet_name w :
  workbook.create_sheet E O filepath sheet_name w =
  let converted (e : exn) : result dict * world :=
    if is_instance e [WorkbookError]
    then (Raise e, logged ERROR (exn_str e) w)
    else (Raise (new_exn WorkbookError (exn_str e)),
          logged ERROR ("Failed to create sheet: " +:+ exn_str e) w) in
  match open_workbook O filepath false (files w !! filepath) with
  | Raise e => converted e
  | Ok wb =>
      if in_names sheet_name (sheetnames O wb)
      then (Raise (new_exn WorkbookError
                     ("Sheet " +:+ py_str E sheet_name +:+ " already exists")),
            logged ERROR ("Sheet " +:+ py_str E sheet_name +:+ " already exists") w)
      else
        match add_sheet O wb sheet_name with
        | Raise e => converted e
        | Ok wb' =>
            match serialize O wb' with
            | Raise e => converted e
            | Ok bytes =>
                match write_fault E filepath with
                | Some e => converted e
                | None =>
                    (Ok [("message",
                          VStr ("Sheet " +:+ py_str E sheet_name +:+ " created successfully"))],
                     World (<[filepath := bytes]> (files w)) (trace w))
                end
            end
        end
  end.
Proof.
  cbv zeta. unfold workbook.create_sheet, try_except.
  unfold bind at 1. unfold workbook.load_workbook at 1.
  destruct (open_workbook O filepath false (files w !! filepath)) as [wb|e].
  2:{ by destruct (is_instance e [WorkbookError]). }
  destruct (in_names sheet_name (sheetnames O wb)); [reflexivity|].
  unfold bind at 1. unfold workbook.lift at 1.
  destruct (add_sheet O wb sheet_name) as [wb'|e].
  2:{ by destruct (is_instance e [WorkbookError]). }
  unfold bind at 1. unfold workbook.save. unfold bind at 1. unfold workbook.lift at 1.
  destruct (serialize O wb') as [bytes|e].
  2:{ by destruct (is_instance e [WorkbookError]). }
  unfold write_file at 1.
  destruct (write_fault E filepath) as [e|]; [|reflexivity].
  by destruct (is_instance e [WorkbookError]).
Qed.

Lemma create_sheet_raise_inv (E : Env) (O : Openpyxl) filepath sheet_name w e w' :
  workbook.create_sheet E O filepath sheet_name w = (Raise e, w') ->
  exn_class e = WorkbookError /\
  files w' = files w /\
  exists text, trace w' = trace w ++ [EvLog ERROR text] /\
               (text = exn_str e \/ text = "Failed to create sheet: " +:+ exn_str e).
Proof.
  rewrite create_sheet_run. cbv zeta. unfold logged.
  assert (Hconv : forall e0,
            (if is_instance e0 [WorkbookError]
             then (Raise e0, World (files w) (trace w ++ [EvLog ERROR (exn_str e0)]))
             else (Raise (new_exn WorkbookError (exn_str e0)),
                   World (files w)
                     (trace w ++ [EvLog ERROR ("Failed to create sheet: " +:+ exn_str e0)])))
            = (@Raise dict e, w') ->
            exn_class e = WorkbookError /\
            files w' = files w /\
            exists text, trace w' = trace w ++ [EvLog ERROR text] /\
                         (text = exn_str e \/ text = "Failed to create sheet: " +:+ exn_str e)).
  { intros e0. destruct (is_instance e0 [WorkbookError]) eqn:Hi; intros [= <- <-].
    - split; [|split; [done|by eexists; split; [|left]]].
      unfold is_instance in Hi. cbn in Hi. rewrite orb_false_r in Hi.
      by apply bool_decide_eq_true in Hi.
    - split; [done|]. split; [done|]. by eexists; split; [|right]. }
  destruct (open_workbook O filepath false (files w !! filepath)) as [wb|e0];
    [|apply Hconv].
  destruct (in_names sheet_name (sheetnames O wb)).
  { intros [= <- <-]. split; [done|]. split; [done|]. by eexists; split; [|left]. }
  destruct (add_sheet O wb sheet_name) as [wb'|e0]; [|apply Hconv].
  destruct (serialize O wb') as [bytes|e0]; [|apply Hconv].
  destruct (write_fault E filepath) as [e0|]; [apply Hconv|done].
Qed.

Lemma create_sheet_ok_inv (E : Env) (O : Openpyxl) filepath sheet_name w d w' :
  workbook.create_sheet E O filepath sheet_name w = (Ok d, w') ->
  d = [("message", VStr ("Sheet " +:+ py_str E sheet_name +:+ " created successfully"))] /\
  exists wb wb' bytes,
    open_workbook O filepath false (files w !! filepath) = Ok wb /\
    in_names sheet_name (sheetnames O wb) = false /\
    add_sheet O wb sheet_name = Ok wb' /\
    serialize O wb' = Ok bytes /\
    w' = World (<[filepath := bytes]> (files w)) (trace w).
Proof.
  rewrite create_sheet_run. cbv zeta.
  destruct (open_workbook O filepath false (files w !! filepath)) as [wb|e0];
    [|by destruct (is_instance e0 [WorkbookError])].
  destruct (in_names sheet_name (sheetnames O wb)) eqn:Hin; [done|].
  destruct (add_sheet O wb sheet_name) as [wb'|e0] eqn:Hadd;
    [|by destruct (is_instance e0 [WorkbookError])].
  destruct (serialize O wb') as [bytes|e0] eqn:Hser;
    [|by destruct (is_instance e0 [WorkbookError])].
  destruct (write_fault E filepath) as [e0|];
    [by destruct (is_instance e0 [WorkbookError])|].
  intros [= <- <-]. split; [done|]. by exists wb, wb', bytes.
Qed.

(** X15: the outcomes of [workbook.create_sheet].  A name the workbook
    already has is rejected with "Sheet <name> already exists", logged
    under that very text, and the file is not written.  A workbook that
    cannot be loaded (a missing file among the reasons) is not created:
    the error is passed on as a [WorkbookError] with the same text, the
    prefix "Failed to create sheet: " going to the log only.  Every
    failure is a [WorkbookError] and adds exactly one log record.  On
    success the file holds the workbook with the sheet added, and nothing
    is logged. *)
Theorem create_sheet_outcomes (E : Env) (O : Openpyxl) filepath sheet_name w :
  (forall wb,
     open_workbook O filepath false (files w !! filepath) = Ok wb ->
     in_names sheet_name (sheetnames O wb) = true ->
     workbook.create_sheet E O filepath sheet_name w =
     (Raise (Exn WorkbookError ("Sheet " +:+ py_str E sheet_name +:+ " already exists") None),
      World (files w)
        (trace w ++ [EvLog ERROR ("Sheet " +:+ py_str E sheet_name +:+ " already exists")]))) /\
  (forall e0,
     open_workbook O filepath false (files w !! filepath) = Raise e0 ->
     exn_class e0 <> WorkbookError ->
     workbook.create_sheet E O filepath sheet_name w =
     (Raise (Exn WorkbookError (exn_str e0) None),
      World (files w)
        (trace w ++ [EvLog ERROR ("Failed to create sheet: " +:+ exn_str e0)]))) /\
  (forall e w',
     workbook.create_sheet E O filepath sheet_name w = (Raise e, w') ->
     exn_class e = WorkbookError /\
     exists text, trace w' = trace w ++ [EvLog ERROR text] /\
                  (text = exn_str e \/ text = "Failed to create sheet: " +:+ exn_str e)) /\
  (forall d w',
     workbook.create_sheet E O filepath sheet_name w = (Ok d, w') ->
     d = [("message", VStr ("Sheet " +:+ py_str E sheet_name +:+ " created successfully"))] /\
     exists wb wb' bytes,
       open_workbook O filepath false (files w !! filepath) = Ok wb /\
       in_names sheet_name (sheetnames O wb) = false /\
       add_sheet O wb sheet_name = Ok wb' /\
       serialize O wb' = Ok bytes /\
       w' = World (<[filepath := bytes]> (files w)) (trace w)).
Proof.
  split; [|split; [|split]].
  - intros wb Hopen Hin. rewrite create_sheet_run. cbv zeta. by rewrite Hopen, Hin.
  - intros e0 Hopen Hcls. rewrite create_sheet_run. cbv zeta. rewrite Hopen.
    assert (is_instance e0 [WorkbookError] = false) as ->; [|done].
    unfold is_instance. cbn. rewrite orb_false_r. by apply bool_decide_eq_false.
  - intros e w' H. by destruct (create_sheet_raise_inv E O _ _ _ _ _ H) as (? & _ & ?).
  - intros d w'. apply create_sheet_ok_inv.
Qed.

Lemma create_sheet_outcomes_witness :
  workbook.create_sheet demo_env demo_openpyxl "/srv/excel/book.xlsx" (VStr "Data")
    (World {["/srv/excel/book.xlsx" := "Sheet1,Data"]} []) =
    (Raise (Exn WorkbookError ("Sheet " +:+ py_str demo_env (VStr "Data") +:+ " already exists")
              None),
     World (files (World {["/srv/excel/book.xlsx" := "Sheet1,Data"]} []))
       (trace (World {["/srv/excel/book.xlsx" := "Sheet1,Data"]} []) ++
        [EvLog ERROR ("Sheet " +:+ py_str demo_env (VStr "Data") +:+ " already exists")])) /\
  workbook.create_sheet demo_env demo_openpyxl "/srv/excel/none.xlsx" (VStr "Data")
    (World {["/srv/excel/book.xlsx" := "Sheet1,Data"]} []) =
    (Raise (Exn WorkbookError
              (exn_str (Exn FileNotFoundError
                          "[Errno 2] No such file or directory: '/srv/excel/none.xlsx'" None))
              None),
     World (files (World {["/srv/excel/book.xlsx" := "Sheet1,Data"]} []))
       (trace (World {["/srv/excel/book.xlsx" := "Sheet1,Data"]} []) ++
        [EvLog ERROR
           ("Failed to create sheet: " +:+
            exn_str (Exn FileNotFoundError
                       "[Errno 2] No such file or directory: '/srv/excel/none.xlsx'" None))])) /\
  exists wb wb' bytes,
    open_workbook demo_openpyxl "/srv/excel/book.xlsx" false
      (files (World {["/srv/excel/book.xlsx" := "Sheet1,Data"]} []) !! "/srv/excel/book.xlsx")
      = Ok wb /\
    in_names (VStr "Totals") (sheetnames demo_openpyxl wb) = false /\
    add_sheet demo_openpyxl wb (VStr "Totals") = Ok wb' /\
    serialize demo_openpyxl wb' = Ok bytes /\
    (workbook.create_sheet demo_env demo_openpyxl "/srv/excel/book.xlsx" (VStr "Totals")
       (World {["/srv/excel/book.xlsx" := "Sheet1,Data"]} [])).2
    = World (<["/srv/excel/book.xlsx" := bytes]>
               (files (World {["/srv/excel/book.xlsx" := "Sheet1,Data"]} [])))
        (trace (World {["/srv/excel/book.xlsx" := "Sheet1,Data"]} [])).
Proof.
  split; [|split].
  - exact (proj1 (create_sheet_outcomes demo_env demo_openpyxl "/srv/excel/book.xlsx"
                    (VStr "Data") (World {["/srv/excel/book.xlsx" := "Sheet1,Data"]} []))
             ["Sheet1"; "Data"] eq_refl eq_refl).
  - refine (proj1 (proj2 (create_sheet_outcomes demo_env demo_openpyxl "/srv/excel/none.xlsx"
                            (VStr "Data") (World {["/srv/excel/book.xlsx" := "Sheet1,Data"]} [])))
              (Exn FileNotFoundError
                 "[Errno 2] No such file or directory: '/srv/excel/none.xlsx'" None)
              eq_refl _).
    done.
  - exact (proj2 (proj2 (proj2 (proj2
             (create_sheet_outcomes demo_env demo_openpyxl "/srv/excel/book.xlsx"
                (VStr "Totals") (World {["/srv/excel/book.xlsx" := "Sheet1,Data"]} []))))
             [("message", VStr "Sheet Totals created successfully")]
             (workbook.create_sheet demo_env demo_openpyxl "/srv/excel/book.xlsx" (VStr "Totals")
                (World {["/srv/excel/book.xlsx" := "Sheet1,Data"]} [])).2
             eq_refl)).
Defined.

(* ===================================================================== *)
(** ** workbook.py: loading or creating *)
(* ===================================================================== *)

Lemma is_instance_one e c : is_instance e [c] = bool_decide (exn_class e = c).
Proof. unfold is_instance. cbn. by rewrite orb_false_r. Qed.

Lemma get_or_create_workbook_run (E : Env) (O : Openpyxl) filepath w :
  workbook.get_or_create_workbook E O filepath w =
  match open_workbook O filepath false (files w !! filepath) with
  | Ok wb => (Ok (handle O wb), w)
  | Raise e =>
      if is_instance e [FileNotFoundError]
      then bind (workbook.create_workbook E O filepath (VStr "Sheet1") (VBool false))
             (fun created => subscript E (VDict created) "workbook") w
      else (Raise e, w)
  end.
Proof.
  unfold workbook.get_or_create_workbook, try_except.
  unfold bind at 1. unfold workbook.load_workbook.
  destruct (open_workbook O filepath false (files w !! filepath)) as [wb|e]; [done|].
  by destruct (is_instance e [FileNotFoundError]).
Qed.

(** X16: [get_or_create_workbook] creates a workbook only when loading
    fails with [FileNotFoundError].  A workbook that loads is returned and
    nothing is touched or logged; any other loading error (a file that is
    no workbook, say) leaves the function as it is, not wrapped and not
    logged; and on [FileNotFoundError] the workbook is created with the
    sheet "Sheet1" and without upload, so the call returns the new
    workbook with the file written and no request sent, or fails with the
    [WorkbookError] of the creation, logged once. *)
Theorem get_or_create_workbook_outcomes (E : Env) (O : Openpyxl) filepath w :
  (forall wb,
     open_workbook O filepath false (files w !! filepath) = Ok wb ->
     workbook.get_or_create_workbook E O filepath w = (Ok (handle O wb), w)) /\
  (forall e,
     open_workbook O filepath false (files w !! filepath) = Raise e ->
     exn_class e <> FileNotFoundError ->
     workbook.get_or_create_workbook E O filepath w = (Raise e, w)) /\
  (forall e,
     open_workbook O filepath false (files w !! filepath) = Raise e ->
     exn_class e = FileNotFoundError ->
     (forall v w',
        workbook.get_or_create_workbook E O filepath w = (Ok v, w') ->
        exists wb bytes,
          first_sheet O (VStr "Sheet1") = Ok wb /\
          serialize O wb = Ok bytes /\
          v = handle O wb /\
          w' = World (<[filepath := bytes]> (files w)) (trace w)) /\
     (forall e' w',
        workbook.get_or_create_workbook E O filepath w = (Raise e', w') ->
        exn_class e' = WorkbookError /\
        exists inner,
          exn_str e' = "Failed to create workbook: " +:+ inner /\
          trace w' = trace w ++ [EvLog ERROR ("Failed to create workbook: " +:+ inner)])).
Proof.
  rewrite get_or_create_workbook_run.
  split; [|split].
  - by intros wb ->.
  - intros e -> Hcls. rewrite is_instance_one.
    by rewrite bool_decide_eq_false_2.
  - intros e -> Hcls. rewrite is_instance_one.
    rewrite bool_decide_eq_true_2 by done.
    unfold bind. rewrite create_workbook_run. cbv zeta.
    change (truthy (VBool false)) with false. cbv iota.
    destruct (first_sheet O (VStr "Sheet1")) as [wb|e0] eqn:Hfirst.
    2:{ split; [done|]. intros e' w' [= <- <-]. split; [done|]. by eexists. }
    destruct (workbook.mkdir_parent E filepath w) as [[[]|e0] w0].
    2:{ split; [done|]. intros e' w' [= <- <-]. split; [done|]. by eexists. }
    destruct (serialize O wb) as [bytes|e0] eqn:Hser.
    2:{ split; [done|]. intros e' w' [= <- <-]. split; [done|]. by eexists. }
    destruct (write_fault E filepath) as [e0|].
    { split; [done|]. intros e' w' [= <- <-]. split; [done|]. by eexists. }
    unfold subscript. rewrite !dict_get_cons. cbn.
    split; [|done]. intros v w' [= <- <-]. by exists wb, bytes.
Qed.

Lemma get_or_create_workbook_outcomes_witness :
  workbook.get_or_create_workbook demo_env demo_openpyxl "/srv/excel/book.xlsx"
    (World {["/srv/excel/book.xlsx" := "Sheet1,Data"]} []) =
    (Ok (handle demo_openpyxl ["Sheet1"; "Data"]),
     World {["/srv/excel/book.xlsx" := "Sheet1,Data"]} []) /\
  exists wb bytes,
    first_sheet demo_openpyxl (VStr "Sheet1") = Ok wb /\
    serialize demo_openpyxl wb = Ok bytes /\
    handle demo_openpyxl ["Sheet1"] = handle demo_openpyxl wb /\
    (workbook.get_or_create_workbook demo_env demo_openpyxl "/srv/excel/new.xlsx"
       (World {["/srv/excel/book.xlsx" := "Sheet1,Data"]} [])).2
    = World (<["/srv/excel/new.xlsx" := bytes]>
               (files (World {["/srv/excel/book.xlsx" := "Sheet1,Data"]} [])))
        (trace (World {["/srv/excel/book.xlsx" := "Sheet1,Data"]} [])).
Proof.
  split.
  - exact (proj1 (get_or_create_workbook_outcomes demo_env demo_openpyxl "/srv/excel/book.xlsx"
                    (World {["/srv/excel/book.xlsx" := "Sheet1,Data"]} []))
             ["Sheet1"; "Data"] eq_refl).
  - exact (proj1 (proj2 (proj2 (get_or_create_workbook_outcomes demo_env demo_openpyxl
                                   "/srv/excel/new.xlsx"
                                   (World {["/srv/excel/book.xlsx" := "Sheet1,Data"]} [])))
                    (Exn FileNotFoundError
                       "[Errno 2] No such file or directory: '/srv/excel/new.xlsx'" None)
                    eq_refl eq_refl)
             (handle demo_openpyxl ["Sheet1"])
             (workbook.get_or_create_workbook demo_env demo_openpyxl "/srv/excel/new.xlsx"
                (World {["/srv/excel/book.xlsx" := "Sheet1,Data"]} [])).2
             eq_refl).
Defined.


(* ===================================================================== *)
(** ** workbook.py: the metadata of a workbook *)
(* ===================================================================== *)



Section Metadata.

Context (E : Env) (O : Openpyxl).

Lemma pure_used_ranges wb names ranges : pure (workbook.used_ranges E O wb names ranges).
Proof.
  revert ranges. induction names as [|name names IH]; intros ranges w; [done|].
  cbn [workbook.used_ranges]. unfold bind, workbook.lift, workbook.none_is_not_ordered, raise, ret.
  destruct (max_row O wb name) as [[row|]|e]; try done.
  destruct (0 <? row)%Z; [|apply IH].
  destruct (max_column O wb name) as [[column|]|e]; try done.
  destruct (0 <? column)%Z; [|apply IH].
  destruct (get_column_letter O column) as [letter|e]; [apply IH|done].
Qed.



Context (st_mtime : string -> pyval).

(** [get_workbook_info], stage by stage. *)
Lemma get_workbook_info_run filepath include_ranges w :
  workbook.get_workbook_info E O st_mtime filepath include_ranges w =
  let converted (e : exn) : result dict * world :=
    if is_instance e [WorkbookError]
    then (Raise e, logged ERROR (exn_str e) w)
    else (Raise (new_exn WorkbookError (exn_str e)),
          logged ERROR ("Failed to get workbook info: " +:+ exn_str e) w) in
  match files w !! filepath with
  | None =>
      (Raise (new_exn WorkbookError ("File not found: " +:+ filepath)),
       logged ERROR ("File not found: " +:+ filepath) w)
  | Some content =>
      match open_workbook O filepath true (Some content) with
      | Raise e => converted e
      | Ok wb =>
          let info :=
            [("filename", VStr (path_name filepath));
             ("sheets", VList (map VStr (sheetnames O wb)));
             ("size", VInt (Z.of_nat (String.length content)));
             ("modified", st_mtime filepath)] in
          if truthy include_ranges
          then match workbook.used_ranges E O wb (sheetnames O wb) [] w with
               | (Ok ranges, _) => (Ok (info ++ [("used_ranges", VDict ranges)]), w)
               | (Raise e, _) => converted e
               end
          else (Ok info, w)
      end
  end.
Proof.
  cbv zeta. unfold workbook.get_workbook_info, try_except.
  unfold bind at 1. unfold os_path_exists at 1.
  destruct (files w !! filepath) as [content|] eqn:Hfile.
  2:{ rewrite bool_decide_eq_false_2 by (by intros [? ?]). reflexivity. }
  rewrite bool_decide_eq_true_2 by (by eexists). cbn [negb].
  unfold bind at 1. unfold workbook.load_workbook at 1. rewrite Hfile.
  destruct (open_workbook O filepath true (Some content)) as [wb|e].
  2:{ by destruct (is_instance e [WorkbookError]). }
  unfold bind at 1. unfold workbook.st_size. unfold bind at 1.
  rewrite (read_file_present E _ _ _ Hfile). unfold ret at 1.
  destruct (truthy include_ranges); [|reflexivity].
  unfold bind at 1.
  pose proof (pure_used_ranges wb (sheetnames O wb) [] w) as Hp.
  destruct (workbook.used_ranges E O wb (sheetnames O wb) [] w) as [[ranges|e] w1];
    cbn [snd] in Hp; subst w1; [reflexivity|].
  by destruct (is_instance e [WorkbookError]).
Qed.

End Metadata.

Lemma get_workbook_info_raise_inv
    (E : Env) (O : Openpyxl) st_mtime filepath include_ranges w e w' :
  workbook.get_workbook_info E O st_mtime filepath include_ranges w = (Raise e, w') ->
  exn_class e = WorkbookError /\
  files w' = files w /\
  exists text, trace w' = trace w ++ [EvLog ERROR text] /\
               (text = exn_str e \/
                text = "Failed to get workbook info: " +:+ exn_str e).
Proof.
  rewrite get_workbook_info_run. cbv zeta. unfold logged.
  assert (Hconv : forall e0,
            (if is_instance e0 [WorkbookError]
             then (Raise e0, World (files w) (trace w ++ [EvLog ERROR (exn_str e0)]))
             else (Raise (new_exn WorkbookError (exn_str e0)),
                   World (files w)
                     (trace w ++
                      [EvLog ERROR ("Failed to get workbook info: " +:+ exn_str e0)])))
            = (@Raise dict e, w') ->
            exn_class e = WorkbookError /\
            files w' = files w /\
            exists text, trace w' = trace w ++ [EvLog ERROR text] /\
                         (text = exn_str e \/
                          text = "Failed to get workbook info: " +:+ exn_str e)).
  { intros e0. rewrite is_instance_one.
    destruct (bool_decide (exn_class e0 = WorkbookError)) eqn:Hi; intros [= <- <-].
    - apply bool_decide_eq_true in Hi. split; [done|]. split; [done|].
      by eexists; split; [|left].
    - split; [done|]. split; [done|]. by eexists; split; [|right]. }
  destruct (files w !! filepath) as [content|].
  2:{ intros [= <- <-]. split; [done|]. split; [done|]. by eexists; split; [|left]. }
  destruct (open_workbook O filepath true (Some content)) as [wb|e0]; [|apply Hconv].
  destruct (truthy include_ranges); [|done].
  destruct (workbook.used_ranges E O wb (sheetnames O wb) [] w) as [[ranges|e0] w1];
    [done|apply Hconv].
Qed.


(* ===================================================================== *)
(** ** The workbook tools over workbook.py *)
(* ===================================================================== *)

Lemma get_excel_path_with_workbook_module (E : Env) (O : Openpyxl) st_mtime filepath :
  get_excel_path (with_workbook_module E O st_mtime) filepath = get_excel_path E filepath.
Proof. reflexivity. Qed.

Lemma call_create_sheet (E : Env) (O : Openpyxl) st_mtime full_path sheet_name w :
  call_lib (with_workbook_module E O st_mtime) create_worksheet_impl [VStr full_path; sheet_name] [] w =
  (match (workbook.create_sheet E O full_path sheet_name (World (files w) [])).1 with
   | Ok d => Ok (VDict d)
   | Raise e => Raise e
   end,
   World (files (workbook.create_sheet E O full_path sheet_name (World (files w) [])).2)
     (trace w ++ [EvLib create_worksheet_impl [VStr full_path; sheet_name] []])).
Proof.
  unfold call_lib. cbn [library with_workbook_module].
  by destruct (workbook.create_sheet E O full_path sheet_name (World (files w) [])).
Qed.

Lemma call_get_workbook_info (E : Env) (O : Openpyxl) st_mtime full_path include_ranges w :
  call_lib (with_workbook_module E O st_mtime) get_workbook_info [VStr full_path]
    [("include_ranges", include_ranges)] w =
  (match (workbook.get_workbook_info E O st_mtime full_path include_ranges
            (World (files w) [])).1 with
   | Ok d => Ok (VDict d)
   | Raise e => Raise e
   end,
   World (files (workbook.get_workbook_info E O st_mtime full_path include_ranges
                   (World (files w) [])).2)
     (trace w ++ [EvLib get_workbook_info [VStr full_path]
                    [("include_ranges", include_ranges)]])).
Proof.
  unfold call_lib. cbn [library with_workbook_module].
  by destruct (workbook.get_workbook_info E O st_mtime full_path include_ranges
                 (World (files w) [])).
Qed.

Lemma call_create_workbook (E : Env) (O : Openpyxl) st_mtime full_path upload w :
  call_lib (with_workbook_module E O st_mtime) create_workbook_impl [VStr full_path]
    [("upload", upload)] w =
  (match (workbook.create_workbook E O full_path (VStr "Sheet1") upload
            (World (files w) [])).1 with
   | Ok d => Ok (VDict d)
   | Raise e => Raise e
   end,
   World (files (workbook.create_workbook E O full_path (VStr "Sheet1") upload
                   (World (files w) [])).2)
     (trace w ++ [EvLib create_workbook_impl [VStr full_path] [("upload", upload)]])).
Proof.
  unfold call_lib. cbn [library with_workbook_module].
  by destruct (workbook.create_workbook E O full_path (VStr "Sheet1") upload
                 (World (files w) [])).
Qed.

(** X17: over [workbook.py], the tools [create_workbook],
    [create_worksheet] and [get_workbook_metadata] raise nothing but the
    [TypeError] of a call that does not bind.  Whatever goes wrong while
    the workbook is created, the sheet is added or the metadata are read
    leaves [workbook.py] as a [WorkbookError], which the three tools turn
    into an "Error: ..." text. *)
Theorem workbook_tools_raise_only_on_binding (E : Env) (O : Openpyxl) st_mtime filepath kwargs w e w' :
  (create_workbook (with_workbook_module E O st_mtime) filepath kwargs w = (Raise e, w') ->
   exn_class e = TypeError /\
   w' = World (files w) (trace w ++ [EvTool "create_workbook" filepath kwargs])) /\
  (create_worksheet (with_workbook_module E O st_mtime) filepath kwargs w = (Raise e, w') ->
   exn_class e = TypeError /\
   w' = World (files w) (trace w ++ [EvTool "create_worksheet" filepath kwargs])) /\
  (get_workbook_metadata (with_workbook_module E O st_mtime) filepath kwargs w
     = (Raise e, w') ->
   exn_class e = TypeError /\
   w' = World (files w) (trace w ++ [EvTool "get_workbook_metadata" filepath kwargs])).
Proof.
  split; [|split]; intros H.
  - unfold create_workbook in H.
    apply tool_raise_inv in H as [H|(a & w2 & _ & Hbody & Hcls & _)]; [done|].
    exfalso. cbv beta zeta in Hbody. rewrite get_excel_path_with_workbook_module in Hbody.
    unfold bind at 1 in Hbody. rewrite call_create_workbook in Hbody.
    destruct (workbook.create_workbook E O (get_excel_path E filepath) (VStr "Sheet1")
                (arg a "upload")
                (World (files (World (files w)
                                 (trace w ++ [EvTool "create_workbook" filepath kwargs]))) []))
      as [[d|e0] w1] eqn:Hrun; cbn [fst snd] in Hbody.
    + apply create_workbook_ok_inv in Hrun as (wb & bytes & _ & _ & _ & Hd).
      destruct (truthy (arg a "upload")); destruct Hd as [-> _];
        unfold bind, contains, subscript in Hbody;
        rewrite ?dict_get_cons in Hbody; cbn in Hbody; done.
    + apply create_workbook_raise_inv in Hrun as (Hc & _).
      injection Hbody as <- _. unfold is_instance in Hcls. cbn in Hcls.
      rewrite Hc in Hcls. by rewrite bool_decide_eq_true_2 in Hcls.
  - unfold create_worksheet in H.
    apply tool_raise_inv in H as [H|(a & w2 & _ & Hbody & Hcls & _)]; [done|].
    exfalso. cbv beta zeta in Hbody. rewrite get_excel_path_with_workbook_module in Hbody.
    unfold bind at 1 in Hbody. rewrite call_create_sheet in Hbody.
    destruct (workbook.create_sheet E O (get_excel_path E filepath) (arg a "sheet_name")
                (World (files (World (files w)
                                 (trace w ++ [EvTool "create_worksheet" filepath kwargs]))) []))
      as [[d|e0] w1] eqn:Hrun; cbn [fst snd] in Hbody.
    + apply create_sheet_ok_inv in Hrun as (-> & _).
      unfold subscript in Hbody. rewrite dict_get_cons in Hbody. cbn in Hbody. done.
    + apply create_sheet_raise_inv in Hrun as (Hc & _).
      injection Hbody as <- _. unfold is_instance in Hcls. cbn in Hcls.
      rewrite Hc in Hcls. rewrite (bool_decide_eq_true_2 (WorkbookError = WorkbookError)) in Hcls by done.
      by rewrite orb_true_r in Hcls.
  - unfold get_workbook_metadata in H.
    apply tool_raise_inv in H as [H|(a & w2 & _ & Hbody & Hcls & _)]; [done|].
    exfalso. cbv beta zeta in Hbody. rewrite get_excel_path_with_workbook_module in Hbody.
    unfold bind at 1 in Hbody. rewrite call_get_workbook_info in Hbody.
    destruct (workbook.get_workbook_info E O st_mtime (get_excel_path E filepath)
                (arg a "include_ranges")
                (World (files (World (files w)
                                 (trace w ++ [EvTool "get_workbook_metadata" filepath kwargs])))
                   []))
      as [[d|e0] w1] eqn:Hrun; cbn [fst snd] in Hbody; [done|].
    apply get_workbook_info_raise_inv in Hrun as (Hc & _).
    injection Hbody as <- _. unfold is_instance in Hcls. cbn in Hcls.
    rewrite Hc in Hcls. by rewrite bool_decide_eq_true_2 in Hcls.
Qed.

Lemma workbook_tools_raise_only_on_binding_witness :
  exn_class (Exn TypeError "create_worksheet() missing required positional arguments" None)
    = TypeError /\
  (create_worksheet (with_workbook_module demo_env demo_openpyxl demo_mtime) "book.xlsx" [] empty_world).2
    = World (files empty_world)
        (trace empty_world ++ [EvTool "create_worksheet" "book.xlsx" []]).
Proof.
  apply (proj1 (proj2 (workbook_tools_raise_only_on_binding demo_env demo_openpyxl demo_mtime "book.xlsx" []
                  empty_world
                  (Exn TypeError "create_worksheet() missing required positional arguments" None)
                  (create_worksheet (with_workbook_module demo_env demo_openpyxl demo_mtime)
                     "book.xlsx" [] empty_world).2))).
  reflexivity.
Defined.



(* ===================================================================== *)
(** ** workbook.py: creating twice *)
(* ===================================================================== *)

(** X20: a sheet is not created twice.  Provided the workbook that a
    successful call saved loads again and shows the sheet, a second
    [create_sheet] with the same name is rejected with "Sheet <name>
    already exists" and leaves the file as the first call wrote it; and so
    is a [create_sheet] with the name that [create_workbook] gave to the
    first sheet.  After [create_workbook], [get_or_create_workbook] loads
    the workbook instead of creating one. *)
Theorem a_sheet_is_not_created_twice (E : Env) (O : Openpyxl) filepath name w d w1 :
  (workbook.create_sheet E O filepath (VStr name) w = (Ok d, w1) ->
   (forall bytes,
      files w1 !! filepath = Some bytes ->
      exists wb, open_workbook O filepath false (Some bytes) = Ok wb /\
                 In name (sheetnames O wb)) ->
   workbook.create_sheet E O filepath (VStr name) w1 =
   (Raise (Exn WorkbookError ("Sheet " +:+ name +:+ " already exists") None),
    World (files w1) (trace w1 ++ [EvLog ERROR ("Sheet " +:+ name +:+ " already exists")]))) /\
  (forall upload,
     workbook.create_workbook E O filepath (VStr name) upload w = (Ok d, w1) ->
     (forall bytes,
        files w1 !! filepath = Some bytes ->
        exists wb, open_workbook O filepath false (Some bytes) = Ok wb /\
                   In name (sheetnames O wb)) ->
     workbook.create_sheet E O filepath (VStr name) w1 =
     (Raise (Exn WorkbookError ("Sheet " +:+ name +:+ " already exists") None),
      World (files w1) (trace w1 ++ [EvLog ERROR ("Sheet " +:+ name +:+ " already exists")])) /\
     exists wb, workbook.get_or_create_workbook E O filepath w1 = (Ok (handle O wb), w1)).
Proof.
  assert (Hdup : forall bytes,
            files w1 !! filepath = Some bytes ->
            (forall bytes0,
               files w1 !! filepath = Some bytes0 ->
               exists wb, open_workbook O filepath false (Some bytes0) = Ok wb /\
                          In name (sheetnames O wb)) ->
            workbook.create_sheet E O filepath (VStr name) w1 =
            (Raise (Exn WorkbookError ("Sheet " +:+ name +:+ " already exists") None),
             World (files w1)
               (trace w1 ++ [EvLog ERROR ("Sheet " +:+ name +:+ " already exists")]))).
  { intros bytes Hfile Hload. destruct (Hload bytes Hfile) as (wb & Hopen & Hin).
    rewrite create_sheet_run. cbv zeta. rewrite Hfile, Hopen.
    unfold in_names. by rewrite (proj2 (existsb_eqb_In name (sheetnames O wb)) Hin). }
  split.
  - intros H Hload.
    apply create_sheet_ok_inv in H as (_ & wb & wb' & bytes & _ & _ & _ & _ & ->).
    apply (Hdup bytes); [apply lookup_insert_eq|done].
  - intros upload H Hload.
    apply create_workbook_ok_inv in H as (wb & bytes & _ & _ & Hf & _).
    assert (Hfile : files w1 !! filepath = Some bytes) by (rewrite Hf; apply lookup_insert_eq).
    split; [by apply (Hdup bytes)|].
    destruct (Hload bytes Hfile) as (wb2 & Hopen & _).
    exists wb2. rewrite get_or_create_workbook_run. by rewrite Hfile, Hopen.
Qed.

Lemma a_sheet_is_not_created_twice_witness :
  workbook.create_sheet demo_env demo_openpyxl "/srv/excel/book.xlsx" (VStr "Totals")
    (workbook.create_sheet demo_env demo_openpyxl "/srv/excel/book.xlsx" (VStr "Totals")
       (World {["/srv/excel/book.xlsx" := "Sheet1,Data"]} [])).2
  = (Raise (Exn WorkbookError ("Sheet " +:+ "Totals" +:+ " already exists") None),
     World
       (files (workbook.create_sheet demo_env demo_openpyxl "/srv/excel/book.xlsx"
                 (VStr "Totals") (World {["/srv/excel/book.xlsx" := "Sheet1,Data"]} [])).2)
       (trace (workbook.create_sheet demo_env demo_openpyxl "/srv/excel/book.xlsx"
                 (VStr "Totals") (World {["/srv/excel/book.xlsx" := "Sheet1,Data"]} [])).2
        ++ [EvLog ERROR ("Sheet " +:+ "Totals" +:+ " already exists")])).
Proof.
  apply (proj1 (a_sheet_is_not_created_twice demo_env demo_openpyxl "/srv/excel/book.xlsx"
                  "Totals" (World {["/srv/excel/book.xlsx" := "Sheet1,Data"]} [])
                  [("message", VStr "Sheet Totals created successfully")]
                  (workbook.create_sheet demo_env demo_openpyxl "/srv/excel/book.xlsx"
                     (VStr "Totals") (World {["/srv/excel/book.xlsx" := "Sheet1,Data"]} [])).2)).
  - reflexivity.
  - intros bytes Hb. vm_compute in Hb. injection Hb as <-.
    eexists. split; [reflexivity|]. vm_compute. tauto.
Defined.
